(** * PyBB: value coercion and attribute resolution

    A shallow embedding of [PyBB.py], the client of the NodeBB forum API:
    the coercion function [process_data], the [__getattr__] methods of
    [Forum] and [User], the construction of both and the [image] property.

    Python values are an inductive type, a [str] is the list of its Unicode
    code points, a raised exception is the [Raise] case of a result type, and
    the requests of a constructor are logged by a small state monad.  The
    builtins the program calls ([str.isdigit], [int], [/], [datetime]'s
    [fromtimestamp] and [strptime], [urljoin]) follow CPython 3.11 with the
    tables of Unicode 14. *)

From Stdlib Require Import ZArith NArith List Ascii String Bool Lia.
From Stdlib Require Import Floats.SpecFloat.
From stdpp Require Import gmap.
Import ListNotations.

#[local] Set Warnings "-register-all".
#[local] Open Scope Z_scope.

(** ** Characters and strings *)

Module Unicode.

(** A code point. *)
Abbreviation char := N.

(** The code points of the digit zero of every decimal script
    (general category Nd); the nine that follow each are its digits
    1 to 9. *)
Definition decimal_zeros : list N :=
  [48; 1632; 1776; 1984; 2406; 2534; 2662; 2790; 2918; 3046; 3174; 3302;
   3430; 3558; 3664; 3792; 3872; 4160; 4240; 6112; 6160; 6470; 6608; 6784;
   6800; 6992; 7088; 7232; 7248; 42528; 43216; 43264; 43472; 43504; 43600;
   44016; 65296; 66720; 68912; 69734; 69872; 69942; 70096; 70384; 70736;
   70864; 71248; 71360; 71472; 71904; 72016; 72784; 73040; 73120; 92768;
   92864; 93008; 120782; 120792; 120802; 120812; 120822; 123200; 123632;
   125264; 130032]%N.

(** The ranges of the code points that are digits without being decimal
    (numeric type Digit): superscripts, subscripts, circled digits. *)
Definition other_digits : list (N * N) :=
  [(178, 179); (185, 185); (4969, 4977); (6618, 6618); (8304, 8304);
   (8308, 8313); (8320, 8329); (9312, 9320); (9332, 9340); (9352, 9360);
   (9450, 9450); (9461, 9469); (9471, 9471); (10102, 10110);
   (10112, 10120); (10122, 10130); (68160, 68163); (69216, 69224);
   (69714, 69722); (127232, 127242)]%N.

(** The ranges of the white space of [str.isspace]. *)
Definition spaces : list (N * N) :=
  [(9, 13); (28, 32); (133, 133); (160, 160); (5760, 5760); (8192, 8202);
   (8232, 8233); (8239, 8239); (8287, 8287); (12288, 12288)]%N.

Definition in_range (lo hi c : N) : bool := ((lo <=? c) && (c <=? hi))%N.

Definition in_ranges (rs : list (N * N)) (c : N) : bool :=
  existsb (fun r => in_range (fst r) (snd r) c) rs.

(** [Py_UNICODE_TODECIMAL]: the value of a decimal digit. *)
Definition to_decimal (c : char) : option N :=
  match find (fun z => in_range z (z + 9) c) decimal_zeros with
  | Some z => Some (c - z)%N
  | None => None
  end.

Definition isdecimal (c : char) : bool :=
  match to_decimal c with Some _ => true | None => false end.

(** [Py_UNICODE_ISDIGIT]. *)
Definition isdigit (c : char) : bool :=
  isdecimal c || in_ranges other_digits c.

Definition isspace (c : char) : bool := in_ranges spaces c.

(** The lower case of an ASCII letter; other code points are kept. *)
Definition ascii_lower (c : char) : char :=
  if in_range 65 90 c then (c + 32)%N else c.

End Unicode.

Module PyStr.

(** A Python [str]: its code points. *)
Abbreviation pystr := (list Unicode.char).

(** The [str] of an ASCII literal. *)
Definition lit (s : string) : pystr :=
  map N_of_ascii (list_ascii_of_string s).

(** [s.isdigit()]: every character is a digit and there is one at
    least. *)
Definition isdigit (s : pystr) : bool :=
  match s with
  | [] => false
  | _ => forallb Unicode.isdigit s
  end.

Definition lower (s : pystr) : pystr := map Unicode.ascii_lower s.

(** [sub in s] on strings. *)
Fixpoint is_prefix (p s : pystr) : bool :=
  match p, s with
  | [], _ => true
  | a :: p', b :: s' => (a =? b)%N && is_prefix p' s'
  | _ :: _, [] => false
  end.

Fixpoint contains (s sub : pystr) : bool :=
  is_prefix sub s ||
  match s with
  | [] => false
  | _ :: s' => contains s' sub
  end.

(** The decimal digits of a natural number, the most significant
    first. *)
Fixpoint digits_upto (fuel : nat) (n : N) (acc : pystr) : pystr :=
  match fuel with
  | O => acc
  | S fuel' =>
      let acc' := (48 + n mod 10)%N :: acc in
      if (n / 10 =? 0)%N then acc' else digits_upto fuel' (n / 10)%N acc'
  end.

Definition digits (n : N) : pystr :=
  digits_upto (S (N.to_nat (N.log2 n))) n [].

(** [str(n)] of an [int]. *)
Definition of_int (n : Z) : pystr :=
  if n <? 0 then 45%N :: digits (Z.abs_N n) else digits (Z.abs_N n).

(** ["%0wd" % n] for [0 <= n]. *)
Definition zfill (w : nat) (n : Z) : pystr :=
  let d := digits (Z.abs_N n) in
  repeat 48%N (w - length d) ++ d.

(** *** [int(s)]

    CPython first maps the text to ASCII: a code point above 127 becomes
    a blank when it is white space and its ASCII digit when it is
    decimal; any other ends the text with a '?'. *)
Fixpoint to_ascii (s : pystr) : pystr :=
  match s with
  | [] => []
  | c :: s' =>
      if (c <=? 127)%N then c :: to_ascii s'
      else if Unicode.isspace c then 32%N :: to_ascii s'
      else match Unicode.to_decimal c with
           | Some d => (48 + d)%N :: to_ascii s'
           | None => [63%N]
           end
  end.

Definition c_isspace (c : N) : bool :=
  Unicode.in_range 9 13 c || (c =? 32)%N.

Definition c_isdigit (c : N) : bool := Unicode.in_range 48 57 c.

Fixpoint skip_spaces (s : pystr) : pystr :=
  match s with
  | c :: s' => if c_isspace c then skip_spaces s' else s
  | [] => []
  end.

(** The digits of a literal in base 10, where one underscore may stand
    between two digits; gives the value read and the text left. *)
Fixpoint read_digits (s : pystr) (acc : N) : N * pystr :=
  match s with
  | c :: s' =>
      if c_isdigit c then read_digits s' (10 * acc + (c - 48))%N
      else if (c =? 95)%N then
        match s' with
        | c' :: _ => if c_isdigit c' then read_digits s' acc else (acc, s)
        | [] => (acc, s)
        end
      else (acc, s)
  | [] => (acc, [])
  end.

Definition read_unsigned (s : pystr) : option N :=
  match s with
  | c :: _ =>
      if c_isdigit c then
        let '(n, rest) := read_digits s 0%N in
        match skip_spaces rest with
        | [] => Some n
        | _ => None
        end
      else None
  | [] => None
  end.

(** [int(s)]; [None] when it raises [ValueError]. *)
Definition to_int (s : pystr) : option Z :=
  let t := skip_spaces (to_ascii s) in
  match t with
  | c :: t' =>
      if (c =? 45)%N then
        option_map (fun n => - Z.of_N n) (read_unsigned t')
      else if (c =? 43)%N then option_map Z.of_N (read_unsigned t')
      else option_map Z.of_N (read_unsigned t)
  | [] => None
  end.

End PyStr.

Abbreviation pystr := PyStr.pystr.
Notation "'py:' s" := (PyStr.lit s) (at level 9, s at level 0, format "'py:' s").

(** ** Exceptions *)

(** The classes of the exceptions the program can meet.
    [JSONDecodeError] is a subclass of [ValueError] and
    [RequestException] one of [OSError]. *)
Inductive exn_class :=
| ValueError | TypeError | OverflowError | ZeroDivisionError | KeyError
| OSError | JSONDecodeError | RequestException.

Definition exn_class_eqb (a b : exn_class) : bool :=
  match a, b with
  | ValueError, ValueError | TypeError, TypeError
  | OverflowError, OverflowError | ZeroDivisionError, ZeroDivisionError
  | KeyError, KeyError | OSError, OSError
  | JSONDecodeError, JSONDecodeError
  | RequestException, RequestException => true
  | _, _ => false
  end.

Definition issubclass (c parent : exn_class) : bool :=
  exn_class_eqb c parent ||
  match c, parent with
  | JSONDecodeError, ValueError | RequestException, OSError => true
  | _, _ => false
  end.

(** An exception: its class and its message. *)
Record exn := Exn { exn_cls : exn_class; exn_msg : string }.

(** The outcome of a call: a value returned or an exception raised. *)
Inductive result (A : Type) :=
| Ok (a : A)
| Raise (e : exn).
Arguments Ok {A} a.
Arguments Raise {A} e.

Definition raise {A} (c : exn_class) (msg : string) : result A :=
  Raise (Exn c msg).

Definition bind {A B} (r : result A) (k : A -> result B) : result B :=
  match r with
  | Ok a => k a
  | Raise e => Raise e
  end.

Declare Scope py_scope.
Delimit Scope py_scope with py.
Notation "'let*' x ':=' r 'in' k" := (bind r (fun x => k))
  (at level 10, x pattern, r at level 100, k at level 200) : py_scope.
#[local] Open Scope py_scope.

(** [except (c1, c2, ...)]: does the clause catch [e]? *)
Definition catches (classes : list exn_class) (e : exn) : bool :=
  existsb (issubclass (exn_cls e)) classes.

(** ** Binary64 floats

    The floats of Python are IEEE 754 binary64 numbers; the operations are
    those of the specification of the Standard Library, rounding to
    nearest, ties to even. *)

Module Float64.

Definition prec : Z := 53.
Definition emax : Z := 1024.

Definition float := spec_float.

(** [float(n)], rounded once. *)
Definition of_int (n : Z) : float :=
  binary_normalize prec emax n 0 false.

Definition mul (x y : float) : float := SFmul prec emax x y.
Definition div (x y : float) : float := SFdiv prec emax x y.

(** [modf]: the integral part (as an integer) and the fractional part
    of a finite float, both with the sign of the float; the fractional
    part is exact. *)
Definition modf (x : float) : option (Z * float) :=
  match x with
  | S754_zero _ => Some (0, x)
  | S754_finite s m e =>
      let sgn (z : Z) := if s then - z else z in
      if 0 <=? e then Some (sgn (Z.pos m * 2 ^ e), S754_zero s)
      else
        let i := Z.pos m / 2 ^ (- e) in
        let r := Z.pos m mod 2 ^ (- e) in
        Some (sgn i, binary_normalize prec emax (sgn r) e s)
  | _ => None
  end.

(** The integer nearest to a finite float, ties to the even one
    ([_PyTime_ROUND_HALF_EVEN]). *)
Definition round_half_even (x : float) : option Z :=
  match x with
  | S754_zero _ => Some 0
  | S754_finite s m e =>
      let sgn (z : Z) := if s then - z else z in
      if 0 <=? e then Some (sgn (Z.pos m * 2 ^ e))
      else
        let q := Z.pos m / 2 ^ (- e) in
        let r := Z.pos m mod 2 ^ (- e) in
        let up :=
          match 2 * r ?= 2 ^ (- e) with
          | Lt => false
          | Gt => true
          | Eq => Z.odd q
          end in
        Some (sgn (if up then q + 1 else q))
  | _ => None
  end.

End Float64.

(** [a / b] on [int]s: a float.  The quotient of the two conversions is
    the correctly rounded quotient CPython computes as long as both
    integers are below [2^53], as a 13-digit number and [1000] are. *)
Definition int_truediv (a b : Z) : result Float64.float :=
  if b =? 0 then raise ZeroDivisionError "division by zero"
  else Ok (Float64.div (Float64.of_int a) (Float64.of_int b)).

(** ** Dates and times *)

Module Datetime.

(** A naive [datetime.datetime] (no [tzinfo]; the [fold] flag, which
    neither [==] nor [str] reads, is left out). *)
Record datetime := mk {
  year : Z; month : Z; day : Z;
  hour : Z; minute : Z; second : Z; microsecond : Z
}.

(** The [struct tm] of C, as far as Python reads it. *)
Record tm := mk_tm {
  tm_year : Z;  (* years since 1900 *)
  tm_mon : Z;   (* 0 to 11 *)
  tm_mday : Z;
  tm_hour : Z; tm_min : Z; tm_sec : Z
}.

(** The platform: the local time of a number of seconds since the
    epoch, as [localtime_r] gives it for the time zone of the
    process. *)
Class Platform := { localtime : Z -> tm }.

Definition is_leap (y : Z) : bool :=
  (y mod 4 =? 0) && (negb (y mod 100 =? 0) || (y mod 400 =? 0)).

Definition days_in_month (y m : Z) : Z :=
  if m =? 2 then (if is_leap y then 29 else 28)
  else if (m =? 4) || (m =? 6) || (m =? 9) || (m =? 11) then 30
  else 31.

Definition between (lo hi x : Z) : bool := (lo <=? x) && (x <=? hi).

(** [datetime(year, month, day, hour, minute, second, microsecond)]:
    the constructor checks the date, then the time. *)
Definition new (y m d hh mm ss us : Z) : result datetime :=
  if negb (between 1 9999 y) then raise ValueError "year is out of range"
  else if negb (between 1 12 m) then raise ValueError "month must be in 1..12"
  else if negb (between 1 (days_in_month y m) d) then
    raise ValueError "day is out of range for month"
  else if negb (between 0 23 hh) then raise ValueError "hour must be in 0..23"
  else if negb (between 0 59 mm) then
    raise ValueError "minute must be in 0..59"
  else if negb (between 0 59 ss) then
    raise ValueError "second must be in 0..59"
  else if negb (between 0 999999 us) then
    raise ValueError "microsecond must be in 0..999999"
  else Ok (mk y m d hh mm ss us).

(** [str(dt)], that is [dt.isoformat(sep=' ')]. *)
Definition to_str (dt : datetime) : pystr :=
  PyStr.zfill 4 (year dt) ++ py:"-" ++ PyStr.zfill 2 (month dt) ++ py:"-"
  ++ PyStr.zfill 2 (day dt) ++ py:" " ++ PyStr.zfill 2 (hour dt) ++ py:":"
  ++ PyStr.zfill 2 (minute dt) ++ py:":" ++ PyStr.zfill 2 (second dt)
  ++ (if microsecond dt =? 0 then []
      else py:"." ++ PyStr.zfill 6 (microsecond dt)).

(** *** [datetime.fromtimestamp]

    [_PyTime_ObjectToTimeval] with [_PyTime_ROUND_HALF_EVEN]: the float
    is split by [modf], the fractional part is multiplied by [1e6] (a
    float product) and rounded to an integer; [time_t] has 64 bits. *)
Definition object_to_timeval (t : Float64.float) : result (Z * Z) :=
  match t with
  | S754_nan => raise ValueError "Invalid value NaN (not a number)"
  | _ =>
      match Float64.modf t with
      | Some (intpart, floatpart) =>
          let floatpart :=
            Float64.mul floatpart (Float64.of_int 1000000) in
          match Float64.round_half_even floatpart with
          | Some r =>
              let '(sec, us) :=
                if 1000000 <=? r then (intpart + 1, r - 1000000)
                else if r <? 0 then (intpart - 1, r + 1000000)
                else (intpart, r) in
              if between (- 2 ^ 63) (2 ^ 63 - 1) sec then Ok (sec, us)
              else raise OverflowError
                     "timestamp out of range for platform time_t"
          | None =>
              raise OverflowError
                "timestamp out of range for platform time_t"
          end
      | None =>
          raise OverflowError "timestamp out of range for platform time_t"
      end
  end.

(** The local time of the seconds, with the seconds capped at 59, and
    the microseconds go to the constructor. *)
Definition fromtimestamp `{Platform} (t : Float64.float)
  : result datetime :=
  let* (sec, us) := object_to_timeval t in
  let c := localtime sec in
  new (tm_year c + 1900) (tm_mon c + 1) (tm_mday c)
      (tm_hour c) (tm_min c) (Z.min 59 (tm_sec c)) us.

(** *** UTC as the local time zone

    [gmtime]: the civil date of a number of days since 1970-01-01, then
    the time of day. *)
Definition civil_of_days (days : Z) : Z * Z * Z :=
  let z := days + 719468 in
  let era := z / 146097 in
  let doe := z - era * 146097 in
  let yoe := (doe - doe / 1460 + doe / 36524 - doe / 146096) / 365 in
  let doy := doe - (365 * yoe + yoe / 4 - yoe / 100) in
  let mp := (5 * doy + 2) / 153 in
  let d := doy - (153 * mp + 2) / 5 + 1 in
  let m := if mp <? 10 then mp + 3 else mp - 9 in
  let y := yoe + era * 400 + (if m <=? 2 then 1 else 0) in
  (y, m, d).

Definition gmtime (t : Z) : tm :=
  let '(y, m, d) := civil_of_days (t / 86400) in
  let r := t mod 86400 in
  mk_tm (y - 1900) (m - 1) d (r / 3600) (r mod 3600 / 60) (r mod 60).

Definition utc : Platform := {| localtime := gmtime |}.

(** *** [datetime.strptime(s, "%Y-%m-%dT%H:%M:%S.%fZ")]

    [_strptime] turns the format into a regular expression, compiled
    with [re.IGNORECASE], and [match]es it at the start of the text.
    A matcher lists, in the order in which the backtracking matcher of
    [re] finds them, the ways to match at the start of a text: the text
    matched and the text left. *)
Definition matcher := pystr -> list (pystr * pystr).

Definition one (p : Unicode.char -> bool) : matcher :=
  fun s =>
    match s with
    | c :: s' => if p c then [([c], s')] else []
    | [] => []
    end.

Definition empty : matcher := fun s => [([], s)].

Definition seq (a b : matcher) : matcher :=
  fun s => '(x, s1) ← a s; '(y, s2) ← b s1; [(x ++ y, s2)].

Definition alt (a b : matcher) : matcher := fun s => a s ++ b s.

(** [a{0,n}], greedy. *)
Fixpoint upto (n : nat) (a : matcher) : matcher :=
  match n with
  | O => empty
  | S n' => alt (seq a (upto n' a)) empty
  end.

(** [[lo-hi]] on ASCII characters, [\d] (any decimal digit, the pattern
    being a [str]) and a literal, which [IGNORECASE] lets match in
    either case. *)
Definition range (lo hi : ascii) : matcher :=
  one (Unicode.in_range (N_of_ascii lo) (N_of_ascii hi)).
Definition chr (c : ascii) : matcher :=
  one (fun x => (Unicode.ascii_lower x =? Unicode.ascii_lower (N_of_ascii c))%N).
Definition d : matcher := one Unicode.isdecimal.

Declare Scope re_scope.
Delimit Scope re_scope with re.
Infix ">+" := seq (at level 40, left associativity) : re_scope.
Infix "<|>" := alt (at level 50, left associativity) : re_scope.
#[local] Open Scope re_scope.
#[local] Open Scope char_scope.

(** The directives of the format, from the table of [TimeRE]. *)
Definition re_Y : matcher := d >+ d >+ d >+ d.        (* \d\d\d\d *)
Definition re_m : matcher :=                 (* 1[0-2]|0[1-9]|[1-9] *)
  chr "1" >+ range "0" "2" <|> chr "0" >+ range "1" "9"
  <|> range "1" "9".
Definition re_d : matcher :=   (* 3[0-1]|[1-2]\d|0[1-9]|[1-9]| [1-9] *)
  chr "3" >+ range "0" "1" <|> range "1" "2" >+ d
  <|> chr "0" >+ range "1" "9" <|> range "1" "9"
  <|> chr " " >+ range "1" "9".
Definition re_H : matcher :=                    (* 2[0-3]|[0-1]\d|\d *)
  chr "2" >+ range "0" "3" <|> range "0" "1" >+ d <|> d.
Definition re_M : matcher :=                            (* [0-5]\d|\d *)
  range "0" "5" >+ d <|> d.
Definition re_S : matcher :=                    (* 6[0-1]|[0-5]\d|\d *)
  chr "6" >+ range "0" "1" <|> range "0" "5" >+ d <|> d.
Definition re_f : matcher :=                            (* [0-9]{1,6} *)
  range "0" "9" >+ upto 5 (range "0" "9").

(** The groups of a match. *)
Record groups := mk_groups {
  g_Y : pystr; g_m : pystr; g_d : pystr;
  g_H : pystr; g_M : pystr; g_S : pystr; g_f : pystr
}.

(** The matches of the whole expression
    [(?P<Y>..)-(?P<m>..)-(?P<d>..)T(?P<H>..):(?P<M>..):(?P<S>..)\.(?P<f>..)Z]. *)
Definition iso_matches (s : pystr) : list (groups * pystr) :=
  '(gY, s) ← re_Y s; '(_, s) ← chr "-" s;
  '(gm, s) ← re_m s; '(_, s) ← chr "-" s;
  '(gd, s) ← re_d s; '(_, s) ← chr "T" s;
  '(gH, s) ← re_H s; '(_, s) ← chr ":" s;
  '(gM, s) ← re_M s; '(_, s) ← chr ":" s;
  '(gS, s) ← re_S s; '(_, s) ← chr "." s;
  '(gf, s) ← re_f s; '(_, s) ← chr "Z" s;
  [(mk_groups gY gm gd gH gM gS gf, s)].

(** A directive followed by its separator: the matches of both, with
    the text of the directive. *)
Definition field_sep (re : matcher) (sep : ascii) (s : pystr)
  : list (pystr * pystr) :=
  '(g, s) ← re s; '(_, s) ← chr sep s; [(g, s)].

Definition group_int (g : pystr) : result Z :=
  match PyStr.to_int g with
  | Some n => Ok n
  | None => raise ValueError "invalid literal for int() with base 10"
  end.

(** [_strptime] and [_strptime_datetime] on a text: the first match
    counts, it has to reach the end of the text, the groups are read with
    [int] (the fraction padded with zeros to six digits) and go to the
    constructor. *)
Definition strptime_str (s : pystr) : result datetime :=
  match iso_matches s with
  | [] => raise ValueError "time data does not match format"
  | (g, rest) :: _ =>
      match rest with
      | _ :: _ => raise ValueError "unconverted data remains"
      | [] =>
          let* year := group_int (g_Y g) in
          let* month := group_int (g_m g) in
          let* day := group_int (g_d g) in
          let* hour := group_int (g_H g) in
          let* minute := group_int (g_M g) in
          let* second := group_int (g_S g) in
          let* fraction :=
            group_int (g_f g ++ repeat 48%N (6 - length (g_f g))) in
          new year month day hour minute second fraction
      end
  end.

End Datetime.

(** ** Values *)

(** The values a JSON document holds, and the [datetime]s the coercion
    makes of some. *)
Inductive value :=
| VNone
| VBool (b : bool)
| VInt (n : Z)
| VFloat (f : Float64.float)
| VStr (s : pystr)
| VList (l : list value)
| VDict (d : gmap pystr value)
| VDatetime (dt : Datetime.datetime).

(** [str(data)].  The text of a float, of a list and of a dict is not
    spelt out: the program only asks whether the text is made of digits,
    and such a text never is (a float prints with a '.', an 'e', "inf" or
    "nan", a list opens with '[' and a dict with '{'); [None] stands for
    it. *)
Definition py_str (data : value) : option pystr :=
  match data with
  | VNone => Some py:"None"
  | VBool b => Some (if b then py:"True" else py:"False")
  | VInt n => Some (PyStr.of_int n)
  | VStr s => Some s
  | VDatetime dt => Some (Datetime.to_str dt)
  | VFloat _ | VList _ | VDict _ => None
  end.

(** [str(data).isdigit() and len(str(data)) == 13]. *)
Definition is_13_digits (data : value) : bool :=
  match py_str data with
  | Some s => PyStr.isdigit s && (length s =? 13)%nat
  | None => false
  end.

(** [int(data)]. *)
Definition py_int (data : value) : result Z :=
  match data with
  | VInt n => Ok n
  | VBool b => Ok (if b then 1 else 0)
  | VStr s =>
      match PyStr.to_int s with
      | Some n => Ok n
      | None => raise ValueError "invalid literal for int() with base 10"
      end
  | VFloat f =>
      match f, Float64.modf f with
      | S754_nan, _ => raise ValueError "cannot convert float NaN to integer"
      | _, Some (i, _) => Ok i
      | _, None =>
          raise OverflowError "cannot convert float infinity to integer"
      end
  | _ => raise TypeError "int() argument must be a string or a real number"
  end.

(** The truth value of [data], as [not data] tests it. *)
Definition truthy (data : value) : bool :=
  match data with
  | VNone => false
  | VBool b => b
  | VInt n => negb (n =? 0)
  | VFloat f => match f with S754_zero _ => false | _ => true end
  | VStr s => match s with [] => false | _ => true end
  | VList l => match l with [] => false | _ => true end
  | VDict d => negb (Nat.eqb (size d) 0)
  | VDatetime _ => true
  end.

(** [key in container] for a [str] key: a key of a dict, an item of a
    list, a part of a [str]. *)
Definition py_contains (container : value) (key : pystr) : result bool :=
  match container with
  | VDict d => Ok (match d !! key with Some _ => true | None => false end)
  | VList l =>
      Ok (existsb (fun v => match v with
                            | VStr s => bool_decide (s = key)
                            | _ => false
                            end) l)
  | VStr s => Ok (PyStr.contains s key)
  | _ => raise TypeError "argument is not iterable"
  end.

(** [container[key]] for a [str] key. *)
Definition py_getitem (container : value) (key : pystr) : result value :=
  match container with
  | VDict d =>
      match d !! key with
      | Some v => Ok v
      | None => raise KeyError "key"
      end
  | VList _ | VStr _ => raise TypeError "indices must be integers"
  | _ => raise TypeError "object is not subscriptable"
  end.

(** [datetime.datetime.strptime(data, "%Y-%m-%dT%H:%M:%S.%fZ")]. *)
Definition strptime (data : value) : result Datetime.datetime :=
  match data with
  | VStr s => Datetime.strptime_str s
  | _ => raise TypeError "strptime() argument 1 must be str"
  end.

(** ** The coercion function *)

Section Coercion.

Context `{Datetime.Platform}.

Definition process_data (data : value) : result value :=
  (* Attempt to return a datetime object for a 13-digit timestamp *)
  if is_13_digits data then
    let* n := py_int data in
    let* t := int_truediv n 1000 in
    let* dt := Datetime.fromtimestamp t in
    Ok (VDatetime dt)
  else
    (* Attempt to return a datetime object for an ISO 8601-formatted
       date *)
    match strptime data with
    | Ok dt => Ok (VDatetime dt)
    | Raise e =>
        if catches [ValueError; TypeError] e then
          (* Return the raw value if it can't be converted *)
          Ok data
        else Raise e
    end.

End Coercion.

(** ** The network and the libraries around the program *)

Inductive request :=
| HEAD (url : pystr)
| GET (url : pystr).

(** A response of [requests]: the headers, a dictionary whose keys do
    not tell upper from lower case (they are kept here in lower case), the
    body as text and as bytes. *)
Record response := mk_response {
  headers : gmap pystr pystr;
  text : pystr;
  content : list N
}.

(** [headers.get(name)]. *)
Definition headers_get (h : gmap pystr pystr) (name : pystr)
  : option pystr :=
  h !! PyStr.lower name.

(** A decoded picture of PIL: the file it was opened from. *)
Record pil_image := mk_pil_image { image_file : list N }.

(** What the program does not hold itself: the servers (no response
    stands for a failure of the transport), [json.loads] (nothing for a
    text that is not JSON), the resolution of a reference against a base
    URL that [urljoin] does once both are [str] and not empty (nothing
    where it raises [ValueError], as on a broken IPv6 host), whether PIL
    could be imported, and [Image.open] (nothing for bytes it cannot
    identify). *)
Class World := {
  respond : request -> option response;
  json_loads : pystr -> option value;
  resolve : pystr -> pystr -> option pystr;
  hasPIL : bool;
  image_open : list N -> option pil_image
}.

(** A computation that sends requests: it extends the log of the
    requests sent so far and returns or raises. *)
Definition IO (A : Type) : Type := list request -> result A * list request.

Definition io_ret {A} (a : A) : IO A := fun log => (Ok a, log).

Definition io_lift {A} (r : result A) : IO A := fun log => (r, log).

Definition io_bind {A B} (m : IO A) (k : A -> IO B) : IO B :=
  fun log =>
    match m log with
    | (Ok a, log') => k a log'
    | (Raise e, log') => (Raise e, log')
    end.

Notation "'do' x '<-' m ';' k" := (io_bind m (fun x => k))
  (at level 10, x pattern, m at level 100, k at level 200) : py_scope.

Section Libraries.

Context `{Datetime.Platform} `{World}.

Definition send (r : request) : IO response :=
  fun log =>
    match respond r with
    | Some resp => (Ok resp, log ++ [r])
    | None => (raise RequestException "connection failed", log ++ [r])
    end.

Definition requests_head (url : pystr) : IO response := send (HEAD url).
Definition requests_get (url : pystr) : IO response := send (GET url).

Definition Image_open (file : list N) : result pil_image :=
  match image_open file with
  | Some img => Ok img
  | None => raise OSError "cannot identify image file"
  end.

Definition json_loads_text (t : pystr) : result value :=
  match json_loads t with
  | Some v => Ok v
  | None => raise JSONDecodeError "Expecting value"
  end.

(** [urljoin(base, url)] of two [str]: an empty one gives the
    other. *)
Definition urljoin_str (base url : pystr) : result pystr :=
  match base, url with
  | [], _ => Ok url
  | _, [] => Ok base
  | _, _ =>
      match resolve base url with
      | Some r => Ok r
      | None => raise ValueError "Invalid URL"
      end
  end.

(** [urljoin(base, url)] of a [str] and any value: a false [url] gives
    the base, an empty base gives [url], and a [url] that is true and
    no [str] raises. *)
Definition urljoin (base : pystr) (url : value) : result value :=
  match url with
  | VStr u => let* r := urljoin_str base u in Ok (VStr r)
  | _ =>
      match base with
      | [] => Ok url
      | _ =>
          if negb (truthy url) then Ok (VStr base)
          else raise TypeError "Cannot mix str and non-str arguments"
      end
  end.

End Libraries.

(** ** [class Forum] *)

Module Forum.

Record t := mk {
  url : pystr;
  head : gmap pystr pystr;
  endpoint : pystr;
  api_url : pystr;
  req : response;
  data : value;
  configurl : pystr;
  configreq : response;
  config : value;
  title : value
}.

Section Methods.

Context `{Datetime.Platform} `{World}.

Definition __init__ (url : pystr) : IO t :=
  do head <- requests_head url;
  if negb (bool_decide (headers_get (headers head) py:"X-Powered-By"
                        = Some py:"NodeBB"))
  then io_lift (raise ValueError "That's not a NodeBB forum")
  else
    (* URL for the API page about the forum *)
    do endpoint <- io_lift (urljoin_str url py:"api/");
    let api_url := endpoint in
    (* Requests object for the API call *)
    do req <- requests_get api_url;
    (* Dict representing API response *)
    do data <- io_lift (json_loads_text (text req));
    (* Forum config *)
    do configurl <- io_lift (urljoin_str endpoint py:"config");
    do configreq <- requests_get configurl;
    do config <- io_lift (json_loads_text (text configreq));
    (* Forum title *)
    do title <- io_lift (py_getitem config py:"siteTitle");
    io_ret (mk url (headers head) endpoint api_url req data
               configurl configreq config title).

(** Magic method that will try to return data directly from the API
    if no wrapper has been written: Python calls it for the names
    that are no attribute of the object or of its class. *)
Definition __getattr__ (self : t) (key : pystr) : result value :=
  let* out :=
    let* in_data := py_contains (data self) key in
    if in_data then py_getitem (data self) key
    else
      let* in_config := py_contains (config self) key in
      if in_config then py_getitem (config self) key
      else Ok VNone in
  process_data out.

End Methods.

End Forum.

(** ** [class User] *)

Module User.

Record t := mk {
  forum : Forum.t;
  username : pystr;
  api_url : pystr;
  req : response;
  data : value
}.

(** What [image] returns: the URL, when PIL is missing, or the picture
    PIL opened. *)
Inductive picture :=
| Url (imgurl : value)
| Image (img : pil_image).

Section Methods.

Context `{Datetime.Platform} `{World}.

Definition __init__ (forum : Forum.t) (username : pystr) : IO t :=
  (* URL for the API page about the user *)
  do api_url <-
    io_lift (urljoin_str (Forum.endpoint forum) (py:"user/" ++ username));
  (* Requests object for the API call *)
  do req <- requests_get api_url;
  (* Dict representing API response *)
  do data <- io_lift (json_loads_text (text req));
  io_ret (mk forum username api_url req data).

Definition __getattr__ (self : t) (key : pystr) : result value :=
  let* out :=
    let* in_data := py_contains (data self) key in
    if in_data then py_getitem (data self) key
    else Ok VNone in
  process_data out.

(** [requests.get(imgurl)] needs a [str]. *)
Definition requests_get_value (imgurl : value) : IO response :=
  match imgurl with
  | VStr u => requests_get u
  | _ => io_lift (raise RequestException "Invalid URL")
  end.

(** The property [image]; [self.picture] is no attribute of the
    object or of the class, so that it goes through [__getattr__]. *)
Definition image (self : t) : IO picture :=
  do picture <- io_lift (__getattr__ self py:"picture");
  do imgurl <- io_lift (urljoin (Forum.endpoint (forum self)) picture);
  if negb hasPIL then io_ret (Url imgurl)
  else
    do imgdata <- requests_get_value imgurl;
    do img <- io_lift (Image_open (content imgdata));
    io_ret (Image img).

End Methods.

End User.

(** [Forum.User], the factory. *)
Definition Forum_User `{Datetime.Platform} `{World}
  (self : Forum.t) (username : pystr) : IO User.t :=
  User.__init__ self username.

(** ** [repr] of a float

    [float.__repr__] writes the shortest text of decimal digits that
    reads back as the same float and, among the texts of that length, the
    nearest to the float (the even one on a tie). *)

Module FloatRepr.

(** Is [a / b < c * 10^j] (resp. [<=]), for positive [b]? *)
Definition scaled (c j : Z) : Z * Z :=
  if 0 <=? j then (c * 10 ^ j, 1) else (c, 10 ^ (- j)).

Definition cmp_ratio (a b c j : Z) : comparison :=
  let '(n, d) := scaled c j in a * d ?= n * b.

(** The decimal exponent [k] of a positive ratio:
    [10^(k-1) <= a / b < 10^k]. *)
Fixpoint adjust (fuel : nat) (a b k : Z) : Z :=
  match fuel with
  | O => k
  | S fuel' =>
      match cmp_ratio a b 1 (k - 1) with
      | Lt => adjust fuel' a b (k - 1)
      | _ =>
          match cmp_ratio a b 1 k with
          | Lt => k
          | _ => adjust fuel' a b (k + 1)
          end
      end
  end.

Definition decimal_exponent (a b : Z) : Z :=
  adjust 8 a b ((Z.log2 a - Z.log2 b) * 1233 / 4096).

(** The reals that round to the float [m * 2^e] lie between [lo] and
    [hi], the bounds counting when [m] is even; all three in units of
    [2^(e-2)]. *)
Definition interval (m : positive) (e : Z) : Z * Z * Z :=
  let x := 4 * Z.pos m in
  let lo := if (Z.pos m =? 2 ^ 52) && (- 1074 <? e) then x - 1 else x - 2 in
  (lo, x, x + 2).

(** The candidates of [n] digits and the one to take, if any. *)
Definition inside (even : bool) (lo hi b c j : Z) : bool :=
  match cmp_ratio lo b c j, cmp_ratio hi b c j with
  | Lt, Gt => true
  | Eq, Gt | Lt, Eq => even
  | _, _ => false
  end.

Definition candidate (even : bool) (lo x hi b k : Z) (n : Z) : option Z :=
  let j := k - n in
  let c := if 0 <=? j then x / (b * 10 ^ j) else x * 10 ^ (- j) / b in
  match inside even lo hi b c j, inside even lo hi b (c + 1) j with
  | true, false => Some c
  | false, true => Some (c + 1)
  | true, true =>
      match cmp_ratio (2 * x) b (2 * c + 1) j with
      | Lt => Some c
      | Gt => Some (c + 1)
      | Eq => Some (if Z.even c then c else c + 1)
      end
  | false, false => None
  end.

Fixpoint shortest (fuel : nat) (even : bool) (lo x hi b k n : Z)
  : Z * Z :=
  match fuel with
  | O => (x / b, 0)
  | S fuel' =>
      match candidate even lo x hi b k n with
      | Some c => (c, k - n)
      | None => shortest fuel' even lo x hi b k (n + 1)
      end
  end.

Fixpoint strip_zeros (fuel : nat) (c : Z) : Z :=
  match fuel with
  | O => c
  | S fuel' => if c mod 10 =? 0 then strip_zeros fuel' (c / 10) else c
  end.

(** The digits of the float and the position of the decimal point:
    the float is [0.d1d2... * 10^decpt]. *)
Definition digits_of (m : positive) (e : Z) : pystr * Z :=
  let '(lo, x, hi) := interval m e in
  let e2 := e - 2 in
  let '(lo, x, hi, b) :=
    if 0 <=? e2 then (lo * 2 ^ e2, x * 2 ^ e2, hi * 2 ^ e2, 1)
    else (lo, x, hi, 2 ^ (- e2)) in
  let k := decimal_exponent x b in
  let '(c, j) := shortest 17 (Z.even (Z.pos m)) lo x hi b k 1 in
  let ds := PyStr.digits (Z.to_N c) in
  let decpt := j + Z.of_nat (length ds) in
  (PyStr.digits (Z.to_N (strip_zeros 17 c)), decpt).

(** [format_float_short] with the code 'r'. *)
Definition zeros (n : Z) : pystr := repeat 48%N (Z.to_nat n).

Definition exponent (exp : Z) : pystr :=
  (if exp <? 0 then py:"e-" else py:"e+") ++ PyStr.zfill 2 (Z.abs exp).

Definition format (ds : pystr) (decpt : Z) : pystr :=
  let n := Z.of_nat (length ds) in
  if (decpt <=? - 4) || (16 <? decpt) then
    match ds with
    | [] => []
    | d :: rest =>
        d :: (match rest with [] => [] | _ => 46%N :: rest end)
        ++ exponent (decpt - 1)
    end
  else if decpt <=? 0 then py:"0." ++ zeros (- decpt) ++ ds
  else if n <=? decpt then ds ++ zeros (decpt - n) ++ py:".0"
  else firstn (Z.to_nat decpt) ds ++ 46%N :: skipn (Z.to_nat decpt) ds.

Definition sign (s : bool) : pystr := if s then py:"-" else [].

Definition repr (x : Float64.float) : pystr :=
  match x with
  | S754_zero s => sign s ++ py:"0.0"
  | S754_infinity s => sign s ++ py:"inf"
  | S754_nan => py:"nan"
  | S754_finite s m e =>
      let '(ds, decpt) := digits_of m e in sign s ++ format ds decpt
  end.

End FloatRepr.

(** ** Files *)

Module Posixpath.

(** [os.path.join(a, b)] on a POSIX system: an absolute [b] replaces
    [a]; otherwise the two are joined by one '/' unless [a] is empty or
    ends with one. *)
Definition join (a b : pystr) : pystr :=
  match b with
  | 47%N :: _ => b
  | _ =>
      match last a with
      | None => b
      | Some 47%N => a ++ b
      | Some _ => a ++ 47%N :: b
      end
  end.

End Posixpath.

(** ** [json.dumps(obj, indent=2, sort_keys=True)] *)

Module Json.

Definition hex (n : N) : N := if (n <? 10)%N then (48 + n)%N else (87 + n)%N.

(** ['\\u{0:04x}'.format(n)]. *)
Definition u_escape (n : N) : pystr :=
  [92; 117; hex (n / 4096 mod 16); hex (n / 256 mod 16);
   hex (n / 16 mod 16); hex (n mod 16)]%N.

(** The text of one character of a string: the two-character escapes,
    the printable ASCII characters as they are, [\uXXXX] for the rest,
    a surrogate pair above the basic plane. *)
Definition escape_char (c : N) : pystr :=
  if (c =? 34)%N then [92; 34]%N
  else if (c =? 92)%N then [92; 92]%N
  else if (c =? 10)%N then [92; 110]%N
  else if (c =? 13)%N then [92; 114]%N
  else if (c =? 9)%N then [92; 116]%N
  else if (c =? 8)%N then [92; 98]%N
  else if (c =? 12)%N then [92; 102]%N
  else if Unicode.in_range 32 126 c then [c]
  else if (c <? 65536)%N then u_escape c
  else
    let v := (c - 65536)%N in
    u_escape (N.lor 55296 (N.land (N.shiftr v 10) 1023))
    ++ u_escape (N.lor 56320 (N.land v 1023)).

Definition encode_basestring_ascii (s : pystr) : pystr :=
  34%N :: flat_map escape_char s ++ [34%N].

(** [int.__repr__]: the text of an [int] has at most 4300 digits. *)
Definition int_repr (n : Z) : result pystr :=
  if 10 ^ 4300 <=? Z.abs n then
    raise ValueError
      "Exceeds the limit (4300 digits) for integer string conversion"
  else Ok (PyStr.of_int n).

Definition floatstr (f : Float64.float) : pystr :=
  match f with
  | S754_nan => py:"NaN"
  | S754_infinity false => py:"Infinity"
  | S754_infinity true => py:"-Infinity"
  | _ => FloatRepr.repr f
  end.

(** A line break and the indentation of a level. *)
Definition newline_indent (level : nat) : pystr :=
  10%N :: repeat 32%N (2 * level).

Fixpoint join (sep : pystr) (chunks : list pystr) : pystr :=
  match chunks with
  | [] => []
  | [x] => x
  | x :: rest => x ++ sep ++ join sep rest
  end.

(** The first error of a list of outcomes, or all the values. *)
Fixpoint sequence {A} (l : list (result A)) : result (list A) :=
  match l with
  | [] => Ok []
  | r :: l' => let* a := r in let* rest := sequence l' in Ok (a :: rest)
  end.

(** The order of [str]: that of the code points, the shorter text
    first. *)
Fixpoint str_ltb (a b : pystr) : bool :=
  match a, b with
  | _, [] => false
  | [], _ :: _ => true
  | x :: a', y :: b' => (x <? y)%N || ((x =? y)%N && str_ltb a' b')
  end.

(** [sorted(items)]: the keys of a dict are all different. *)
Fixpoint insert_item {A} (x : pystr * A) (l : list (pystr * A))
  : list (pystr * A) :=
  match l with
  | [] => [x]
  | y :: l' => if str_ltb (fst y) (fst x) then y :: insert_item x l'
               else x :: l
  end.

Definition sorted_items {A} (l : list (pystr * A)) : list (pystr * A) :=
  fold_right insert_item [] l.

Definition block (opening closing : pystr) (level : nat)
    (chunks : list pystr) : pystr :=
  opening ++ newline_indent (S level)
  ++ join (py:"," ++ newline_indent (S level)) chunks
  ++ newline_indent level ++ closing.

Definition item (k : pystr) (r : result pystr) : result pystr :=
  let* t := r in Ok (encode_basestring_ascii k ++ py:": " ++ t).

(** [_iterencode(o, level)], the chunks put together.  The limit of the
    interpreter on the depth of the recursion is left out, as that on
    the memory is. *)
Fixpoint iterencode (o : value) (level : nat) {struct o} : result pystr :=
  match o with
  | VStr s => Ok (encode_basestring_ascii s)
  | VNone => Ok py:"null"
  | VBool b => Ok (if b then py:"true" else py:"false")
  | VInt n => int_repr n
  | VFloat f => Ok (floatstr f)
  | VList l =>
      match l with
      | [] => Ok py:"[]"
      | _ =>
          let* chunks :=
            sequence (map (fun v => iterencode v (S level)) l) in
          Ok (block py:"[" py:"]" level chunks)
      end
  | VDict d =>
      let items :=
        sorted_items
          (map_to_list ((fun v => iterencode v (S level)) <$> d)) in
      match items with
      | [] => Ok py:"{}"
      | _ =>
          let* chunks :=
            sequence (map (fun kr => item (fst kr) (snd kr)) items) in
          Ok (block py:"{" py:"}" level chunks)
      end
  | VDatetime _ =>
      raise TypeError "Object of type datetime is not JSON serializable"
  end.

Definition dumps (obj : value) : result pystr := iterencode obj 0.

End Json.

(** The events of the file system. *)
Inductive file_event :=
| Opened (path : pystr)
| Written (path text : pystr).

(** The disk: the error [open(path, 'w')] raises, if any, and the error
    of writing a text to the file and closing it, if any. *)
Class Disk := {
  open_error : pystr -> option exn;
  write_error : pystr -> pystr -> option exn
}.

Section Dumps.

Context `{Disk}.

(** [with open(path, 'w') as f: f.write(json.dumps(data, indent=2,
    sort_keys=True))]: the file is opened, and so emptied, before the
    text is made. *)
Definition dump (path : pystr) (data : value) (log : list file_event)
  : result unit * list file_event :=
  match open_error path with
  | Some e => (Raise e, log)
  | None =>
      match Json.dumps data with
      | Raise e => (Raise e, log ++ [Opened path])
      | Ok text =>
          match write_error path text with
          | Some e => (Raise e, log ++ [Opened path])
          | None => (Ok tt, log ++ [Opened path; Written path text])
          end
      end
  end.

(** [Forum.dump_data]: dump forum data to a JSON file. *)
Definition Forum_dump_data (self : Forum.t) (path : pystr) :=
  dump (Posixpath.join path (py:"forum" ++ py:".json")) (Forum.data self).

(** [User.dump_data]: dump user data to a JSON file. *)
Definition User_dump_data (self : User.t) (path : pystr) :=
  dump (Posixpath.join path (User.username self ++ py:".json"))
    (User.data self).

End Dumps.

(** ** Notions of the proofs on the files *)

Module JsonSpec.

(** The values [json.loads] makes: no timestamp, and the [int]s that
    have a text. *)
Fixpoint is_json (v : value) : bool :=
  match v with
  | VDatetime _ => false
  | VInt n => Z.abs n <? 10 ^ 4300
  | VList l => forallb is_json l
  | VDict d => map_fold (fun _ x ok => is_json x && ok) true d
  | _ => true
  end.

(** The characters of a text written with [ensure_ascii]: the printable
    ASCII characters and the line break. *)
Definition printable (c : N) : bool :=
  (c =? 10)%N || Unicode.in_range 32 126 c.

(** The size of a value. *)
Fixpoint size (v : value) : nat :=
  match v with
  | VList l => S (list_sum (map size l))
  | VDict d => S (map_fold (fun _ x n => size x + n)%nat 0%nat d)
  | _ => 1%nat
  end.

End JsonSpec.
(** ** Notions of the proofs on floats and on local times *)

Module Rounding.
(** A shift record locates the quotient [X / D]: its mantissa is the
    integral part, the round bit tells whether the rest reaches one half
    and the sticky bit whether anything is left besides. *)
Definition located (mrs : shr_record) (X D : Z) : Prop :=
  match shr_r mrs, shr_s mrs with
  | false, false => X = shr_m mrs * D
  | false, true => shr_m mrs * D < X /\ 2 * X < (2 * shr_m mrs + 1) * D
  | true, false => 2 * X = (2 * shr_m mrs + 1) * D
  | true, true => (2 * shr_m mrs + 1) * D < 2 * X /\ X < (shr_m mrs + 1) * D
  end.
End Rounding.

Module Tm.
(** The fields of a [struct tm] are those of a date and a time of the
    calendar of [datetime]. *)
Definition valid (c : Datetime.tm) : bool :=
  Datetime.between 1 9999 (Datetime.tm_year c + 1900)
  && Datetime.between 1 12 (Datetime.tm_mon c + 1)
  && Datetime.between 1
       (Datetime.days_in_month (Datetime.tm_year c + 1900)
          (Datetime.tm_mon c + 1))
       (Datetime.tm_mday c)
  && Datetime.between 0 23 (Datetime.tm_hour c)
  && Datetime.between 0 59 (Datetime.tm_min c)
  && (0 <=? Datetime.tm_sec c).

(** The timestamp of a [struct tm] and a number of microseconds. *)
Definition to_datetime (c : Datetime.tm) (us : Z) : Datetime.datetime :=
  Datetime.mk (Datetime.tm_year c + 1900) (Datetime.tm_mon c + 1)
    (Datetime.tm_mday c) (Datetime.tm_hour c) (Datetime.tm_min c)
    (Z.min 59 (Datetime.tm_sec c)) us.
End Tm.

(** ** The properties as the specification words them *)

Module Spec.

(** The number a text of decimal digits writes. *)
Definition digit_value (c : Unicode.char) : N :=
  match Unicode.to_decimal c with Some v => v | None => 0%N end.

Definition read (a : N) (c : Unicode.char) : N :=
  (10 * a + digit_value c)%N.

Definition decimal_value (s : pystr) : Z := Z.of_N (fold_left read s 0%N).

(** The timestamp of the Unix epoch plus [ms / 1000] seconds, to the
    microsecond and with no rounding, in the local time of the
    platform. *)
Definition epoch_plus_millis `{Datetime.Platform} (ms : Z)
  : result Datetime.datetime :=
  let c := Datetime.localtime (ms / 1000) in
  Datetime.new (Datetime.tm_year c + 1900) (Datetime.tm_mon c + 1)
    (Datetime.tm_mday c) (Datetime.tm_hour c) (Datetime.tm_min c)
    (Z.min 59 (Datetime.tm_sec c)) (ms mod 1000 * 1000).

(** A text fits a template when it has a digit from 0 to 9 where the
    template has a 'd' and the character of the template elsewhere. *)
Fixpoint fits (template s : pystr) : bool :=
  match template, s with
  | [], [] => true
  | t :: template', c :: s' =>
      (if (t =? 100)%N then PyStr.c_isdigit c else (c =? t)%N)
      && fits template' s'
  | _, _ => false
  end.

(** The exact pattern [YYYY-MM-DDTHH:MM:SS.ffffffZ]. *)
Definition iso_exact (s : pystr) : bool :=
  fits py:"dddd-dd-ddTdd:dd:dd.ddddddZ" s.

(** The head of the pattern, up to the point of the fraction, and a
    fraction filled with zeros up to six digits. *)
Definition iso_head (p : pystr) : bool := fits py:"dddd-dd-ddTdd:dd:dd." p.

Definition pad6 (f : pystr) : pystr := f ++ repeat 48%N (6 - length f).

(** The number written from position [i] on [n] characters. *)
Definition field (s : pystr) (i n : nat) : Z :=
  decimal_value (firstn n (skipn i s)).

(** The timestamp a text of the exact pattern writes, if it is one. *)
Definition iso_datetime (s : pystr) : result Datetime.datetime :=
  Datetime.new (field s 0 4) (field s 5 2) (field s 8 2)
    (field s 11 2) (field s 14 2) (field s 17 2) (field s 20 6).

(** The texts [strptime] can accept: a year of four digits, a month, a
    day, an hour, a minute and a second of one or two characters (digits,
    or a blank before the day), a fraction of one to six digits from 0 to
    9, with the separators of the pattern, 'T' and 'Z' in either case. *)
Definition field_char (c : Unicode.char) : Prop :=
  Unicode.isdecimal c = true \/ c = 32%N.

Definition short (t : pystr) : Prop :=
  (1 <= length t <= 2)%nat /\ Forall field_char t.

Definition iso_shaped (s : pystr) : Prop :=
  exists gY gm gd gH gM gS gf cT cZ,
    s = gY ++ 45%N :: gm ++ 45%N :: gd ++ cT :: gH ++ 58%N :: gM
        ++ 58%N :: gS ++ 46%N :: gf ++ [cZ]
    /\ length gY = 4%nat /\ Forall field_char gY
    /\ short gm /\ short gd /\ short gH /\ short gM /\ short gS
    /\ (1 <= length gf <= 6)%nat
    /\ Forall (fun c => PyStr.c_isdigit c = true) gf
    /\ (cT = 84%N \/ cT = 116%N) /\ (cZ = 90%N \/ cZ = 122%N).

(** The error of a server that is no NodeBB forum. *)
Definition not_nodebb : exn := Exn ValueError "That's not a NodeBB forum".

(** The picture of a user as the specification words it: the URL
    joined from the endpoint and the raw value of [picture], with no
    coercion. *)
Definition image_uncoerced `{World} (self : User.t) : result User.picture :=
  let* raw := py_getitem (User.data self) py:"picture" in
  let* imgurl := urljoin (Forum.endpoint (User.forum self)) raw in
  Ok (User.Url imgurl).

(** A value is timestamp-shaped when its text is 13 digits or when it
    is a [str] of the exact pattern. *)
Definition timestamp_shaped (x : value) : bool :=
  is_13_digits x
  || match x with VStr s => iso_exact s | _ => false end.

End Spec.

(** ** Notions of the proofs *)

Module Aux.

(** The ASCII digit of a decimal digit, and the powers of ten. *)
Definition ascii_digit (c : Unicode.char) : N :=
  (48 + Spec.digit_value c)%N.

Fixpoint pow10 (k : nat) : N :=
  match k with
  | O => 1%N
  | S k' => (10 * pow10 k')%N
  end.

(** Every match of a matcher splits the text, and the part matched has
    the property [P]. *)
Definition sound (P : pystr -> Prop) (a : Datetime.matcher) : Prop :=
  forall s t r, (t, r) ∈ a s -> s = t ++ r /\ P t.

(** The matchers of one character of a field. *)
Definition unit_char (a : Datetime.matcher) : Prop :=
  sound (fun t => exists c, t = [c] /\ Spec.field_char c) a.

End Aux.

(** ** Objects to try the program on *)

Module Sample.

(** A machine with no network and no PIL; a reference is resolved by
    writing it after the base. *)
Definition offline : World := {|
  respond := fun _ => None;
  json_loads := fun _ => None;
  resolve := fun base url => Some (base ++ url);
  hasPIL := false;
  image_open := fun _ => None
|}.

Definition no_response : response := mk_response ∅ [] [].

(** A server that answers every request with the same document and
    the header of NodeBB. *)
Definition nodebb (doc : value) : World := {|
  respond := fun _ =>
    Some (mk_response {[ py:"x-powered-by" := py:"NodeBB" ]} [] []);
  json_loads := fun _ => Some doc;
  resolve := fun base url => Some (base ++ url);
  hasPIL := false;
  image_open := fun _ => None
|}.

(** A server that names no software. *)
Definition bare : World := {|
  respond := fun _ => Some (mk_response ∅ [] []);
  json_loads := fun _ => None;
  resolve := fun base url => Some (base ++ url);
  hasPIL := false;
  image_open := fun _ => None
|}.

(** A server of some other software. *)
Definition apache : World := {|
  respond := fun _ =>
    Some (mk_response {[ py:"x-powered-by" := py:"PHP/8.2" ]} [] []);
  json_loads := fun _ => None;
  resolve := fun base url => Some (base ++ url);
  hasPIL := false;
  image_open := fun _ => None
|}.

Definition forum (data config : value) : Forum.t :=
  Forum.mk py:"http://f/" ∅ py:"http://f/api/" py:"http://f/api/"
    no_response data py:"http://f/api/config" no_response config
    (VStr py:"f").

Definition user (data : value) : User.t :=
  User.mk (forum (VDict ∅) (VDict ∅)) py:"u" py:"http://f/api/user/u"
    no_response data.

(** A NodeBB server on a machine with PIL, where every file is a
    picture. *)
Definition gallery (doc : value) : World := {|
  respond := fun _ =>
    Some (mk_response {[ py:"x-powered-by" := py:"NodeBB" ]} []
            [137%N; 80%N]);
  json_loads := fun _ => Some doc;
  resolve := fun base url => Some (base ++ url);
  hasPIL := true;
  image_open := fun file => Some (mk_pil_image file)
|}.

(** Documents: one whose key is null, a configuration, one with a
    title and one with a picture. *)
Definition shadow : gmap pystr value := {[ py:"a" := VNone ]}.
Definition settings : gmap pystr value :=
  {[ py:"a" := VInt 2; py:"b" := VInt 3 ]}.
Definition titled : value :=
  VDict ({[ py:"siteTitle" := VStr py:"f" ]} : gmap pystr value).
Definition with_picture : gmap pystr value :=
  {[ py:"picture" := VStr py:"u.png" ]}.

(** A disk that takes everything, one that cannot be written to, and a
    user whose name is a path from the root. *)
Definition disk : Disk := {|
  open_error := fun _ => None;
  write_error := fun _ _ => None
|}.

Definition read_only : Disk := {|
  open_error := fun _ => Some (Exn OSError "Read-only file system");
  write_error := fun _ _ => None
|}.

Definition rooted : User.t :=
  User.mk (Sample.forum (VDict ∅) (VDict ∅)) py:"/tmp/u"
    py:"http://f/tmp/u" Sample.no_response (VDict Sample.settings).

(** A document with a date in it, as a program may have put there. *)
Definition dated : value :=
  VList [VInt 1; VDatetime (Datetime.mk 2020 1 1 0 0 0 0)].

End Sample.

(** * Properties *)

(** ** Characters *)

(** Comparisons of code points, settled one at a time. *)
Ltac cmp_N :=
  repeat match goal with
         | |- context [(?a <=? ?b)%N] =>
             destruct (N.leb_spec a b); try lia; cbn [andb orb negb]
         | |- context [(?a =? ?b)%N] =>
             destruct (N.eqb_spec a b); try lia; cbn [andb orb negb]
         end;
  simpl; try reflexivity; try lia.

Lemma c_isdigit_range (c : N) :
  PyStr.c_isdigit c = true <-> (48 <= c <= 57)%N.
Proof.
  unfold PyStr.c_isdigit, Unicode.in_range.
  rewrite andb_true_iff, !N.leb_le. reflexivity.
Qed.

Lemma to_decimal_spec (c v : N) :
  Unicode.to_decimal c = Some v ->
  exists z, In z Unicode.decimal_zeros /\ (z <= c <= z + 9)%N /\ v = (c - z)%N.
Proof.
  unfold Unicode.to_decimal.
  destruct (find _ _) as [z|] eqn:Hf; [|discriminate].
  intros [= <-]. apply find_some in Hf as [Hin Hr].
  unfold Unicode.in_range in Hr. apply andb_true_iff in Hr as [H1 H2].
  apply N.leb_le in H1, H2. eauto.
Qed.

Lemma to_decimal_ascii (c : N) :
  PyStr.c_isdigit c = true -> Unicode.to_decimal c = Some (c - 48)%N.
Proof.
  intros Hc. apply c_isdigit_range in Hc.
  unfold Unicode.to_decimal, Unicode.decimal_zeros. cbn [find].
  unfold Unicode.in_range at 1. cmp_N.
Qed.

Lemma decimal_zeros_high (z : N) :
  In z Unicode.decimal_zeros -> z = 48%N \/ (1632 <= z)%N.
Proof.
  unfold Unicode.decimal_zeros. cbn [In].
  intros Hin. repeat (destruct Hin as [<- | Hin]; [lia |]). destruct Hin.
Qed.

Lemma to_decimal_low (c v : N) :
  Unicode.to_decimal c = Some v -> (c <= 127)%N ->
  PyStr.c_isdigit c = true /\ v = (c - 48)%N.
Proof.
  intros Hd Hc. apply to_decimal_spec in Hd as (z & Hin & Hr & ->).
  apply decimal_zeros_high in Hin as [-> | Hz]; [|lia].
  split; [apply c_isdigit_range; lia | reflexivity].
Qed.

Lemma to_decimal_lt10 (c v : N) :
  Unicode.to_decimal c = Some v -> (v < 10)%N.
Proof. intros Hd. apply to_decimal_spec in Hd as (z & _ & Hr & ->). lia. Qed.

Lemma decimal_not_space (c v : N) :
  Unicode.to_decimal c = Some v -> Unicode.isspace c = false.
Proof.
  intros Hd. apply to_decimal_spec in Hd as (z & Hin & Hr & _).
  assert (Hsep : forallb (fun z => forallb (fun r =>
            (snd r <? z)%N || (z + 9 <? fst r)%N) Unicode.spaces)
            Unicode.decimal_zeros = true) by (vm_compute; reflexivity).
  rewrite forallb_forall in Hsep. specialize (Hsep z Hin).
  rewrite forallb_forall in Hsep.
  unfold Unicode.isspace, Unicode.in_ranges.
  apply not_true_is_false. intros He.
  apply existsb_exists in He as (r & Hr' & Hc).
  specialize (Hsep r Hr'). unfold Unicode.in_range in Hc.
  apply andb_true_iff in Hc as [H1 H2]. apply N.leb_le in H1, H2.
  apply orb_true_iff in Hsep as [Hs | Hs]; apply N.ltb_lt in Hs; lia.
Qed.

Lemma isdecimal_isdigit (c : N) :
  Unicode.isdecimal c = true -> Unicode.isdigit c = true.
Proof. unfold Unicode.isdigit. intros ->. reflexivity. Qed.

(** *** [int] on a text of decimal digits *)


Lemma to_ascii_decimal (s : pystr) :
  forallb Unicode.isdecimal s = true ->
  PyStr.to_ascii s = map Aux.ascii_digit s.
Proof.
  induction s as [|c s IH]; [reflexivity|].
  cbn [forallb]. intros Hs. apply andb_true_iff in Hs as [Hc Hs].
  cbn [PyStr.to_ascii map]. rewrite (IH Hs).
  unfold Unicode.isdecimal in Hc. unfold Aux.ascii_digit, Spec.digit_value.
  destruct (Unicode.to_decimal c) as [v|] eqn:Hd; [|discriminate].
  destruct (N.leb_spec c 127).
  - apply (to_decimal_low _ _ Hd) in H as [Hr ->].
    apply c_isdigit_range in Hr. f_equal. lia.
  - rewrite (decimal_not_space _ _ Hd). reflexivity.
Qed.

Lemma ascii_digit_isdigit (c : N) :
  Unicode.isdecimal c = true -> PyStr.c_isdigit (Aux.ascii_digit c) = true.
Proof.
  unfold Unicode.isdecimal, Aux.ascii_digit, Spec.digit_value.
  destruct (Unicode.to_decimal c) as [v|] eqn:Hd; [|discriminate].
  intros _. apply to_decimal_lt10 in Hd. apply c_isdigit_range. lia.
Qed.

Lemma read_digits_decimal (s : pystr) (acc : N) :
  forallb Unicode.isdecimal s = true ->
  PyStr.read_digits (map Aux.ascii_digit s) acc
  = (fold_left Spec.read s acc, []).
Proof.
  revert acc. induction s as [|c s IH]; intros acc Hs; [reflexivity|].
  cbn [forallb] in Hs. apply andb_true_iff in Hs as [Hc Hs].
  cbn [map PyStr.read_digits fold_left].
  rewrite (ascii_digit_isdigit _ Hc), (IH _ Hs).
  unfold Spec.read, Aux.ascii_digit. do 3 f_equal. lia.
Qed.

Lemma to_int_decimal (s : pystr) :
  s <> [] -> forallb Unicode.isdecimal s = true ->
  PyStr.to_int s = Some (Spec.decimal_value s).
Proof.
  intros Hne Hs. unfold PyStr.to_int. rewrite (to_ascii_decimal _ Hs).
  destruct s as [|c s]; [congruence|].
  pose proof Hs as Hs'. cbn [forallb] in Hs'.
  apply andb_true_iff in Hs' as [Hc _].
  pose proof (ascii_digit_isdigit _ Hc) as Hd.
  pose proof Hd as Hr. apply c_isdigit_range in Hr.
  assert (Hsk : PyStr.skip_spaces (map Aux.ascii_digit (c :: s))
                = map Aux.ascii_digit (c :: s)).
  { cbn [map PyStr.skip_spaces]. unfold PyStr.c_isspace, Unicode.in_range.
    cmp_N. }
  rewrite Hsk.
  assert (Hu : PyStr.read_unsigned (map Aux.ascii_digit (c :: s))
               = Some (fold_left Spec.read (c :: s) 0%N)).
  { unfold PyStr.read_unsigned. rewrite (read_digits_decimal _ _ Hs).
    cbn [map]. rewrite Hd. reflexivity. }
  cbn [map] in *. cbv zeta.
  replace (Aux.ascii_digit c =? 45)%N with false by cmp_N.
  replace (Aux.ascii_digit c =? 43)%N with false by cmp_N.
  rewrite Hu. reflexivity.
Qed.

(** *** The text of an [int] *)

Lemma pow10_pos (k : nat) : (0 < Aux.pow10 k)%N.
Proof. induction k; cbn [Aux.pow10]; lia. Qed.

Lemma pow10_le (a b : nat) : (a <= b)%nat -> (Aux.pow10 a <= Aux.pow10 b)%N.
Proof.
  induction 1; [lia|]. cbn [Aux.pow10]. pose proof (pow10_pos m). lia.
Qed.

Lemma pow2_le_pow10 (k : nat) : (2 ^ N.of_nat k <= Aux.pow10 k)%N.
Proof.
  induction k; [cbn; lia|].
  rewrite Nat2N.inj_succ, N.pow_succ_r'. cbn [Aux.pow10]. lia.
Qed.

Lemma digit_value_ascii (v : N) :
  (v < 10)%N -> Spec.digit_value (48 + v)%N = v.
Proof.
  intros Hv. unfold Spec.digit_value.
  rewrite to_decimal_ascii by (apply c_isdigit_range; lia).
  f_equal. lia.
Qed.

Lemma digits_upto_spec (fuel : nat) : forall (n : N) (acc : pystr),
  (n < Aux.pow10 fuel)%N -> (1 <= fuel)%nat ->
  exists ds,
    PyStr.digits_upto fuel n acc = ds ++ acc
    /\ forallb PyStr.c_isdigit ds = true
    /\ (forall a, fold_left Spec.read ds a
                  = (a * Aux.pow10 (length ds) + n)%N)
    /\ (1 <= length ds)%nat
    /\ (n < Aux.pow10 (length ds))%N
    /\ (n <> 0%N -> (Aux.pow10 (length ds - 1) <= n)%N).
Proof.
  induction fuel as [|fuel IH]; intros n acc Hn Hf; [lia|].
  cbn [PyStr.digits_upto]. cbv zeta.
  assert (Hm : (n mod 10 < 10)%N) by (apply N.mod_lt; lia).
  assert (Hdm : n = (10 * (n / 10) + n mod 10)%N) by (apply N.div_mod; lia).
  set (r := (n mod 10)%N) in *. set (q := (n / 10)%N) in *.
  clearbody r q.
  assert (Hc : PyStr.c_isdigit (48 + r) = true)
    by (apply c_isdigit_range; lia).
  destruct (N.eqb_spec q 0) as [Hz | Hnz].
  - exists [(48 + r)%N]. cbn [app forallb fold_left length Aux.pow10].
    rewrite Hc. unfold Spec.read. rewrite digit_value_ascii by assumption.
    change (Aux.pow10 (1 - 1)) with 1%N.
    split; [reflexivity|]. split; [reflexivity|].
    split; [intros a; lia|]. repeat split; lia.
  - cbn [Aux.pow10] in Hn.
    assert (Hq : (q < Aux.pow10 fuel)%N) by lia.
    assert (Hf' : (1 <= fuel)%nat).
    { destruct fuel; [cbn in Hq; lia | lia]. }
    destruct (IH q ((48 + r)%N :: acc) Hq Hf')
      as (ds & -> & Hds & Hv & Hl & Hu & Hlo).
    exists (ds ++ [(48 + r)%N]).
    rewrite <- app_assoc. split; [reflexivity|].
    rewrite forallb_app, Hds. cbn [forallb]. rewrite Hc.
    rewrite length_app. cbn [length].
    replace (length ds + 1)%nat with (S (length ds)) by lia.
    cbn [Aux.pow10].
    split; [reflexivity|]. split.
    { intros a. rewrite fold_left_app, Hv. cbn [fold_left].
      unfold Spec.read at 1. rewrite digit_value_ascii by assumption. lia. }
    split; [lia|]. split; [lia|].
    intros _. specialize (Hlo Hnz).
    replace (S (length ds) - 1)%nat with (S (length ds - 1)) by lia.
    cbn [Aux.pow10]. lia.
Qed.

Lemma digits_spec (n : N) :
  forallb PyStr.c_isdigit (PyStr.digits n) = true
  /\ fold_left Spec.read (PyStr.digits n) 0%N = n
  /\ (1 <= length (PyStr.digits n))%nat
  /\ (n < Aux.pow10 (length (PyStr.digits n)))%N
  /\ (n <> 0%N -> (Aux.pow10 (length (PyStr.digits n) - 1) <= n)%N).
Proof.
  unfold PyStr.digits.
  assert (Hn : (n < Aux.pow10 (S (N.to_nat (N.log2 n))))%N).
  { eapply N.lt_le_trans; [|apply pow2_le_pow10].
    rewrite Nat2N.inj_succ, N2Nat.id.
    destruct n as [|p]; [cbn; lia|].
    apply N.log2_spec. lia. }
  destruct (digits_upto_spec _ n [] Hn ltac:(lia))
    as (ds & -> & Hds & Hv & Hl & Hu & Hlo).
  rewrite app_nil_r. repeat split; try assumption. rewrite Hv. lia.
Qed.

Lemma digits_length_13 (n : N) :
  (10 ^ 12 <= n < 10 ^ 13)%N -> length (PyStr.digits n) = 13%nat.
Proof.
  intros [Hlo Hhi]. destruct (digits_spec n) as (_ & _ & Hl & Hu & Hd).
  specialize (Hd ltac:(lia)).
  destruct (Nat.lt_trichotomy (length (PyStr.digits n)) 13) as [H|[H|H]];
    [| assumption |].
  - pose proof (pow10_le (length (PyStr.digits n)) 12 ltac:(lia)) as Hp.
    change (Aux.pow10 12) with (10 ^ 12)%N in Hp. lia.
  - pose proof (pow10_le 13 (length (PyStr.digits n) - 1) ltac:(lia)) as Hp.
    change (Aux.pow10 13) with (10 ^ 13)%N in Hp. lia.
Qed.

(** ** Matching the format *)

Section Matching.

Import Datetime.

Lemma mbind_ext {A B} (f g : A -> list B) (l : list A) :
  (forall x, f x = g x) -> l ≫= f = l ≫= g.
Proof.
  intros Hfg. induction l as [|x l IH]; [reflexivity|].
  cbn [mbind list_bind] in *. rewrite Hfg, IH. reflexivity.
Qed.

Lemma field_sep_bind {X} (re : matcher) (sep : ascii)
    (K : pystr * pystr -> list X) (s : pystr) :
  ('(g, s1) ← re s; '(_, s2) ← chr sep s1; K (g, s2))
  = field_sep re sep s ≫= K.
Proof.
  unfold field_sep. induction (re s) as [|[g s1] l IH]; [reflexivity|].
  cbn [mbind list_bind] in *. rewrite bind_app, IH. f_equal.
  unfold chr, one. destruct s1 as [|c s1]; [reflexivity|].
  destruct (_ =? _)%N; [|reflexivity]. cbn. rewrite !app_nil_r. reflexivity.
Qed.

Lemma iso_matches_fields (s : pystr) :
  iso_matches s
  = '(gY, s) ← field_sep re_Y "-" s; '(gm, s) ← field_sep re_m "-" s;
    '(gd, s) ← field_sep re_d "T" s; '(gH, s) ← field_sep re_H ":" s;
    '(gM, s) ← field_sep re_M ":" s; '(gS, s) ← field_sep re_S "." s;
    '(gf, s) ← field_sep re_f "Z" s;
    [(mk_groups gY gm gd gH gM gS gf, s)].
Proof.
  unfold iso_matches.
  repeat (rewrite <- field_sep_bind; apply mbind_ext; intros [? ?];
          apply mbind_ext; intros [? ?]).
  reflexivity.
Qed.

(** The two-digit directives on two digits from 0 to 9: both are
    taken, or the match fails, by the number they write. *)
Lemma digit_cases (c : N) :
  PyStr.c_isdigit c = true ->
  c = 48%N \/ c = 49%N \/ c = 50%N \/ c = 51%N \/ c = 52%N \/ c = 53%N
  \/ c = 54%N \/ c = 55%N \/ c = 56%N \/ c = 57%N.
Proof. rewrite c_isdigit_range. lia. Qed.

Ltac each_digit a H :=
  apply digit_cases in H;
  destruct H as [H|[H|[H|[H|[H|[H|[H|[H|[H|H]]]]]]]]]; subst a.

Ltac two_digits :=
  let Ha := fresh in let Hb := fresh in
  intros Ha Hb;
  match goal with
  | |- field_sep _ _ (?a :: ?b :: _) = _ =>
      each_digit a Ha; each_digit b Hb; vm_compute; reflexivity
  end.

Lemma re_m_digits (a b : N) (rest : pystr) :
  PyStr.c_isdigit a = true -> PyStr.c_isdigit b = true ->
  field_sep re_m "-" (a :: b :: 45%N :: rest)
  = if between 1 12 (Spec.decimal_value [a; b]) then [([a; b], rest)] else [].
Proof. two_digits. Qed.

Lemma re_d_digits (a b : N) (rest : pystr) :
  PyStr.c_isdigit a = true -> PyStr.c_isdigit b = true ->
  field_sep re_d "T" (a :: b :: 84%N :: rest)
  = if between 1 31 (Spec.decimal_value [a; b]) then [([a; b], rest)] else [].
Proof. two_digits. Qed.

Lemma re_H_digits (a b : N) (rest : pystr) :
  PyStr.c_isdigit a = true -> PyStr.c_isdigit b = true ->
  field_sep re_H ":" (a :: b :: 58%N :: rest)
  = if between 0 23 (Spec.decimal_value [a; b]) then [([a; b], rest)] else [].
Proof. two_digits. Qed.

Lemma re_M_digits (a b : N) (rest : pystr) :
  PyStr.c_isdigit a = true -> PyStr.c_isdigit b = true ->
  field_sep re_M ":" (a :: b :: 58%N :: rest)
  = if between 0 59 (Spec.decimal_value [a; b]) then [([a; b], rest)] else [].
Proof. two_digits. Qed.

Lemma re_S_digits (a b : N) (rest : pystr) :
  PyStr.c_isdigit a = true -> PyStr.c_isdigit b = true ->
  field_sep re_S "." (a :: b :: 46%N :: rest)
  = if between 0 61 (Spec.decimal_value [a; b]) then [([a; b], rest)] else [].
Proof. two_digits. Qed.


Lemma mbind_assoc {A B C} (f : A -> list B) (g : B -> list C) (l : list A) :
  (l ≫= f) ≫= g = l ≫= (fun x => f x ≫= g).
Proof.
  induction l as [|x l IH]; [reflexivity|].
  rewrite !bind_cons, bind_app, IH. reflexivity.
Qed.

Lemma one_hit (p : N -> bool) (c : N) (s : pystr) :
  p c = true -> one p (c :: s) = [([c], s)].
Proof. intros Hp. unfold one. rewrite Hp. reflexivity. Qed.

Lemma one_miss (p : N -> bool) (c : N) (s : pystr) :
  p c = false -> one p (c :: s) = [].
Proof. intros Hp. unfold one. rewrite Hp. reflexivity. Qed.

Lemma isdecimal_ascii (c : N) :
  PyStr.c_isdigit c = true -> Unicode.isdecimal c = true.
Proof.
  intros Hc. unfold Unicode.isdecimal. rewrite to_decimal_ascii by assumption.
  reflexivity.
Qed.

Lemma ascii_digits_decimal (ds : pystr) :
  forallb PyStr.c_isdigit ds = true -> forallb Unicode.isdecimal ds = true.
Proof.
  rewrite !forallb_forall. intros Hds c Hc. apply isdecimal_ascii. auto.
Qed.

Lemma re_Y_digits (y1 y2 y3 y4 : N) (rest : pystr) :
  PyStr.c_isdigit y1 = true -> PyStr.c_isdigit y2 = true ->
  PyStr.c_isdigit y3 = true -> PyStr.c_isdigit y4 = true ->
  field_sep re_Y "-" (y1 :: y2 :: y3 :: y4 :: 45%N :: rest)
  = [([y1; y2; y3; y4], rest)].
Proof.
  intros H1 H2 H3 H4. apply isdecimal_ascii in H1, H2, H3, H4.
  unfold field_sep, re_Y, seq, d.
  unfold chr.
  repeat (first [ rewrite one_hit by (assumption || reflexivity)
                | rewrite bind_singleton ]; cbn beta iota).
  reflexivity.
Qed.

(** The fraction: after its digits from 0 to 9, six at most, comes the
    final letter. *)
Lemma range09_hit (c : N) (s : pystr) :
  PyStr.c_isdigit c = true -> range "0" "9" (c :: s) = [([c], s)].
Proof. intros Hc. unfold range. apply one_hit. exact Hc. Qed.

Lemma upto_digits (n : nat) : forall (F : pystr -> pystr) (ds rest : pystr),
  forallb PyStr.c_isdigit ds = true -> (length ds <= n)%nat ->
  ('(g, s) ← upto n (range "0" "9") (ds ++ 90%N :: rest);
   '(_, s') ← chr "Z" s; [(F g, s')])
  = [(F ds, rest)].
Proof.
  induction n as [|n IH]; intros F ds rest Hds Hn.
  - destruct ds; [reflexivity | cbn in Hn; lia].
  - cbn [upto]. unfold alt. rewrite bind_app.
    destruct ds as [|c ds]; [reflexivity|].
    cbn [forallb] in Hds. apply andb_true_iff in Hds as [Hc Hds].
    cbn [length] in Hn. cbn [app].
    unfold seq at 1. rewrite range09_hit by exact Hc.
    rewrite bind_singleton. cbn beta iota.
    rewrite mbind_assoc.
    rewrite (mbind_ext _ (fun '(y, s2) =>
               '(_, s') ← chr "Z" s2; [(F (c :: y), s')])).
    2:{ intros [y s2]. rewrite bind_singleton. reflexivity. }
    rewrite (IH (fun g => F (c :: g))) by (assumption || lia).
    unfold empty. rewrite bind_singleton. unfold chr.
    rewrite one_miss; [reflexivity|].
    change (Unicode.ascii_lower (N_of_ascii "Z")) with 122%N.
    apply c_isdigit_range in Hc. unfold Unicode.ascii_lower, Unicode.in_range.
    cmp_N.
Qed.

Lemma re_f_digits (c : N) (ds rest : pystr) :
  forallb PyStr.c_isdigit (c :: ds) = true -> (length ds <= 5)%nat ->
  field_sep re_f "Z" (c :: ds ++ 90%N :: rest) = [(c :: ds, rest)].
Proof.
  cbn [forallb]. intros Hds Hn. apply andb_true_iff in Hds as [Hc Hds].
  unfold field_sep, re_f. unfold seq at 1.
  rewrite range09_hit by exact Hc. rewrite bind_singleton. cbn beta iota.
  rewrite mbind_assoc.
  rewrite (mbind_ext _ (fun '(y, s2) =>
             '(_, s') ← chr "Z" s2; [(c :: y, s')])).
  2:{ intros [y s2]. rewrite bind_singleton. reflexivity. }
  apply (upto_digits 5 (fun g => c :: g)); assumption.
Qed.

(** *** What a match looks like *)

Lemma sound_weaken (P Q : pystr -> Prop) (a : matcher) :
  (forall t, P t -> Q t) -> Aux.sound P a -> Aux.sound Q a.
Proof. intros HPQ Ha s t r Hin. destruct (Ha s t r Hin). auto. Qed.

Lemma sound_one (p : N -> bool) :
  Aux.sound (fun t => exists c, t = [c] /\ p c = true) (one p).
Proof.
  intros s t r. unfold one. destruct s as [|c s]; [by rewrite elem_of_nil|].
  destruct (p c) eqn:Hp; [|by rewrite elem_of_nil].
  rewrite list_elem_of_singleton. intros [= -> ->]. eauto.
Qed.

Lemma sound_seq (P Q : pystr -> Prop) (a b : matcher) :
  Aux.sound P a -> Aux.sound Q b ->
  Aux.sound (fun t => exists t1 t2, t = t1 ++ t2 /\ P t1 /\ Q t2) (seq a b).
Proof.
  intros Ha Hb s t r. unfold seq.
  rewrite list_elem_of_bind. intros ([t1 s1] & Hin & H1).
  apply list_elem_of_bind in Hin as ([t2 s2] & Hin & H2).
  apply list_elem_of_singleton in Hin as [= -> ->].
  destruct (Ha _ _ _ H1) as [-> HP]. destruct (Hb _ _ _ H2) as [-> HQ].
  rewrite app_assoc. eauto 6.
Qed.

Lemma sound_alt (P : pystr -> Prop) (a b : matcher) :
  Aux.sound P a -> Aux.sound P b -> Aux.sound P (alt a b).
Proof.
  intros Ha Hb s t r. unfold alt. rewrite elem_of_app.
  intros [Hin | Hin]; eauto.
Qed.

Lemma sound_empty : Aux.sound (fun t => t = []) empty.
Proof.
  intros s t r. unfold empty. rewrite list_elem_of_singleton.
  intros [= -> ->]. auto.
Qed.

Lemma sound_upto (P : N -> Prop) (p : N -> bool) (n : nat) :
  (forall c, p c = true -> P c) ->
  Aux.sound (fun t => (length t <= n)%nat /\ Forall P t) (upto n (one p)).
Proof.
  intros Hp. induction n as [|n IH]; cbn [upto].
  - eapply sound_weaken; [|apply sound_empty]. intros t ->. cbn. auto.
  - apply sound_alt.
    + eapply sound_weaken; [|apply (sound_seq _ _ _ _ (sound_one p) IH)].
      intros t (t1 & t2 & -> & (c & -> & Hc) & Hl & Hall).
      cbn. split; [lia|]. constructor; auto.
    + eapply sound_weaken; [|apply sound_empty]. intros t ->. cbn.
      split; [lia | constructor].
Qed.

Lemma unit_d : Aux.unit_char d.
Proof.
  eapply sound_weaken; [|apply sound_one].
  intros t (c & -> & Hc). exists c. split; [reflexivity | by left].
Qed.

Lemma unit_range (lo hi : ascii) :
  PyStr.c_isdigit (N_of_ascii lo) = true ->
  PyStr.c_isdigit (N_of_ascii hi) = true ->
  Aux.unit_char (range lo hi).
Proof.
  intros Hlo Hhi. eapply sound_weaken; [|apply sound_one].
  intros t (c & -> & Hc). exists c. split; [reflexivity|]. left.
  apply isdecimal_ascii. apply c_isdigit_range.
  apply c_isdigit_range in Hlo, Hhi.
  unfold Unicode.in_range in Hc. apply andb_true_iff in Hc as [H1 H2].
  apply N.leb_le in H1, H2. lia.
Qed.

Lemma ascii_lower_low (x n : N) :
  (n < 97)%N -> Unicode.ascii_lower x = n -> x = n.
Proof.
  unfold Unicode.ascii_lower, Unicode.in_range. intros Hn.
  destruct (N.leb_spec 65 x); destruct (N.leb_spec x 90);
    cbn [andb]; lia.
Qed.

Lemma sound_chr (c : ascii) :
  Aux.sound (fun t => exists x, t = [x]
           /\ Unicode.ascii_lower x = Unicode.ascii_lower (N_of_ascii c))
        (chr c).
Proof.
  eapply sound_weaken; [|apply sound_one].
  intros t (x & -> & Hx). apply N.eqb_eq in Hx. eauto.
Qed.

Lemma unit_chr (c : ascii) :
  Spec.field_char (N_of_ascii c) -> (N_of_ascii c < 65)%N ->
  Aux.unit_char (chr c).
Proof.
  intros Hc Hlt. eapply sound_weaken; [|apply sound_chr].
  intros t (x & -> & Hx). exists x. split; [reflexivity|].
  replace (Unicode.ascii_lower (N_of_ascii c)) with (N_of_ascii c) in Hx.
  - apply ascii_lower_low in Hx; [congruence | lia].
  - unfold Unicode.ascii_lower, Unicode.in_range.
    destruct (N.leb_spec 65 (N_of_ascii c)); [lia | reflexivity].
Qed.

Lemma short_unit (a : matcher) : Aux.unit_char a -> Aux.sound Spec.short a.
Proof.
  apply sound_weaken. intros t (c & -> & Hc). split; [cbn; lia|].
  constructor; [assumption | constructor].
Qed.

Lemma short_seq (a b : matcher) :
  Aux.unit_char a -> Aux.unit_char b -> Aux.sound Spec.short (seq a b).
Proof.
  intros Ha Hb. eapply sound_weaken; [|apply (sound_seq _ _ _ _ Ha Hb)].
  intros t (t1 & t2 & -> & (c1 & -> & H1) & (c2 & -> & H2)).
  split; [cbn; lia|].
  cbn [app]. repeat (apply List.Forall_cons; [assumption|]).
  apply List.Forall_nil.
Qed.

Ltac solve_unit_char :=
  first [ apply unit_d
        | apply unit_range; reflexivity
        | apply unit_chr; [first [left; reflexivity | right; reflexivity]
                          | reflexivity] ].

Ltac solve_short :=
  repeat apply sound_alt;
  first [ apply short_seq; solve_unit_char | apply short_unit; solve_unit_char ].

Lemma short_m : Aux.sound Spec.short re_m.
Proof. unfold re_m. solve_short. Qed.

Lemma short_d : Aux.sound Spec.short re_d.
Proof. unfold re_d. solve_short. Qed.

Lemma short_H : Aux.sound Spec.short re_H.
Proof. unfold re_H. solve_short. Qed.

Lemma short_M : Aux.sound Spec.short re_M.
Proof. unfold re_M. solve_short. Qed.

Lemma short_S : Aux.sound Spec.short re_S.
Proof. unfold re_S. solve_short. Qed.

Lemma sound_Y :
  Aux.sound (fun t => length t = 4%nat /\ Forall Spec.field_char t) re_Y.
Proof.
  unfold re_Y.
  eapply sound_weaken;
    [|apply (sound_seq _ _ _ _
               (sound_seq _ _ _ _ (sound_seq _ _ _ _ unit_d unit_d) unit_d)
               unit_d)].
  intros t (t123 & t4 & -> & (t12 & t3 & -> & (t1 & t2 & -> & H1 & H2) & H3)
            & H4).
  destruct H1 as (c1 & -> & H1), H2 as (c2 & -> & H2),
           H3 as (c3 & -> & H3), H4 as (c4 & -> & H4).
  split; [reflexivity|].
  cbn [app]. repeat (apply List.Forall_cons; [assumption|]).
  apply List.Forall_nil.
Qed.

Lemma sound_f :
  Aux.sound (fun t => (1 <= length t <= 6)%nat
                  /\ Forall (fun c => PyStr.c_isdigit c = true) t) re_f.
Proof.
  unfold re_f, range.
  eapply sound_weaken;
    [|apply (sound_seq _ _ _ _ (sound_one _)
               (sound_upto (fun c => PyStr.c_isdigit c = true) _ 5
                           (fun c H => H)))].
  intros t (t1 & t2 & -> & (c & -> & Hc) & Hl & Hall).
  cbn [app length]. split; [lia|]. constructor; assumption.
Qed.

Lemma sound_sep (c : ascii) (n : N) :
  N_of_ascii c = n -> (n < 65)%N -> Aux.sound (fun t => t = [n]) (chr c).
Proof.
  intros Hc Hn. eapply sound_weaken; [|apply sound_chr].
  intros t (x & -> & Hx). rewrite Hc in Hx.
  replace (Unicode.ascii_lower n) with n in Hx.
  - apply ascii_lower_low in Hx; [congruence | lia].
  - unfold Unicode.ascii_lower, Unicode.in_range.
    destruct (N.leb_spec 65 n); [lia | reflexivity].
Qed.

Lemma sound_letter (c : ascii) (n : N) :
  N_of_ascii c = n -> (65 <= n <= 90)%N ->
  Aux.sound (fun t => t = [n] \/ t = [(n + 32)%N]) (chr c).
Proof.
  intros Hc Hn. eapply sound_weaken; [|apply sound_chr].
  intros t (x & -> & Hx). rewrite Hc in Hx. revert Hx.
  unfold Unicode.ascii_lower, Unicode.in_range.
  destruct (N.leb_spec 65 n); [|lia]. destruct (N.leb_spec n 90); [|lia].
  cbn [andb].
  destruct (N.leb_spec 65 x); destruct (N.leb_spec x 90); cbn [andb];
    intros Hx; [left | right | right | right]; f_equal; lia.
Qed.

End Matching.

(** ** [strptime] *)

Section Strptime.

Import Datetime.

Lemma iso_matches_shape (s r : pystr) (g : groups) :
  (g, r) ∈ iso_matches s ->
  exists cT cZ,
    s = g_Y g ++ 45%N :: g_m g ++ 45%N :: g_d g ++ cT :: g_H g ++ 58%N
        :: g_M g ++ 58%N :: g_S g ++ 46%N :: g_f g ++ cZ :: r
    /\ length (g_Y g) = 4%nat /\ Forall Spec.field_char (g_Y g)
    /\ Spec.short (g_m g) /\ Spec.short (g_d g) /\ Spec.short (g_H g)
    /\ Spec.short (g_M g) /\ Spec.short (g_S g)
    /\ (1 <= length (g_f g) <= 6)%nat
    /\ Forall (fun c => PyStr.c_isdigit c = true) (g_f g)
    /\ (cT = 84%N \/ cT = 116%N) /\ (cZ = 90%N \/ cZ = 122%N).
Proof.
  unfold iso_matches. intros Hin.
  repeat match type of Hin with
         | _ ∈ _ ≫= _ =>
             let p := fresh "p" in
             apply list_elem_of_bind in Hin as ([? ?] & Hin & ?)
         end.
  apply list_elem_of_singleton in Hin as [= -> ->]. cbn [g_Y g_m g_d g_H g_M g_S g_f].
  repeat match goal with
         | H : _ ∈ re_Y _ |- _ => apply sound_Y in H as [-> [? ?]]
         | H : _ ∈ re_m _ |- _ => apply short_m in H as [-> ?]
         | H : _ ∈ re_d _ |- _ => apply short_d in H as [-> ?]
         | H : _ ∈ re_H _ |- _ => apply short_H in H as [-> ?]
         | H : _ ∈ re_M _ |- _ => apply short_M in H as [-> ?]
         | H : _ ∈ re_S _ |- _ => apply short_S in H as [-> ?]
         | H : _ ∈ re_f _ |- _ => apply sound_f in H as [-> [? ?]]
         | H : _ ∈ chr "-" _ |- _ =>
             apply (sound_sep "-" 45 eq_refl eq_refl) in H as [-> ->]
         | H : _ ∈ chr ":" _ |- _ =>
             apply (sound_sep ":" 58 eq_refl eq_refl) in H as [-> ->]
         | H : _ ∈ chr "." _ |- _ =>
             apply (sound_sep "." 46 eq_refl eq_refl) in H as [-> ->]
         end.
  match goal with
  | H : _ ∈ chr "T" _ |- _ =>
      apply (sound_letter "T" 84 eq_refl ltac:(lia)) in H as [-> HT]
  end.
  match goal with
  | H : _ ∈ chr "Z" _ |- _ =>
      apply (sound_letter "Z" 90 eq_refl ltac:(lia)) in H as [-> HZ]
  end.
  destruct HT as [-> | ->], HZ as [-> | ->]; cbn [app];
    rewrite <- ?app_assoc; cbn [app]; eexists _, _;
    (split; [reflexivity|]);
    repeat match goal with |- _ /\ _ => split end; auto; lia.
Qed.

Lemma strptime_str_matches (s : pystr) (dt : datetime) :
  strptime_str s = Ok dt -> exists g, (g, []) ∈ iso_matches s.
Proof.
  unfold strptime_str. destruct (iso_matches s) as [|[g rest] l] eqn:Hm.
  - discriminate.
  - destruct rest; [|discriminate]. intros _. exists g. left.
Qed.

(** A text [strptime] accepts has the shape of the format. *)
Lemma strptime_str_shaped (s : pystr) (dt : datetime) :
  strptime_str s = Ok dt -> Spec.iso_shaped s.
Proof.
  intros Hs. apply strptime_str_matches in Hs as [g Hg].
  apply iso_matches_shape in Hg as (cT & cZ & Hs & H).
  unfold Spec.iso_shaped. exists (g_Y g), (g_m g), (g_d g), (g_H g),
    (g_M g), (g_S g), (g_f g), cT, cZ.
  split; [exact Hs | exact H].
Qed.



Lemma iso_shaped_last (s : pystr) :
  Spec.iso_shaped s -> last s = Some 90%N \/ last s = Some 122%N.
Proof.
  intros (gY & gm & gd & gH & gM & gS & gf & cT & cZ & -> & H).
  assert (HZ : cZ = 90%N \/ cZ = 122%N) by tauto.
  repeat (rewrite ?app_comm_cons, ?app_assoc).
  rewrite last_snoc. destruct HZ as [-> | ->]; auto.
Qed.

(** *** The constructor *)

Lemma new_Ok_inv (y m d hh mm ss us : Z) (dt : datetime) :
  new y m d hh mm ss us = Ok dt ->
  dt = mk y m d hh mm ss us
  /\ between 1 9999 y = true /\ between 1 12 m = true
  /\ between 1 (days_in_month y m) d = true
  /\ between 0 23 hh = true /\ between 0 59 mm = true
  /\ between 0 59 ss = true /\ between 0 999999 us = true.
Proof.
  unfold new, raise.
  repeat match goal with
         | |- context [negb (between ?a ?b ?c)] =>
             destruct (between a b c); cbn [negb]; [|discriminate]
         end.
  intros [= <-]. tauto.
Qed.

Lemma new_raises (y m d hh mm ss us : Z) (e : exn) :
  new y m d hh mm ss us = Raise e -> exn_cls e = ValueError.
Proof.
  unfold new, raise.
  repeat match goal with
         | |- context [negb (between ?a ?b ?c)] =>
             destruct (between a b c); cbn [negb];
             [|intros [= <-]; reflexivity]
         end.
  discriminate.
Qed.

Lemma days_in_month_le (y m : Z) : days_in_month y m <= 31.
Proof.
  unfold days_in_month.
  destruct (m =? 2); [destruct (is_leap y); lia|].
  destruct (_ || _); lia.
Qed.

Lemma between_wider (lo hi hi' x : Z) :
  hi <= hi' -> between lo hi x = true -> between lo hi' x = true.
Proof.
  unfold between. rewrite !andb_true_iff, !Z.leb_le. lia.
Qed.

Lemma group_int_decimal (g : pystr) :
  g <> [] -> forallb Unicode.isdecimal g = true ->
  group_int g = Ok (Spec.decimal_value g).
Proof.
  intros Hne Hg. unfold group_int. rewrite to_int_decimal by assumption.
  reflexivity.
Qed.

Lemma strptime_str_raises (s : pystr) (e : exn) :
  strptime_str s = Raise e -> exn_cls e = ValueError.
Proof.
  unfold strptime_str, group_int, raise.
  destruct (iso_matches s) as [|[g rest] l]; [intros [= <-]; reflexivity|].
  destruct rest; [|intros [= <-]; reflexivity].
  repeat match goal with
         | |- context [PyStr.to_int ?t] =>
             destruct (PyStr.to_int t); cbn [bind];
             [|intros [= <-]; reflexivity]
         end.
  apply new_raises.
Qed.


(** *** The texts of the exact pattern *)

Lemma iso_exact_inv (s : pystr) :
  Spec.iso_exact s = true ->
  exists y1 y2 y3 y4 m1 m2 d1 d2 h1 h2 n1 n2 s1 s2 f1 f2 f3 f4 f5 f6,
    s = [y1; y2; y3; y4; 45; m1; m2; 45; d1; d2; 84; h1; h2; 58; n1; n2;
         58; s1; s2; 46; f1; f2; f3; f4; f5; f6; 90]%N
    /\ forallb PyStr.c_isdigit
         [y1; y2; y3; y4; m1; m2; d1; d2; h1; h2; n1; n2; s1; s2;
          f1; f2; f3; f4; f5; f6] = true.
Proof.
  unfold Spec.iso_exact. intros H.
  remember (py:"dddd-dd-ddTdd:dd:dd.ddddddZ") as t eqn:Ht.
  vm_compute in Ht. subst t.
  repeat (destruct s as [|? s]; cbn [Spec.fits N.eqb Pos.eqb] in H;
          [discriminate|]; apply andb_true_iff in H as [? H]).
  destruct s; [|discriminate].
  repeat match goal with
         | H : (_ =? _)%N = true |- _ => apply N.eqb_eq in H; subst
         end.
  do 20 eexists. split; [reflexivity|].
  cbn [forallb].
  repeat match goal with
         | H : PyStr.c_isdigit _ = true |- _ => rewrite H; clear H
         end.
  reflexivity.
Qed.


Lemma iso_head_inv (p : pystr) :
  Spec.iso_head p = true ->
  exists y1 y2 y3 y4 m1 m2 d1 d2 h1 h2 n1 n2 s1 s2,
    p = [y1; y2; y3; y4; 45; m1; m2; 45; d1; d2; 84; h1; h2; 58; n1; n2;
         58; s1; s2; 46]%N
    /\ forallb PyStr.c_isdigit
         [y1; y2; y3; y4; m1; m2; d1; d2; h1; h2; n1; n2; s1; s2] = true.
Proof.
  unfold Spec.iso_head. intros H.
  remember (py:"dddd-dd-ddTdd:dd:dd.") as t eqn:Ht.
  vm_compute in Ht. subst t.
  repeat (destruct p as [|? p]; cbn [Spec.fits N.eqb Pos.eqb] in H;
          [discriminate|]; apply andb_true_iff in H as [? H]).
  destruct p; [|discriminate].
  repeat match goal with
         | H : (_ =? _)%N = true |- _ => apply N.eqb_eq in H; subst
         end.
  do 14 eexists. split; [reflexivity|].
  cbn [forallb].
  repeat match goal with
         | H : PyStr.c_isdigit _ = true |- _ => rewrite H; clear H
         end.
  reflexivity.
Qed.

Lemma pad6_digits (f : pystr) :
  forallb PyStr.c_isdigit f = true ->
  forallb PyStr.c_isdigit (Spec.pad6 f) = true.
Proof.
  intros Hf. unfold Spec.pad6. rewrite forallb_app, Hf. cbn [andb].
  induction (6 - length f)%nat; [reflexivity | assumption].
Qed.

Lemma pad6_length (f : pystr) :
  (length f <= 6)%nat -> length (Spec.pad6 f) = 6%nat.
Proof.
  intros Hf. unfold Spec.pad6. rewrite length_app, repeat_length. lia.
Qed.

Ltac decimal_side :=
  first [ discriminate
        | cbn [forallb]; rewrite ?isdecimal_ascii by assumption;
          reflexivity ].

(** On the head of the pattern, a fraction of one to six digits and the
    final Z, [strptime] gives the timestamp that the text with the
    fraction filled up writes, and raises when that text writes none. *)
Lemma strptime_str_padded (p f : pystr) :
  Spec.iso_head p = true -> forallb PyStr.c_isdigit f = true ->
  (1 <= length f <= 6)%nat ->
  strptime_str (p ++ f ++ [90%N])
  = Spec.iso_datetime (p ++ Spec.pad6 f ++ [90%N])
  \/ exists msg e,
       strptime_str (p ++ f ++ [90%N]) = raise ValueError msg
       /\ Spec.iso_datetime (p ++ Spec.pad6 f ++ [90%N]) = Raise e.
Proof.
  intros Hp Hf Hl.
  apply iso_head_inv in Hp
    as (y1 & y2 & y3 & y4 & m1 & m2 & d1 & d2 & h1 & h2 & n1 & n2 & s1 & s2
        & -> & Hall).
  cbn [forallb] in Hall.
  repeat match type of Hall with
         | _ && _ = true => apply andb_true_iff in Hall as [? Hall]
         end.
  clear Hall.
  unfold Spec.iso_datetime, Spec.field. cbn [app firstn skipn]. rewrite drop_0.
  rewrite (take_app_length' (Spec.pad6 f) [90%N] 6)
    by (rewrite pad6_length; lia).
  unfold strptime_str. rewrite iso_matches_fields.
  rewrite re_Y_digits by assumption. rewrite bind_singleton.
  cbn beta iota.
  rewrite re_m_digits by assumption.
  destruct (between 1 12 _) eqn:Hm; cycle 1.
  { right. destruct (new _ _ _ _ _ _ _) eqn:Hn; [|eauto].
    apply new_Ok_inv in Hn. rewrite Hm in Hn.
    destruct Hn as (_ & _ & ? & _). discriminate. }
  rewrite bind_singleton. cbn beta iota.
  rewrite re_d_digits by assumption.
  destruct (between 1 31 _) eqn:Hd; cycle 1.
  { right. destruct (new _ _ _ _ _ _ _) eqn:Hn; [|eauto].
    apply new_Ok_inv in Hn. destruct Hn as (_ & _ & _ & Hn & _).
    apply (between_wider _ _ 31) in Hn; [|apply days_in_month_le].
    rewrite Hd in Hn. discriminate. }
  rewrite bind_singleton. cbn beta iota.
  rewrite re_H_digits by assumption.
  destruct (between 0 23 _) eqn:HH; cycle 1.
  { right. destruct (new _ _ _ _ _ _ _) eqn:Hn; [|eauto].
    apply new_Ok_inv in Hn. rewrite HH in Hn.
    destruct Hn as (_ & _ & _ & _ & ? & _). discriminate. }
  rewrite bind_singleton. cbn beta iota.
  rewrite re_M_digits by assumption.
  destruct (between 0 59 _) eqn:HM; cycle 1.
  { right. destruct (new _ _ _ _ _ _ _) eqn:Hn; [|eauto].
    apply new_Ok_inv in Hn. rewrite HM in Hn.
    destruct Hn as (_ & _ & _ & _ & _ & ? & _). discriminate. }
  rewrite bind_singleton. cbn beta iota.
  rewrite re_S_digits by assumption.
  destruct (between 0 61 _) eqn:HS; cycle 1.
  { right. destruct (new _ _ _ _ _ _ _) eqn:Hn; [|eauto].
    apply new_Ok_inv in Hn. destruct Hn as (_ & _ & _ & _ & _ & _ & Hn & _).
    apply (between_wider _ _ 61) in Hn; [|lia].
    rewrite HS in Hn. discriminate. }
  rewrite bind_singleton. cbn beta iota.
  destruct f as [|c ds]; [cbn in Hl; lia|].
  cbn [length] in Hl. cbn [app].
  rewrite re_f_digits by (assumption || lia).
  rewrite bind_singleton. cbn beta iota.
  cbn [g_Y g_m g_d g_H g_M g_S g_f].
  fold (Spec.pad6 (c :: ds)).
  pose proof (pad6_digits _ Hf) as Hpad.
  rewrite !group_int_decimal by decimal_side.
  rewrite (group_int_decimal (Spec.pad6 (c :: ds)));
    [| discriminate | apply ascii_digits_decimal; assumption].
  left. reflexivity.
Qed.

(** On a text of the exact pattern [strptime] gives the timestamp the
    text writes, and raises when the text writes none. *)
Lemma strptime_str_exact (s : pystr) :
  Spec.iso_exact s = true ->
  strptime_str s = Spec.iso_datetime s
  \/ exists msg e, strptime_str s = raise ValueError msg
                   /\ Spec.iso_datetime s = Raise e.
Proof.
  intros Hs.
  apply iso_exact_inv in Hs
    as (y1 & y2 & y3 & y4 & m1 & m2 & d1 & d2 & h1 & h2 & n1 & n2 & s1 & s2
        & f1 & f2 & f3 & f4 & f5 & f6 & -> & Hall).
  cbn [forallb] in Hall.
  repeat match type of Hall with
         | _ && _ = true => apply andb_true_iff in Hall as [? Hall]
         end.
  apply (strptime_str_padded
           [y1; y2; y3; y4; 45; m1; m2; 45; d1; d2; 84; h1; h2; 58; n1; n2;
            58; s1; s2; 46]%N [f1; f2; f3; f4; f5; f6]).
  - unfold Spec.iso_head.
    remember (py:"dddd-dd-ddTdd:dd:dd.") as t eqn:Ht.
    vm_compute in Ht. subst t. cbn [Spec.fits N.eqb Pos.eqb].
    repeat match goal with
           | H : PyStr.c_isdigit _ = true |- _ => rewrite H; clear H
           end.
    rewrite ?N.eqb_refl. reflexivity.
  - cbn [forallb].
    repeat match goal with
           | H : PyStr.c_isdigit _ = true |- _ => rewrite H; clear H
           end.
    reflexivity.
  - cbn [length]. lia.
Qed.
End Strptime.

(** ** The coercion function *)

Section Coercion_facts.

Context `{Datetime.Platform}.

Lemma strptime_caught (data : value) (e : exn) :
  strptime data = Raise e -> catches [ValueError; TypeError] e = true.
Proof.
  unfold strptime, raise.
  destruct data; try (intros [= <-]; reflexivity).
  intros Hs. apply strptime_str_raises in Hs.
  unfold catches. cbn [existsb]. rewrite Hs. reflexivity.
Qed.

(** Past the test of the 13 digits the value is parsed, and kept as it
    is when the parse fails. *)
Lemma process_data_parse (data : value) :
  is_13_digits data = false ->
  process_data data
  = match strptime data with
    | Ok dt => Ok (VDatetime dt)
    | Raise _ => Ok data
    end.
Proof.
  intros H13. unfold process_data. rewrite H13.
  destruct (strptime data) as [dt|e] eqn:Hs; [reflexivity|].
  rewrite (strptime_caught _ _ Hs). reflexivity.
Qed.

Lemma isdigit_dash (s t : pystr) : PyStr.isdigit (s ++ 45%N :: t) = false.
Proof.
  unfold PyStr.isdigit. destruct (s ++ 45%N :: t) eqn:E; [reflexivity|].
  rewrite <- E, forallb_app. cbn [forallb].
  change (Unicode.isdigit 45) with false. apply andb_false_r.
Qed.

Lemma datetime_not_digits (dt : Datetime.datetime) :
  is_13_digits (VDatetime dt) = false.
Proof.
  unfold is_13_digits, py_str, Datetime.to_str.
  change (py:"-") with [45%N]. cbn [app]. rewrite isdigit_dash. reflexivity.
Qed.

Lemma process_data_datetime (dt : Datetime.datetime) :
  process_data (VDatetime dt) = Ok (VDatetime dt).
Proof. rewrite process_data_parse by apply datetime_not_digits. reflexivity. Qed.

(** Whatever the coercion returns, it returns again when it is given
    it. *)
Lemma process_data_fixed (x y : value) :
  process_data x = Ok y -> process_data y = Ok y.
Proof.
  unfold process_data at 1. destruct (is_13_digits x) eqn:H13.
  - destruct (py_int x); [|discriminate]. cbn [bind].
    destruct (int_truediv _ _); [|discriminate]. cbn [bind].
    destruct (Datetime.fromtimestamp _); [|discriminate]. cbn [bind].
    intros [= <-]. apply process_data_datetime.
  - destruct (strptime x) as [dt|e] eqn:Hs.
    + intros [= <-]. apply process_data_datetime.
    + rewrite (strptime_caught _ _ Hs). intros [= <-].
      rewrite process_data_parse, Hs by assumption. reflexivity.
Qed.

Lemma decimal_isdigit (ds : pystr) :
  forallb Unicode.isdecimal ds = true -> forallb Unicode.isdigit ds = true.
Proof.
  rewrite !forallb_forall. intros Hds c Hc. apply isdecimal_isdigit. auto.
Qed.

Lemma is_13_digits_decimal (s : pystr) :
  length s = 13%nat -> forallb Unicode.isdecimal s = true ->
  is_13_digits (VStr s) = true.
Proof.
  intros Hl Hs. unfold is_13_digits, py_str, PyStr.isdigit.
  rewrite (decimal_isdigit _ Hs), Hl. destruct s; [discriminate|reflexivity].
Qed.

(** The branch of the timestamp on a text of 13 decimal digits. *)
Lemma process_data_decimal (s : pystr) :
  length s = 13%nat -> forallb Unicode.isdecimal s = true ->
  process_data (VStr s)
  = let* dt := Datetime.fromtimestamp
                 (Float64.div (Float64.of_int (Spec.decimal_value s))
                              (Float64.of_int 1000)) in
    Ok (VDatetime dt).
Proof.
  intros Hl Hs. unfold process_data.
  rewrite is_13_digits_decimal by assumption.
  unfold py_int. rewrite to_int_decimal; [|destruct s; discriminate|assumption].
  reflexivity.
Qed.

Lemma of_int_digits (n : Z) :
  10 ^ 12 <= n < 10 ^ 13 ->
  length (PyStr.of_int n) = 13%nat
  /\ forallb PyStr.c_isdigit (PyStr.of_int n) = true
  /\ Spec.decimal_value (PyStr.of_int n) = n.
Proof.
  intros Hn. unfold PyStr.of_int.
  destruct (Z.ltb_spec n 0); [lia|].
  destruct (digits_spec (Z.abs_N n)) as (Hd & Hv & _).
  split; [|split].
  - apply digits_length_13. lia.
  - exact Hd.
  - unfold Spec.decimal_value. rewrite Hv. lia.
Qed.

End Coercion_facts.

(** ** The claims on the coercion function *)

Section Coercion_claims.

Context `{Datetime.Platform}.


(** C2, as amended.  A text of 13 decimal digits becomes the timestamp
    that [fromtimestamp] makes of the float quotient of its value by
    1000; a text of another length, or with a character that is no
    digit, never takes that branch: it is parsed as an ISO 8601 text or
    returned as it is. *)
Theorem process_data_13_digits (s : pystr) :
  (length s = 13%nat -> forallb Unicode.isdecimal s = true ->
   process_data (VStr s)
   = let* dt := Datetime.fromtimestamp
                  (Float64.div (Float64.of_int (Spec.decimal_value s))
                               (Float64.of_int 1000)) in
     Ok (VDatetime dt))
  /\ (length s <> 13%nat \/ forallb Unicode.isdigit s = false ->
      process_data (VStr s)
      = match Datetime.strptime_str s with
        | Ok dt => Ok (VDatetime dt)
        | Raise _ => Ok (VStr s)
        end).
Proof.
  split; [apply process_data_decimal|].
  intros Hs. apply (process_data_parse (VStr s)).
  unfold is_13_digits, py_str, PyStr.isdigit.
  destruct Hs as [Hl | Hd].
  - apply Nat.eqb_neq in Hl. rewrite Hl. apply andb_false_r.
  - rewrite Hd. destruct s; reflexivity.
Qed.

(** C3, as amended.  A text of the exact pattern becomes the timestamp it
    writes when it writes one (a year from 1, a month, a day of that
    month, an hour, a minute and a second in their ranges) and is
    returned as it is otherwise.  A text whose fraction has one to six
    digits is read as the text with the fraction filled with zeros up to
    six digits.  A text that is not of the shape [strptime] can accept
    (wrong separators, no final Z, no fraction or one of more than six
    digits) and is no text of 13 digits is returned as it is. *)
Theorem process_data_iso (s : pystr) :
  (Spec.iso_exact s = true ->
   process_data (VStr s)
   = match Spec.iso_datetime s with
     | Ok dt => Ok (VDatetime dt)
     | Raise _ => Ok (VStr s)
     end)
  /\ (forall p f,
        s = p ++ f ++ py:"Z" -> Spec.iso_head p = true ->
        forallb PyStr.c_isdigit f = true -> (1 <= length f <= 6)%nat ->
        process_data (VStr s)
        = match Spec.iso_datetime (p ++ Spec.pad6 f ++ py:"Z") with
          | Ok dt => Ok (VDatetime dt)
          | Raise _ => Ok (VStr s)
          end)
  /\ (~ Spec.iso_shaped s -> is_13_digits (VStr s) = false ->
      process_data (VStr s) = Ok (VStr s)).
Proof.
  split; [|split].
  - intros Hs.
    assert (H13 : is_13_digits (VStr s) = false).
    { pose proof Hs as Hs'. apply iso_exact_inv in Hs'
        as (? & ? & ? & ? & ? & ? & ? & ? & ? & ? & ? & ? & ? & ? & ?
            & ? & ? & ? & ? & ? & -> & _).
      unfold is_13_digits, py_str. cbn [length Nat.eqb]. apply andb_false_r. }
    rewrite process_data_parse by assumption. cbn [strptime].
    destruct (strptime_str_exact s Hs) as [-> | (msg & e & -> & ->)];
      reflexivity.
  - intros p f -> Hp Hf Hl. change (py:"Z") with [90%N].
    assert (H13 : is_13_digits (VStr (p ++ f ++ [90%N])) = false).
    { pose proof Hp as Hp'. apply iso_head_inv in Hp'
        as (? & ? & ? & ? & ? & ? & ? & ? & ? & ? & ? & ? & ? & ? & -> & _).
      unfold is_13_digits, py_str. cbn [app length Nat.eqb].
      apply andb_false_r. }
    rewrite process_data_parse by assumption. cbn [strptime].
    destruct (strptime_str_padded p f Hp Hf Hl)
      as [-> | (msg & e & -> & ->)]; reflexivity.
  - intros Hn H13. rewrite process_data_parse by assumption. cbn [strptime].
    destruct (Datetime.strptime_str s) as [dt|e] eqn:Hs; [|reflexivity].
    apply strptime_str_shaped in Hs. contradiction.
Qed.

(** C8.  On a text of 13 superscript digits the coercion raises: the
    test [isdigit] lets the text through and [int] refuses it, outside of
    the [try]. *)
Theorem process_data_raises :
  process_data (VStr (repeat 178%N 13))
  = raise ValueError "invalid literal for int() with base 10".
Proof. reflexivity. Qed.

(** C9.  On a value that is not timestamp-shaped the coercion is
    idempotent. *)
Theorem process_data_idempotent (x : value) :
  Spec.timestamp_shaped x = false ->
  (let* y := process_data x in process_data y) = process_data x.
Proof.
  intros Hx. apply orb_false_iff in Hx as [H13 _].
  destruct (process_data x) as [y|e] eqn:Hp; [|reflexivity].
  cbn [bind]. apply (process_data_fixed _ _ Hp).
Qed.

(** C10.  An [int] of 13 digits goes through the same branch as the text
    of its digits and becomes the same timestamp. *)
Theorem process_data_native_int (n : Z) :
  10 ^ 12 <= n < 10 ^ 13 ->
  is_13_digits (VInt n) = true
  /\ process_data (VInt n) = process_data (VStr (PyStr.of_int n))
  /\ process_data (VInt n)
     = let* dt := Datetime.fromtimestamp
                    (Float64.div (Float64.of_int n) (Float64.of_int 1000)) in
       Ok (VDatetime dt).
Proof.
  intros Hn. destruct (of_int_digits n Hn) as (Hl & Hd & Hv).
  pose proof (ascii_digits_decimal _ Hd) as Hdec.
  assert (H13 : is_13_digits (VInt n) = true)
    by (apply (is_13_digits_decimal (PyStr.of_int n)); assumption).
  assert (Hint : process_data (VInt n)
                 = let* dt := Datetime.fromtimestamp
                     (Float64.div (Float64.of_int n) (Float64.of_int 1000)) in
                   Ok (VDatetime dt)).
  { unfold process_data. rewrite H13. reflexivity. }
  split; [exact H13|]. split; [|exact Hint].
  rewrite Hint, process_data_decimal, Hv by assumption. reflexivity.
Qed.

End Coercion_claims.

(** *** The coercion on a machine in UTC *)


(** C2 as it is worded fails on "9999999999998": the quotient by 1000 is
    no binary64 float, and the timestamp has 997999 microseconds where the
    epoch plus 9999999999.998 seconds has 998000. *)
Lemma process_data_millis_inexact :
  @process_data Datetime.utc (VStr py:"9999999999998")
  = Ok (VDatetime (Datetime.mk 2286 11 20 17 46 39 997999))
  /\ @Spec.epoch_plus_millis Datetime.utc
       (Spec.decimal_value py:"9999999999998")
     = Ok (Datetime.mk 2286 11 20 17 46 39 998000)
  /\ @process_data Datetime.utc (VStr py:"9999999999998")
     <> (let* dt := @Spec.epoch_plus_millis Datetime.utc
                      (Spec.decimal_value py:"9999999999998") in
         Ok (VDatetime dt)).
Proof.
  split; [vm_compute; reflexivity|]. split; [vm_compute; reflexivity|].
  vm_compute. discriminate.
Qed.

(** The two cases of C2 as amended: 13 digits, and 12 digits. *)
Lemma process_data_13_digits_witness :
  @process_data Datetime.utc (VStr py:"1609459200000")
  = Ok (VDatetime (Datetime.mk 2021 1 1 0 0 0 0))
  /\ @process_data Datetime.utc (VStr py:"160945920000")
     = Ok (VStr py:"160945920000").
Proof.
  split.
  - rewrite (proj1 (@process_data_13_digits Datetime.utc py:"1609459200000"))
      by reflexivity.
    vm_compute. reflexivity.
  - rewrite (proj2 (@process_data_13_digits Datetime.utc py:"160945920000"))
      by (left; vm_compute; lia).
    vm_compute. reflexivity.
Defined.

(** C3 as it is worded fails on a fraction of one digit: the text is not
    of the exact pattern, and it is parsed all the same. *)
Lemma process_data_short_fraction :
  Spec.iso_exact py:"2021-01-01T00:00:00.1Z" = false
  /\ @process_data Datetime.utc (VStr py:"2021-01-01T00:00:00.1Z")
     = Ok (VDatetime (Datetime.mk 2021 1 1 0 0 0 100000))
  /\ @process_data Datetime.utc (VStr py:"2021-01-01T00:00:00.1Z")
     <> Ok (VStr py:"2021-01-01T00:00:00.1Z").
Proof.
  split; [vm_compute; reflexivity|]. split; [vm_compute; reflexivity|].
  vm_compute. discriminate.
Qed.

(** The three cases of C3 as amended: the exact pattern, a fraction of
    one digit, and no final Z. *)
Lemma process_data_iso_witness :
  @process_data Datetime.utc (VStr py:"2021-01-01T00:00:00.123456Z")
  = Ok (VDatetime (Datetime.mk 2021 1 1 0 0 0 123456))
  /\ @process_data Datetime.utc (VStr py:"2021-01-01T00:00:00.5Z")
     = Ok (VDatetime (Datetime.mk 2021 1 1 0 0 0 500000))
  /\ @process_data Datetime.utc (VStr py:"2021-01-01T00:00:00.123456")
     = Ok (VStr py:"2021-01-01T00:00:00.123456").
Proof.
  split; [|split].
  - rewrite (proj1 (@process_data_iso Datetime.utc
                      py:"2021-01-01T00:00:00.123456Z")) by reflexivity.
    vm_compute. reflexivity.
  - rewrite (proj1 (proj2 (@process_data_iso Datetime.utc
                             py:"2021-01-01T00:00:00.5Z"))
               py:"2021-01-01T00:00:00." py:"5")
      by (vm_compute; (reflexivity || lia)).
    vm_compute. reflexivity.
  - apply (proj2 (proj2 (@process_data_iso Datetime.utc
                           py:"2021-01-01T00:00:00.123456")));
      [|reflexivity].
    intros Hs. apply iso_shaped_last in Hs. vm_compute in Hs.
    destruct Hs; discriminate.
Defined.

(** C9 on a text that is no timestamp. *)
Lemma process_data_idempotent_witness :
  (let* y := @process_data Datetime.utc (VStr py:"hello") in
   @process_data Datetime.utc y)
  = @process_data Datetime.utc (VStr py:"hello").
Proof. apply process_data_idempotent. reflexivity. Defined.

(** C10 on the first millisecond of 2021. *)
Lemma process_data_native_int_witness :
  is_13_digits (VInt 1609459200000) = true
  /\ @process_data Datetime.utc (VInt 1609459200000)
     = @process_data Datetime.utc (VStr (PyStr.of_int 1609459200000))
  /\ @process_data Datetime.utc (VInt 1609459200000)
     = let* dt := @Datetime.fromtimestamp Datetime.utc
                    (Float64.div (Float64.of_int 1609459200000)
                                 (Float64.of_int 1000)) in
       Ok (VDatetime dt).
Proof. apply process_data_native_int. lia. Defined.

(** ** Attributes, construction and the picture *)

Section Objects.

Context `{Datetime.Platform} `{World}.

(** C4.  A key of both documents of a forum resolves to the coercion of
    the value the root document has for it; the value of the
    configuration plays no part. *)
Theorem Forum_getattr_prefers_data (self : Forum.t) (key : pystr)
    (d c : gmap pystr value) (v w : value) :
  Forum.data self = VDict d -> Forum.config self = VDict c ->
  d !! key = Some v -> c !! key = Some w ->
  Forum.__getattr__ self key = process_data v.
Proof.
  intros Hd Hc Hv Hw. unfold Forum.__getattr__.
  rewrite Hd. cbn [py_contains py_getitem bind]. rewrite Hv. reflexivity.
Qed.


(** The errors of the steps that follow the test of the header are
    other errors. *)
Lemma urljoin_str_error (base url : pystr) (e : exn) :
  urljoin_str base url = Raise e -> e <> Spec.not_nodebb.
Proof.
  unfold urljoin_str, raise. destruct base, url; try discriminate.
  destruct (resolve _ _); [discriminate|]. intros [= <-]. discriminate.
Qed.

Lemma json_loads_error (t : pystr) (e : exn) :
  json_loads_text t = Raise e -> e <> Spec.not_nodebb.
Proof.
  unfold json_loads_text, raise. destruct (json_loads t); [discriminate|].
  intros [= <-]. discriminate.
Qed.

Lemma py_getitem_error (c : value) (k : pystr) (e : exn) :
  py_getitem c k = Raise e -> e <> Spec.not_nodebb.
Proof.
  unfold py_getitem, raise.
  destruct c; try (intros [= <-]; discriminate).
  destruct (_ !! _); [discriminate|]. intros [= <-]. discriminate.
Qed.

Lemma send_error (r : request) (log l : list request) (e : exn) :
  send r log = (Raise e, l) -> e <> Spec.not_nodebb.
Proof.
  unfold send, raise. destruct (respond r); [discriminate|].
  intros [= <- _]. discriminate.
Qed.

Lemma io_lift_inv {A} (r : result A) (log l : list request) (x : result A) :
  io_lift r log = (x, l) -> r = x.
Proof. unfold io_lift. congruence. Qed.

(** C6.  When the server answers the HEAD request, the construction of a
    forum raises the error of a foreign software exactly when the header
    X-Powered-By is not "NodeBB", absent or other; it has then sent the
    HEAD request and no other, and no forum is made. *)
Theorem Forum_init_checks_software (url : pystr) (log : list request)
    (resp : response) :
  respond (HEAD url) = Some resp ->
  (fst (Forum.__init__ url log) = Raise Spec.not_nodebb
   <-> headers_get (headers resp) py:"X-Powered-By" <> Some py:"NodeBB")
  /\ (headers_get (headers resp) py:"X-Powered-By" <> Some py:"NodeBB" ->
      Forum.__init__ url log = (Raise Spec.not_nodebb, log ++ [HEAD url])).
Proof.
  intros Hresp.
  assert (Hbad : headers_get (headers resp) py:"X-Powered-By"
                 <> Some py:"NodeBB" ->
                 Forum.__init__ url log
                 = (Raise Spec.not_nodebb, log ++ [HEAD url])).
  { intros Hh. unfold Forum.__init__, io_bind, requests_head, send.
    rewrite Hresp. rewrite bool_decide_eq_false_2 by exact Hh.
    reflexivity. }
  split; [|exact Hbad]. split.
  - intros Hr Hh. revert Hr.
    unfold Forum.__init__, io_bind, requests_head. unfold send at 1.
    rewrite Hresp. rewrite bool_decide_eq_true_2 by exact Hh.
    cbn [negb]. unfold requests_get.
    repeat match goal with
           | |- context [match ?x with (_, _) => _ end] =>
               let E := fresh "E" in
               destruct x as [[?|?] ?] eqn:E;
               [| cbn [fst]; intros [= ->];
                  first [ apply send_error in E
                        | apply io_lift_inv in E;
                          first [ apply urljoin_str_error in E
                                | apply json_loads_error in E
                                | apply py_getitem_error in E ] ];
                  congruence ]
           end.
    discriminate.
  - intros Hh. rewrite (Hbad Hh). reflexivity.
Qed.

(** C7, as amended.  Without PIL the picture of a user is the URL
    joined from the endpoint of the forum and the coerced value of
    [picture], what [process_data] makes of the raw value; where the
    coercion leaves the raw value as it is, the URL is joined from the raw
    value. *)
Theorem User_image_url (self : User.t) (log : list request)
    (d : gmap pystr value) (raw : value) :
  hasPIL = false -> User.data self = VDict d ->
  d !! py:"picture" = Some raw ->
  User.image self log
  = (let* picture := process_data raw in
     let* imgurl := urljoin (Forum.endpoint (User.forum self)) picture in
     Ok (User.Url imgurl), log)
  /\ (process_data raw = Ok raw ->
      User.image self log = (Spec.image_uncoerced self, log)).
Proof.
  intros HPIL Hd Hraw.
  assert (Hattr : User.__getattr__ self py:"picture" = process_data raw).
  { unfold User.__getattr__. rewrite Hd.
    cbn [py_contains py_getitem bind]. rewrite Hraw. reflexivity. }
  assert (Himg : User.image self log
                 = (let* picture := process_data raw in
                    let* imgurl :=
                      urljoin (Forum.endpoint (User.forum self)) picture in
                    Ok (User.Url imgurl), log)).
  { unfold User.image, io_bind, io_lift, io_ret. rewrite Hattr, HPIL.
    destruct (process_data raw) as [p|e]; [|reflexivity]. cbn [bind negb].
    destruct (urljoin _ p); reflexivity. }
  split; [exact Himg|]. intros Hp. rewrite Himg, Hp.
  unfold Spec.image_uncoerced. rewrite Hd. cbn [py_getitem].
  rewrite Hraw. reflexivity.
Qed.

End Objects.

(** *** The objects on samples *)

(** C4 on a key that both documents hold. *)
Lemma Forum_getattr_prefers_data_witness :
  @Forum.__getattr__ Datetime.utc
    (Sample.forum (VDict {[ py:"a" := VInt 1 ]})
                  (VDict {[ py:"a" := VInt 2 ]})) py:"a"
  = Ok (VInt 1).
Proof.
  rewrite (@Forum_getattr_prefers_data Datetime.utc
             (Sample.forum (VDict {[ py:"a" := VInt 1 ]})
                           (VDict {[ py:"a" := VInt 2 ]})) py:"a"
             {[ py:"a" := VInt 1 ]} {[ py:"a" := VInt 2 ]} (VInt 1) (VInt 2)
             eq_refl eq_refl);
    vm_compute; reflexivity.
Defined.


(** C6 on a server of another software and on one whose answer has no
    header X-Powered-By. *)
Lemma Forum_init_checks_software_witness :
  @Forum.__init__ Sample.apache py:"http://f/" []
  = (Raise Spec.not_nodebb, [HEAD py:"http://f/"])
  /\ @Forum.__init__ Sample.bare py:"http://f/" []
     = (Raise Spec.not_nodebb, [HEAD py:"http://f/"]).
Proof.
  split.
  - apply (proj2 (@Forum_init_checks_software Sample.apache py:"http://f/" []
                    (mk_response {[ py:"x-powered-by" := py:"PHP/8.2" ]}
                                 [] [])
                    eq_refl)).
    vm_compute. discriminate.
  - apply (proj2 (@Forum_init_checks_software Sample.bare py:"http://f/" []
                    (mk_response ∅ [] []) eq_refl)).
    vm_compute. discriminate.
Defined.

(** On a NodeBB server the construction goes on: it fetches the root
    document and the configuration and reads the title. *)
Example Forum_init_nodebb :
  let doc := VDict {[ py:"siteTitle" := VStr py:"f" ]} in
  let out := @Forum.__init__ (Sample.nodebb doc) py:"http://f/" [] in
  snd out = [HEAD py:"http://f/"; GET py:"http://f/api/";
             GET py:"http://f/api/config"]
  /\ match fst out with
     | Ok forum =>
         Forum.title forum = VStr py:"f"
         /\ Forum.endpoint forum = py:"http://f/api/"
     | Raise _ => False
     end.
Proof. vm_compute. repeat split. Qed.

(** C7 as it is worded fails on a picture named by 13 digits: the
    coercion makes a [datetime] of it and [urljoin] refuses it, where the
    raw value would have given a URL. *)
Lemma User_image_coerces_picture :
  @User.image Datetime.utc Sample.offline
    (Sample.user (VDict {[ py:"picture" := VStr py:"1609459200000" ]})) []
  = (raise TypeError "Cannot mix str and non-str arguments", [])
  /\ @Spec.image_uncoerced Sample.offline
       (Sample.user (VDict {[ py:"picture" := VStr py:"1609459200000" ]}))
     = Ok (User.Url (VStr py:"http://f/api/1609459200000")).
Proof. split; vm_compute; reflexivity. Qed.

(** C7 as amended, on a picture with an ordinary name. *)
Lemma User_image_url_witness :
  @User.image Datetime.utc Sample.offline
    (Sample.user (VDict {[ py:"picture" := VStr py:"u.png" ]})) []
  = (Ok (User.Url (VStr py:"http://f/api/u.png")), []).
Proof.
  destruct (@User_image_url Datetime.utc Sample.offline
              (Sample.user (VDict {[ py:"picture" := VStr py:"u.png" ]})) []
              {[ py:"picture" := VStr py:"u.png" ]} (VStr py:"u.png"))
    as [_ Hraw]; [reflexivity | reflexivity | vm_compute; reflexivity |].
  rewrite Hraw by (vm_compute; reflexivity).
  vm_compute. reflexivity.
Defined.

(** * Further properties *)

(** ** Attributes, constructors and the picture *)

Section Objects_more.

Context `{Datetime.Platform} `{World}.

(** The value a forum looks a key up to, its documents being objects. *)
Lemma Forum_getattr_lookup (self : Forum.t) (key : pystr)
    (d c : gmap pystr value) :
  Forum.data self = VDict d -> Forum.config self = VDict c ->
  Forum.__getattr__ self key
  = process_data (match d !! key with
                  | Some v => v
                  | None => match c !! key with
                            | Some w => w
                            | None => VNone
                            end
                  end).
Proof.
  intros Hd Hc. unfold Forum.__getattr__. rewrite Hd, Hc.
  cbn [py_contains py_getitem bind].
  destruct (d !! key) as [v|] eqn:Hv; cbn [bind]; [reflexivity|].
  destruct (c !! key) as [w|] eqn:Hw; reflexivity.
Qed.

(** X1.  A key that the root document of a forum does not hold and that
    the configuration holds resolves to the coercion of the value of the
    configuration; a key that the root document holds with the value
    null resolves to [None], whatever the configuration has for it. *)
Theorem Forum_getattr_config_fallback (self : Forum.t) (key : pystr)
    (d c : gmap pystr value) (w : value) :
  Forum.data self = VDict d -> Forum.config self = VDict c ->
  c !! key = Some w ->
  (d !! key = None -> Forum.__getattr__ self key = process_data w)
  /\ (d !! key = Some VNone -> Forum.__getattr__ self key = Ok VNone).
Proof.
  intros Hd Hc Hw. rewrite (Forum_getattr_lookup self key d c Hd Hc).
  split; intros ->; [rewrite Hw|]; reflexivity.
Qed.

(** X2.  A document that is no JSON object gives no value: on a user
    the attribute is [None] or the lookup raises [TypeError]; on a forum
    the attribute is what the configuration alone gives, or the lookup
    raises [TypeError]. *)
Theorem getattr_not_object (f : Forum.t) (u : User.t) (key : pystr)
    (c : gmap pystr value) :
  ((forall d, Forum.data f <> VDict d) -> Forum.config f = VDict c ->
   Forum.__getattr__ f key = process_data (default VNone (c !! key))
   \/ exists msg, Forum.__getattr__ f key = raise TypeError msg)
  /\ ((forall d, User.data u <> VDict d) ->
      User.__getattr__ u key = Ok VNone
      \/ exists msg, User.__getattr__ u key = raise TypeError msg).
Proof.
  split.
  - intros Hd Hc. unfold Forum.__getattr__. rewrite Hc.
    destruct (Forum.data f) as [| | | | s | l | d |] eqn:E;
      try (right; eexists; reflexivity).
    + cbn [py_contains bind]. destruct (PyStr.contains s key); cbn [py_getitem].
      * right; eexists; reflexivity.
      * left. destruct (c !! key); reflexivity.
    + cbn [py_contains bind]. destruct (existsb _ l); cbn [py_getitem].
      * right; eexists; reflexivity.
      * left. destruct (c !! key); reflexivity.
    + exfalso. exact (Hd d eq_refl).
  - intros Hd. unfold User.__getattr__.
    destruct (User.data u) as [| | | | s | l | d |] eqn:E;
      try (right; eexists; reflexivity).
    + cbn [py_contains bind]. destruct (PyStr.contains s key); cbn [py_getitem].
      * right; eexists; reflexivity.
      * left; reflexivity.
    + cbn [py_contains bind]. destruct (existsb _ l); cbn [py_getitem].
      * right; eexists; reflexivity.
      * left; reflexivity.
    + exfalso. exact (Hd d eq_refl).
Qed.


Lemma io_bind_Ok {A B} (m : IO A) (k : A -> IO B) (log l : list request)
    (b : B) :
  io_bind m k log = (Ok b, l) ->
  exists a l1, m log = (Ok a, l1) /\ k a l1 = (Ok b, l).
Proof.
  unfold io_bind. destruct (m log) as [[a|e] l1]; [eauto | discriminate].
Qed.

Lemma send_Ok (r : request) (log l : list request) (resp : response) :
  send r log = (Ok resp, l) -> respond r = Some resp /\ l = log ++ [r].
Proof.
  unfold send, raise. destruct (respond r); [|discriminate].
  intros [= -> <-]. auto.
Qed.

Lemma send_log (r : request) (log : list request) :
  snd (send r log) = log ++ [r].
Proof. unfold send. destruct (respond r); reflexivity. Qed.

Lemma io_lift_Ok {A} (r : result A) (log l : list request) (a : A) :
  io_lift r log = (Ok a, l) -> r = Ok a /\ l = log.
Proof. unfold io_lift. intros [= -> <-]. auto. Qed.

Lemma json_loads_text_Ok (t : pystr) (v : value) :
  json_loads_text t = Ok v -> json_loads t = Some v.
Proof.
  unfold json_loads_text, raise. destruct (json_loads t); [|discriminate].
  congruence.
Qed.

Lemma py_getitem_Ok (c : value) (k : pystr) (v : value) :
  py_getitem c k = Ok v -> exists d, c = VDict d /\ d !! k = Some v.
Proof.
  unfold py_getitem, raise. destruct c; try discriminate.
  destruct (d !! k) eqn:E; [|discriminate]. intros [= <-]. eauto.
Qed.

Lemma send_log_image (u : pystr) (log : list request) :
  snd (match requests_get u log with
       | (Ok imgdata, log') =>
           match io_lift (Image_open (content imgdata)) log' with
           | (Ok img, log'') => io_ret (User.Image img) log''
           | (Raise e, log'') => (Raise e, log'')
           end
       | (Raise e, log') => (Raise e, log')
       end) = log ++ [GET u].
Proof.
  unfold requests_get. pose proof (send_log (GET u) log) as Hs.
  destruct (send (GET u) log) as [[r|?] l]; cbn [snd] in Hs; subst l;
    [|reflexivity].
  unfold io_lift, io_ret. destruct (Image_open _); reflexivity.
Qed.

(** The steps of a computation, taken one at a time. *)
Ltac io_steps :=
  repeat match goal with
         | H : io_bind _ _ _ = (Ok _, _) |- _ =>
             apply io_bind_Ok in H as (? & ? & ? & H)
         | H : requests_head _ _ = (Ok _, _) |- _ =>
             apply send_Ok in H as [? ->]
         | H : requests_get _ _ = (Ok _, _) |- _ =>
             apply send_Ok in H as [? ->]
         | H : io_lift _ _ = (Ok _, _) |- _ =>
             apply io_lift_Ok in H as [? ->]
         | H : io_ret _ _ = (Ok _, _) |- _ =>
             unfold io_ret in H; injection H as <- <-
         end.

(** X3.  A forum that has been constructed has sent three requests, the
    HEAD request of its URL and the GET requests of its endpoint and of
    the URL of its configuration, in this order; the server named NodeBB;
    the endpoint is the URL joined with "api/", the URL of the
    configuration the endpoint joined with "config"; the two documents are
    the bodies of the answers as [json.loads] reads them; the
    configuration is an object and the title is the value it has for
    "siteTitle", not coerced. *)
Theorem Forum_init_invariant (url : pystr) (log log' : list request)
    (f : Forum.t) :
  Forum.__init__ url log = (Ok f, log') ->
  log' = log ++ [HEAD url; GET (Forum.endpoint f); GET (Forum.configurl f)]
  /\ Forum.url f = url
  /\ headers_get (Forum.head f) py:"X-Powered-By" = Some py:"NodeBB"
  /\ urljoin_str url py:"api/" = Ok (Forum.endpoint f)
  /\ Forum.api_url f = Forum.endpoint f
  /\ urljoin_str (Forum.endpoint f) py:"config" = Ok (Forum.configurl f)
  /\ respond (GET (Forum.endpoint f)) = Some (Forum.req f)
  /\ json_loads (text (Forum.req f)) = Some (Forum.data f)
  /\ respond (GET (Forum.configurl f)) = Some (Forum.configreq f)
  /\ json_loads (text (Forum.configreq f)) = Some (Forum.config f)
  /\ exists c, Forum.config f = VDict c
               /\ c !! py:"siteTitle" = Some (Forum.title f).
Proof.
  unfold Forum.__init__. intros Hinit.
  apply io_bind_Ok in Hinit as (head & l0 & Hhead & Hinit).
  apply send_Ok in Hhead as [Hhead ->].
  destruct (bool_decide _) eqn:Hpow in Hinit; cbn [negb] in Hinit;
    [|discriminate].
  apply bool_decide_eq_true_1 in Hpow.
  io_steps.
  repeat match goal with
         | H : json_loads_text _ = Ok _ |- _ => apply json_loads_text_Ok in H
         | H : py_getitem _ _ = Ok _ |- _ =>
             apply py_getitem_Ok in H as (c & -> & ?)
         end.
  cbn. rewrite <- !app_assoc. cbn [app].
  repeat match goal with |- _ /\ _ => split end; eauto.
Qed.



(** X5.  A NodeBB forum whose configuration is an object with no
    "siteTitle" cannot be constructed: [KeyError] is raised once the three
    requests have been sent. *)
Theorem Forum_init_no_title (url e cu : pystr) (log : list request)
    (head r1 r2 : response) (data : value) (c : gmap pystr value) :
  respond (HEAD url) = Some head ->
  headers_get (headers head) py:"X-Powered-By" = Some py:"NodeBB" ->
  urljoin_str url py:"api/" = Ok e ->
  respond (GET e) = Some r1 -> json_loads (text r1) = Some data ->
  urljoin_str e py:"config" = Ok cu ->
  respond (GET cu) = Some r2 -> json_loads (text r2) = Some (VDict c) ->
  c !! py:"siteTitle" = None ->
  Forum.__init__ url log
  = (raise KeyError "key", log ++ [HEAD url; GET e; GET cu]).
Proof.
  intros Hhead Hpow He Hr1 Hdata Hcu Hr2 Hc Ht.
  unfold Forum.__init__, io_bind, requests_head, requests_get, send, io_lift,
    json_loads_text.
  rewrite Hhead, (bool_decide_eq_true_2 _ Hpow). cbn [negb].
  rewrite He, Hr1, Hdata, Hcu, Hr2, Hc. cbn [py_getitem]. rewrite Ht.
  rewrite <- !app_assoc. reflexivity.
Qed.

(** X6.  [Forum.User] constructs a user exactly when the URL of the
    user, the endpoint joined with "user/" and the name, can be made, the
    server answers the GET request of it and the body is JSON; it sends
    that request and no other, and it keeps the document whatever it
    holds. *)
Theorem User_init_outcome (forum : Forum.t) (username : pystr)
    (log log' : list request) (u : User.t) :
  Forum_User forum username log = (Ok u, log')
  <-> exists a r doc,
        urljoin_str (Forum.endpoint forum) (py:"user/" ++ username) = Ok a
        /\ respond (GET a) = Some r /\ json_loads (text r) = Some doc
        /\ u = User.mk forum username a r doc
        /\ log' = log ++ [GET a].
Proof.
  unfold Forum_User, User.__init__. split.
  - intros Hinit. io_steps.
    match goal with
    | H : json_loads_text _ = Ok _ |- _ => apply json_loads_text_Ok in H
    end.
    eauto 10.
  - intros (a & r & doc & Ha & Hr & Hdoc & -> & ->).
    unfold io_bind, requests_get, send, io_lift, io_ret, json_loads_text.
    rewrite Ha, Hr, Hdoc. reflexivity.
Qed.

(** X7.  A user whose document has no picture (no key, null, or an
    empty text) gets the endpoint of the forum for a picture: its URL
    without PIL and, with PIL, a GET request of the endpoint. *)
Theorem User_image_no_picture (self : User.t) (log : list request)
    (d : gmap pystr value) :
  User.data self = VDict d ->
  d !! py:"picture" = None \/ d !! py:"picture" = Some VNone
  \/ d !! py:"picture" = Some (VStr []) ->
  Forum.endpoint (User.forum self) <> [] ->
  (hasPIL = false ->
   User.image self log
   = (Ok (User.Url (VStr (Forum.endpoint (User.forum self)))), log))
  /\ (hasPIL = true ->
      snd (User.image self log)
      = log ++ [GET (Forum.endpoint (User.forum self))]).
Proof.
  intros Hd Hpic Hend.
  assert (Hattr : User.__getattr__ self py:"picture" = Ok VNone
                  \/ User.__getattr__ self py:"picture" = Ok (VStr [])).
  { unfold User.__getattr__. rewrite Hd. cbn [py_contains py_getitem bind].
    destruct Hpic as [-> | [-> | ->]]; cbn [bind]; auto. }
  assert (Hjoin : forall p, p = VNone \/ p = VStr [] ->
            urljoin (Forum.endpoint (User.forum self)) p
            = Ok (VStr (Forum.endpoint (User.forum self)))).
  { intros p [-> | ->]; unfold urljoin, urljoin_str;
      destruct (Forum.endpoint (User.forum self)); try reflexivity;
      contradiction. }
  unfold User.image, io_bind, io_lift, io_ret.
  split; intros HPIL; rewrite HPIL; cbn [negb];
    destruct Hattr as [-> | ->]; rewrite Hjoin by auto;
    try reflexivity; cbn [User.requests_get_value]; apply send_log_image.
Qed.


Lemma urljoin_str_result (base : pystr) (url v : value) :
  base <> [] -> urljoin base url = Ok v -> exists u, v = VStr u.
Proof.
  intros Hb. unfold urljoin.
  destruct url; try (destruct base; [contradiction|];
    destruct (negb _); [intros [= <-]; eauto | discriminate]).
  destruct (urljoin_str base s); [|discriminate]. intros [= <-]. eauto.
Qed.

(** X8.  [image] sends no request without PIL and at most one GET
    request with it; a URL is returned only without PIL, and it is a
    [str] when the endpoint is not empty; a picture is returned only with
    PIL, opened from the body of the answer to the one request. *)
Theorem User_image_requests (self : User.t) (log : list request) :
  (hasPIL = false -> snd (User.image self log) = log)
  /\ (snd (User.image self log) = log
      \/ exists u, snd (User.image self log) = log ++ [GET u])
  /\ (forall v log', User.image self log = (Ok (User.Url v), log') ->
        hasPIL = false /\ log' = log
        /\ (Forum.endpoint (User.forum self) <> [] -> exists u, v = VStr u))
  /\ (forall img log', User.image self log = (Ok (User.Image img), log') ->
        hasPIL = true
        /\ exists u r, log' = log ++ [GET u] /\ respond (GET u) = Some r
                       /\ image_open (content r) = Some img).
Proof.
  unfold User.image, io_bind, io_lift, io_ret.
  destruct (User.__getattr__ self _) as [p|?];
    [|split; [|split; [|split]]; intros; (auto || discriminate)].
  destruct (urljoin _ p) as [v|?] eqn:Hj;
    [|split; [|split; [|split]]; intros; (auto || discriminate)].
  destruct hasPIL; cbn [negb].
  - destruct v as [| | | | u | | |]; cbn [User.requests_get_value];
      try (unfold io_lift; split; [|split; [|split]]; intros;
           (auto || discriminate)).
    unfold requests_get. pose proof (send_log (GET u) log) as Hs.
    destruct (send (GET u) log) as [[r|?] l] eqn:Hsend; cbn [snd] in Hs;
      subst l;
      [|split; [|split; [|split]]; intros; (eauto || discriminate)].
    apply send_Ok in Hsend as [Hr _].
    unfold Image_open, raise. destruct (image_open _) as [img|] eqn:Himg;
      (split; [|split; [|split]]; [discriminate | eauto | discriminate |]).
    + intros img' l [= <- <-]. split; [reflexivity|]. eauto.
    + discriminate.
  - split; [|split; [|split]]; [reflexivity | auto | | discriminate].
    intros v' l [= <- <-]. split; [reflexivity|]. split; [reflexivity|].
    intros Hb. exact (urljoin_str_result _ _ _ Hb Hj).
Qed.

End Objects_more.

(** *** On samples *)

(** X1 on a key of the configuration alone and on a key that is null in
    the root document. *)
Lemma Forum_getattr_config_fallback_witness :
  @Forum.__getattr__ Datetime.utc
    (Sample.forum (VDict Sample.shadow) (VDict Sample.settings)) py:"b"
  = Ok (VInt 3)
  /\ @Forum.__getattr__ Datetime.utc
       (Sample.forum (VDict Sample.shadow) (VDict Sample.settings)) py:"a"
     = Ok VNone.
Proof.
  split.
  - destruct (@Forum_getattr_config_fallback Datetime.utc
                (Sample.forum (VDict Sample.shadow) (VDict Sample.settings)) py:"b"
                Sample.shadow Sample.settings (VInt 3)) as [Hb _];
      [reflexivity | reflexivity | vm_compute; reflexivity |].
    rewrite Hb by (vm_compute; reflexivity). vm_compute. reflexivity.
  - destruct (@Forum_getattr_config_fallback Datetime.utc
                (Sample.forum (VDict Sample.shadow) (VDict Sample.settings)) py:"a"
                Sample.shadow Sample.settings (VInt 2)) as [_ Ha];
      [reflexivity | reflexivity | vm_compute; reflexivity |].
    apply Ha. vm_compute. reflexivity.
Defined.

(** X2 on a root document that is an array. *)
Lemma getattr_not_object_witness :
  (@Forum.__getattr__ Datetime.utc
     (Sample.forum (VList [VStr py:"a"]) (VDict Sample.settings)) py:"b"
   = Ok (VInt 3)
   \/ exists msg,
        @Forum.__getattr__ Datetime.utc
          (Sample.forum (VList [VStr py:"a"]) (VDict Sample.settings))
          py:"b" = raise TypeError msg)
  /\ (@User.__getattr__ Datetime.utc (Sample.user (VList [VStr py:"a"])) py:"a"
      = Ok VNone
      \/ exists msg,
           @User.__getattr__ Datetime.utc (Sample.user (VList [VStr py:"a"]))
             py:"a" = raise TypeError msg).
Proof.
  destruct (@getattr_not_object Datetime.utc
              (Sample.forum (VList [VStr py:"a"]) (VDict Sample.settings))
              (Sample.user (VList [VStr py:"a"])) py:"b"
              Sample.settings) as [Hf _].
  destruct (@getattr_not_object Datetime.utc
              (Sample.forum (VList [VStr py:"a"]) (VDict Sample.settings))
              (Sample.user (VList [VStr py:"a"])) py:"a"
              Sample.settings) as [_ Hu].
  split.
  - destruct (Hf ltac:(discriminate) eq_refl) as [Hv | Hv]; [left | right; exact Hv].
    rewrite Hv. vm_compute. reflexivity.
  - apply Hu. discriminate.
Defined.

(** X3 on a NodeBB server. *)
Lemma Forum_init_invariant_witness :
  exists f,
    @Forum.__init__ (Sample.nodebb Sample.titled) py:"http://f/" []
    = (Ok f, [HEAD py:"http://f/"; GET py:"http://f/api/";
              GET py:"http://f/api/config"])
    /\ Forum.endpoint f = py:"http://f/api/"
    /\ Forum.configurl f = py:"http://f/api/config"
    /\ Forum.title f = VStr py:"f".
Proof.
  destruct (@Forum.__init__ (Sample.nodebb Sample.titled) py:"http://f/" [])
    as [[f|e] l] eqn:Hinit; [|vm_compute in Hinit; discriminate].
  destruct (@Forum_init_invariant (Sample.nodebb Sample.titled) _ _ _ _ Hinit)
    as (Hl & _ & _ & He & _ & Hc & _ & _ & _ & Hcfg & c & Hd & Ht).
  exists f.
  assert (Hend : Forum.endpoint f = py:"http://f/api/").
  { assert (E : @urljoin_str (Sample.nodebb Sample.titled) py:"http://f/" py:"api/"
                = Ok py:"http://f/api/") by (vm_compute; reflexivity).
    rewrite E in He. congruence. }
  assert (Hcu : Forum.configurl f = py:"http://f/api/config").
  { rewrite Hend in Hc.
    assert (E : @urljoin_str (Sample.nodebb Sample.titled) py:"http://f/api/"
                  py:"config"
                = Ok py:"http://f/api/config") by (vm_compute; reflexivity).
    rewrite E in Hc. congruence. }
  rewrite Hl, Hend, Hcu. repeat split.
  assert (E : @json_loads (Sample.nodebb Sample.titled) (text (Forum.configreq f))
              = Some Sample.titled) by reflexivity.
  rewrite E in Hcfg. rewrite Hd in Hcfg. injection Hcfg as Hc'.
  rewrite <- Hc' in Ht.
  assert (E' : ({[ py:"siteTitle" := VStr py:"f" ]} : gmap pystr value)
               !! py:"siteTitle" = Some (VStr py:"f"))
    by (vm_compute; reflexivity).
  rewrite E' in Ht. congruence.
Defined.


(** X5 on a server whose documents are empty objects. *)
Lemma Forum_init_no_title_witness :
  @Forum.__init__ (Sample.nodebb (VDict ∅)) py:"http://f/" []
  = (raise KeyError "key",
     [HEAD py:"http://f/"; GET py:"http://f/api/";
      GET py:"http://f/api/config"]).
Proof.
  apply (@Forum_init_no_title (Sample.nodebb (VDict ∅)) py:"http://f/"
           py:"http://f/api/" py:"http://f/api/config" []
           (mk_response {[ py:"x-powered-by" := py:"NodeBB" ]} [] [])
           (mk_response {[ py:"x-powered-by" := py:"NodeBB" ]} [] [])
           (mk_response {[ py:"x-powered-by" := py:"NodeBB" ]} [] [])
           (VDict ∅) ∅);
    vm_compute; reflexivity.
Defined.

(** X6 on a server that answers with a text and no object. *)
Lemma User_init_outcome_witness :
  @Forum_User Datetime.utc (Sample.nodebb (VStr py:"Not Found"))
    (Sample.forum (VDict ∅) (VDict ∅)) py:"u" []
  = (Ok (User.mk (Sample.forum (VDict ∅) (VDict ∅)) py:"u"
           py:"http://f/api/user/u"
           (mk_response {[ py:"x-powered-by" := py:"NodeBB" ]} [] [])
           (VStr py:"Not Found")),
     [GET py:"http://f/api/user/u"]).
Proof.
  apply (@User_init_outcome Datetime.utc (Sample.nodebb (VStr py:"Not Found"))).
  exists (PyStr.lit "http://f/api/user/u"),
    (mk_response {[ py:"x-powered-by" := py:"NodeBB" ]} [] []),
    (VStr py:"Not Found").
  repeat split; vm_compute; reflexivity.
Defined.

(** X7 on a user with an empty document, without and with PIL. *)
Lemma User_image_no_picture_witness :
  @User.image Datetime.utc Sample.offline (Sample.user (VDict ∅)) []
  = (Ok (User.Url (VStr py:"http://f/api/")), [])
  /\ snd (@User.image Datetime.utc (Sample.gallery (VDict ∅))
            (Sample.user (VDict ∅)) [])
     = [GET py:"http://f/api/"].
Proof.
  split.
  - destruct (@User_image_no_picture Datetime.utc Sample.offline
                (Sample.user (VDict ∅)) [] ∅) as [Hurl _];
      [reflexivity | left; vm_compute; reflexivity | discriminate |].
    apply Hurl. reflexivity.
  - destruct (@User_image_no_picture Datetime.utc (Sample.gallery (VDict ∅))
                (Sample.user (VDict ∅)) [] ∅) as [_ Hget];
      [reflexivity | left; vm_compute; reflexivity | discriminate |].
    apply Hget. reflexivity.
Defined.

(** X8 on a user with a picture, with and without PIL. *)
Lemma User_image_requests_witness :
  @User.image Datetime.utc (Sample.gallery (VDict ∅))
    (Sample.user (VDict Sample.with_picture)) []
  = (Ok (User.Image (mk_pil_image [137%N; 80%N])),
     [GET py:"http://f/api/u.png"])
  /\ snd (@User.image Datetime.utc Sample.offline
            (Sample.user (VDict Sample.with_picture)) []) = [].
Proof.
  split.
  - destruct (@User.image Datetime.utc (Sample.gallery (VDict ∅))
                (Sample.user (VDict Sample.with_picture)) [])
      as [[[v|img]|e] l] eqn:Himg; try (vm_compute in Himg; discriminate).
    destruct (@User_image_requests Datetime.utc (Sample.gallery (VDict ∅))
                (Sample.user (VDict Sample.with_picture)) [])
      as (_ & _ & _ & Hpil).
    destruct (Hpil img l Himg) as (_ & u & r & -> & Hr & Hopen).
    injection Hr as <-. injection Hopen as <-.
    vm_compute in Himg. injection Himg as <-. reflexivity.
  - apply (@User_image_requests Datetime.utc Sample.offline
             (Sample.user (VDict Sample.with_picture)) []).
    reflexivity.
Defined.

(** ** The files written by [dump_data] *)

Import JsonSpec.

Lemma size_list_elem (l : list value) (v : value) :
  In v l -> (size v < size (VList l))%nat.
Proof.
  change (size (VList l)) with (S (list_sum (map size l))).
  unfold list_sum. induction l as [|x l IH]; [intros []|].
  cbn [In map fold_right]. intros [-> | Hin]; [lia|].
  specialize (IH Hin). lia.
Qed.

Lemma size_dict_elem (d : gmap pystr value) (k : pystr) (v : value) :
  d !! k = Some v -> (size v < size (VDict d))%nat.
Proof.
  change (size (VDict d))
    with (S (map_fold (fun _ x n => size x + n)%nat 0%nat d)).
  intros Hk.
  cut (size v <= map_fold (fun _ x n => size x + n)%nat 0%nat d)%nat; [lia|].
  revert k v Hk.
  apply (map_fold_weak_ind
           (fun r (m : gmap pystr value) =>
              forall k v, m !! k = Some v -> (size v <= r)%nat)).
  - intros k v Hk. rewrite lookup_empty in Hk. discriminate.
  - intros i x m r Hi IH k v Hk.
    destruct (decide (k = i)) as [-> | Hne].
    + rewrite lookup_insert_eq in Hk. injection Hk as ->. lia.
    + rewrite lookup_insert_ne in Hk by congruence.
      specialize (IH k v Hk). lia.
Qed.

(** Induction on a value, with the property known of the items of an
    array and of the values of an object. *)
Lemma value_induction (P : value -> Prop) :
  P VNone -> (forall b, P (VBool b)) -> (forall n, P (VInt n)) ->
  (forall f, P (VFloat f)) -> (forall s, P (VStr s)) ->
  (forall l, Forall P l -> P (VList l)) ->
  (forall d, map_Forall (fun _ v => P v) d -> P (VDict d)) ->
  (forall dt, P (VDatetime dt)) ->
  forall v, P v.
Proof.
  intros HNone HBool HInt HFloat HStr HList HDict HDt v.
  remember (size v) as n eqn:En. revert v En.
  induction n as [n IH] using lt_wf_ind. intros v ->.
  destruct v as [| b | z | f | s | l | d | dt]; auto.
  - apply HList. apply List.Forall_forall. intros x Hx.
    apply (IH (size x)); [|reflexivity]. apply size_list_elem, Hx.
  - apply HDict. intros k x Hk.
    apply (IH (size x)); [|reflexivity]. exact (size_dict_elem d k x Hk).
Qed.

Lemma is_json_dict (d : gmap pystr value) :
  is_json (VDict d) = true <-> map_Forall (fun _ v => is_json v = true) d.
Proof.
  change (is_json (VDict d))
    with (map_fold (fun _ x ok => is_json x && ok) true d).
  apply (map_fold_weak_ind
           (fun (r : bool) (m : gmap pystr value) =>
              r = true <-> map_Forall (fun _ v => is_json v = true) m)).
  - split; [intros _; apply map_Forall_empty | reflexivity].
  - intros i x m r Hi IH. rewrite andb_true_iff, map_Forall_insert by exact Hi.
    rewrite IH. reflexivity.
Qed.

(** ** The text of [json.dumps] is ASCII *)

Lemma printable_range (c : N) :
  (32 <= c <= 126)%N -> printable c = true.
Proof.
  intros Hc. unfold printable, Unicode.in_range.
  apply orb_true_iff. right. apply andb_true_iff.
  split; apply N.leb_le; lia.
Qed.

Lemma printable_digits (ds : pystr) :
  forallb PyStr.c_isdigit ds = true -> forallb printable ds = true.
Proof.
  rewrite !forallb_forall. intros Hds c Hc. specialize (Hds c Hc).
  apply c_isdigit_range in Hds. apply printable_range. lia.
Qed.

Lemma printable_repeat (c : N) (n : nat) :
  printable c = true -> forallb printable (repeat c n) = true.
Proof. intros Hc. induction n; cbn [repeat forallb]; [|rewrite Hc]; auto. Qed.

Lemma printable_hex (n : N) : (n < 16)%N -> printable (Json.hex n) = true.
Proof.
  intros Hn. unfold Json.hex. apply printable_range.
  destruct (N.ltb_spec n 10); lia.
Qed.

Lemma printable_u_escape (n : N) : forallb printable (Json.u_escape n) = true.
Proof.
  unfold Json.u_escape. cbn [forallb].
  rewrite !printable_hex by (apply N.mod_lt; discriminate). reflexivity.
Qed.

Lemma printable_escape_char (c : N) :
  forallb printable (Json.escape_char c) = true.
Proof.
  unfold Json.escape_char.
  repeat match goal with
         | |- context [if (?a =? ?b)%N then _ else _] =>
             destruct (a =? b)%N; [reflexivity|]
         end.
  destruct (Unicode.in_range 32 126 c) eqn:Hr.
  { cbn [forallb]. unfold printable. rewrite Hr, orb_true_r. reflexivity. }
  destruct (c <? 65536)%N; [apply printable_u_escape|].
  rewrite forallb_app, !printable_u_escape. reflexivity.
Qed.

Lemma printable_encode (s : pystr) :
  forallb printable (Json.encode_basestring_ascii s) = true.
Proof.
  unfold Json.encode_basestring_ascii. cbn [forallb].
  change (printable 34) with true. cbn [andb]. rewrite forallb_app.
  cbn [forallb]. change (printable 34) with true.
  rewrite andb_true_r. induction s as [|c s IH]; [reflexivity|].
  cbn [flat_map]. rewrite forallb_app, printable_escape_char, IH.
  reflexivity.
Qed.

Lemma printable_of_int (n : Z) : forallb printable (PyStr.of_int n) = true.
Proof.
  unfold PyStr.of_int.
  destruct (digits_spec (Z.abs_N n)) as (Hd & _).
  apply printable_digits in Hd. destruct (n <? 0); [|exact Hd].
  cbn [forallb]. rewrite Hd. reflexivity.
Qed.

Lemma printable_zfill (w : nat) (n : Z) :
  forallb printable (PyStr.zfill w n) = true.
Proof.
  unfold PyStr.zfill. rewrite forallb_app.
  rewrite printable_repeat by reflexivity.
  destruct (digits_spec (Z.abs_N n)) as (Hd & _).
  rewrite (printable_digits _ Hd). reflexivity.
Qed.

Lemma printable_firstn (n : nat) (s : pystr) :
  forallb printable s = true -> forallb printable (firstn n s) = true.
Proof.
  revert n. induction s as [|c s IH]; intros [|n] Hs; try reflexivity.
  cbn [forallb firstn] in *. apply andb_true_iff in Hs as [-> Hs].
  rewrite (IH n Hs). reflexivity.
Qed.

Lemma printable_skipn (n : nat) (s : pystr) :
  forallb printable s = true -> forallb printable (skipn n s) = true.
Proof.
  revert n. induction s as [|c s IH]; intros [|n] Hs; try reflexivity;
    [exact Hs|].
  cbn [forallb skipn] in *. apply andb_true_iff in Hs as [_ Hs].
  exact (IH n Hs).
Qed.

Lemma printable_format (ds : pystr) (decpt : Z) :
  forallb printable ds = true ->
  forallb printable (FloatRepr.format ds decpt) = true.
Proof.
  intros Hds. unfold FloatRepr.format, FloatRepr.exponent, FloatRepr.zeros.
  destruct ((decpt <=? -4) || (16 <? decpt)).
  - destruct ds as [|d rest]; [reflexivity|].
    cbn [forallb] in Hds. apply andb_true_iff in Hds as [Hd Hrest].
    cbn [forallb]. rewrite Hd. cbn [andb]. rewrite forallb_app.
    assert (He : forallb printable
                   ((if decpt - 1 <? 0 then py:"e-" else py:"e+")
                    ++ PyStr.zfill 2 (Z.abs (decpt - 1))) = true).
    { rewrite forallb_app, printable_zfill.
      destruct (decpt - 1 <? 0); reflexivity. }
    rewrite He. destruct rest; [reflexivity|].
    cbn [forallb] in *. rewrite Hrest. reflexivity.
  - destruct (decpt <=? 0).
    + rewrite !forallb_app, Hds, printable_repeat by reflexivity.
      reflexivity.
    + destruct (Z.of_nat (length ds) <=? decpt).
      * rewrite !forallb_app, Hds, printable_repeat by reflexivity.
        reflexivity.
      * rewrite forallb_app. cbn [forallb].
        rewrite printable_firstn, printable_skipn by exact Hds. reflexivity.
Qed.

Lemma printable_floatstr (f : Float64.float) :
  forallb printable (Json.floatstr f) = true.
Proof.
  destruct f as [s | s | | s m e]; try (destruct s; reflexivity);
    [reflexivity|].
  cbn [Json.floatstr FloatRepr.repr]. unfold FloatRepr.digits_of.
  destruct (FloatRepr.interval m e) as [[lo x] hi].
  destruct (0 <=? e - 2);
    destruct (FloatRepr.shortest _ _ _ _ _ _ _ _) as [c j];
    rewrite forallb_app;
    (rewrite printable_format;
     [destruct s; reflexivity
     | apply printable_digits; apply digits_spec]).
Qed.

Lemma printable_join (sep : pystr) (chunks : list pystr) :
  forallb printable sep = true ->
  Forall (fun t => forallb printable t = true) chunks ->
  forallb printable (Json.join sep chunks) = true.
Proof.
  intros Hsep Hch. induction Hch as [|x l Hx Hl IH]; [reflexivity|].
  cbn [Json.join]. destruct l as [|y l']; [exact Hx|].
  rewrite !forallb_app, Hx, Hsep, IH. reflexivity.
Qed.

Lemma printable_newline (level : nat) :
  forallb printable (Json.newline_indent level) = true.
Proof.
  unfold Json.newline_indent. cbn [forallb].
  rewrite printable_repeat by reflexivity. reflexivity.
Qed.

Lemma printable_block (opening closing : pystr) (level : nat)
    (chunks : list pystr) :
  forallb printable opening = true -> forallb printable closing = true ->
  Forall (fun t => forallb printable t = true) chunks ->
  forallb printable (Json.block opening closing level chunks) = true.
Proof.
  intros Ho Hc Hch. unfold Json.block.
  rewrite !forallb_app, Ho, Hc, !printable_newline, printable_join;
    [reflexivity | | exact Hch].
  rewrite forallb_app, printable_newline. reflexivity.
Qed.

(** The values of a list of outcomes with no error. *)
Lemma sequence_Ok {A} (l : list (result A)) (xs : list A) :
  Json.sequence l = Ok xs -> l = map Ok xs.
Proof.
  revert xs. induction l as [|r l IH]; intros xs.
  - intros [= <-]. reflexivity.
  - cbn [Json.sequence]. destruct r as [a|e]; [|discriminate]. cbn [bind].
    destruct (Json.sequence l) as [rest|e]; [|discriminate]. cbn [bind].
    intros [= <-]. cbn [map]. rewrite (IH rest eq_refl). reflexivity.
Qed.

Lemma sequence_map_Ok {A} (xs : list A) : Json.sequence (map Ok xs) = Ok xs.
Proof.
  induction xs as [|x xs IH]; [reflexivity|].
  cbn [map Json.sequence bind]. rewrite IH. reflexivity.
Qed.

Lemma insert_item_In {A} (x y : pystr * A) (l : list (pystr * A)) :
  In y (Json.insert_item x l) <-> y = x \/ In y l.
Proof.
  induction l as [|z l IH]; cbn [Json.insert_item In];
    [intuition congruence|].
  destruct (Json.str_ltb (fst z) (fst x)); cbn [In]; [rewrite IH|];
    intuition congruence.
Qed.

Lemma sorted_items_In {A} (y : pystr * A) (l : list (pystr * A)) :
  In y (Json.sorted_items l) <-> In y l.
Proof.
  unfold Json.sorted_items. induction l as [|x l IH]; [reflexivity|].
  cbn [fold_right In]. rewrite insert_item_In, IH. intuition congruence.
Qed.

(** The items of an object, as they are encoded. *)
Lemma dict_items_In (d : gmap pystr value) (level : nat)
    (k : pystr) (r : result pystr) :
  In (k, r)
    (Json.sorted_items
       (map_to_list ((fun v => Json.iterencode v (S level)) <$> d)))
  <-> exists v, d !! k = Some v /\ r = Json.iterencode v (S level).
Proof.
  rewrite sorted_items_In, <- list_elem_of_In, elem_of_map_to_list.
  rewrite lookup_fmap. destruct (d !! k) as [v|]; cbn.
  - split; [intros [= <-]; eauto | intros (v' & [= <-] & ->); reflexivity].
  - split; [discriminate | intros (v' & [=] & _)].
Qed.

Lemma iterencode_list (l : list value) (level : nat) :
  Json.iterencode (VList l) level
  = match l with
    | [] => Ok py:"[]"
    | _ =>
        let* chunks :=
          Json.sequence (map (fun v => Json.iterencode v (S level)) l) in
        Ok (Json.block py:"[" py:"]" level chunks)
    end.
Proof. reflexivity. Qed.

Lemma iterencode_dict (d : gmap pystr value) (level : nat) :
  Json.iterencode (VDict d) level
  = let items :=
      Json.sorted_items
        (map_to_list ((fun v => Json.iterencode v (S level)) <$> d)) in
    match items with
    | [] => Ok py:"{}"
    | _ =>
        let* chunks :=
          Json.sequence
            (map (fun kr => Json.item (fst kr) (snd kr)) items) in
        Ok (Json.block py:"{" py:"}" level chunks)
    end.
Proof. reflexivity. Qed.

Lemma iterencode_printable (o : value) : forall (level : nat) (t : pystr),
  Json.iterencode o level = Ok t -> forallb printable t = true.
Proof.
  induction o as [| b | n | f | s | l IH | d IH | dt] using value_induction;
    intros level t.
  - intros [= <-]. reflexivity.
  - intros [= <-]. destruct b; reflexivity.
  - cbn [Json.iterencode]. unfold Json.int_repr, raise.
    destruct (10 ^ 4300 <=? Z.abs n); [discriminate|].
    intros [= <-]. apply printable_of_int.
  - intros [= <-]. apply printable_floatstr.
  - intros [= <-]. apply printable_encode.
  - rewrite iterencode_list. destruct l as [|x l']; [intros [= <-]; reflexivity|].
    destruct (Json.sequence _) as [chunks|e] eqn:Hseq; [|discriminate].
    cbn [bind]. intros [= <-].
    apply printable_block; [reflexivity | reflexivity |].
    apply sequence_Ok in Hseq.
    apply List.Forall_forall. intros c Hc.
    assert (Hin : In (Ok c) (map (fun v => Json.iterencode v (S level))
                               (x :: l')))
      by (rewrite Hseq; apply in_map, Hc).
    apply in_map_iff in Hin as (v & Hv & Hvin).
    rewrite List.Forall_forall in IH. exact (IH v Hvin _ _ Hv).
  - rewrite iterencode_dict. cbv zeta.
    destruct (Json.sorted_items _) as [|it items] eqn:Hitems;
      [intros [= <-]; reflexivity|].
    destruct (Json.sequence _) as [chunks|e] eqn:Hseq; [|discriminate].
    cbn [bind]. intros [= <-].
    apply printable_block; [reflexivity | reflexivity |].
    apply sequence_Ok in Hseq.
    apply List.Forall_forall. intros c Hc.
    assert (Hin : In (Ok c) (map (fun kr => Json.item (fst kr) (snd kr))
                               (it :: items)))
      by (rewrite Hseq; apply in_map, Hc).
    apply in_map_iff in Hin as ([k r] & Hitem & Hkr).
    rewrite <- Hitems in Hkr. apply dict_items_In in Hkr as (v & Hv & ->).
    cbn [fst snd] in Hitem. unfold Json.item in Hitem.
    destruct (Json.iterencode v (S level)) as [tv|e] eqn:Hev; [|discriminate].
    cbn [bind] in Hitem.
    assert (Ec : c = Json.encode_basestring_ascii k ++ py:": " ++ tv)
      by congruence.
    rewrite Ec.
    rewrite !forallb_app, printable_encode, (IH k v Hv _ _ Hev). reflexivity.
  - discriminate.
Qed.

(** ** [json.dumps] on the values of JSON *)

Lemma sequence_all_Ok {A} (l : list (result A)) :
  (forall r, In r l -> exists a, r = Ok a) ->
  exists xs, Json.sequence l = Ok xs.
Proof.
  induction l as [|r l IH]; intros Hall; [exists []; reflexivity|].
  destruct (Hall r (or_introl eq_refl)) as (a & ->).
  destruct IH as (xs & Hxs); [intros r' Hr'; apply Hall; right; exact Hr'|].
  exists (a :: xs). cbn [Json.sequence bind]. rewrite Hxs. reflexivity.
Qed.

Lemma iterencode_json (o : value) :
  is_json o = true -> forall level, exists t, Json.iterencode o level = Ok t.
Proof.
  induction o as [| b | n | f | s | l IH | d IH | dt] using value_induction;
    intros Hj level; try (eexists; reflexivity).
  - cbn [is_json] in Hj. cbn [Json.iterencode]. unfold Json.int_repr.
    apply Z.ltb_lt in Hj.
    destruct (Z.leb_spec (10 ^ 4300) (Z.abs n)) as [Hle|_];
      [|eexists; reflexivity].
    set (B := 10 ^ 4300) in *. clearbody B. lia.
  - rewrite iterencode_list. destruct l as [|x l']; [eexists; reflexivity|].
    change (is_json (VList (x :: l'))) with (forallb is_json (x :: l')) in Hj.
    rewrite forallb_forall in Hj. rewrite List.Forall_forall in IH.
    destruct (sequence_all_Ok
                (map (fun v => Json.iterencode v (S level)) (x :: l')))
      as (chunks & ->); [|eexists; reflexivity].
    intros r Hr. apply in_map_iff in Hr as (v & <- & Hv).
    exact (IH v Hv (Hj v Hv) (S level)).
  - rewrite iterencode_dict. cbv zeta.
    apply is_json_dict in Hj.
    destruct (Json.sorted_items _) as [|it items] eqn:Hitems;
      [eexists; reflexivity|].
    destruct (sequence_all_Ok
                (map (fun kr => Json.item (fst kr) (snd kr)) (it :: items)))
      as (chunks & ->); [|eexists; reflexivity].
    intros r Hr. apply in_map_iff in Hr as ([k rv] & <- & Hkr).
    rewrite <- Hitems in Hkr. apply dict_items_In in Hkr as (v & Hv & ->).
    destruct (IH k v Hv (Hj k v Hv) (S level)) as (tv & Htv).
    cbn [fst snd]. unfold Json.item. rewrite Htv. eexists; reflexivity.
  - discriminate.
Qed.

Lemma iterencode_Ok_json (o : value) : forall level t,
  Json.iterencode o level = Ok t -> is_json o = true.
Proof.
  induction o as [| b | n | f | s | l IH | d IH | dt] using value_induction;
    intros level t; try reflexivity.
  - cbn [Json.iterencode is_json]. unfold Json.int_repr, raise.
    destruct (Z.leb_spec (10 ^ 4300) (Z.abs n)) as [|Hlt]; [discriminate|].
    intros _. apply Z.ltb_lt. exact Hlt.
  - rewrite iterencode_list.
    change (is_json (VList l)) with (forallb is_json l).
    destruct l as [|x l']; [reflexivity|].
    destruct (Json.sequence _) as [chunks|e] eqn:Hseq; [|discriminate].
    intros _. apply sequence_Ok in Hseq.
    apply forallb_forall. intros v Hv. rewrite List.Forall_forall in IH.
    assert (Hin : In (Json.iterencode v (S level)) (map Ok chunks))
      by (rewrite <- Hseq;
          exact (in_map (fun v => Json.iterencode v (S level)) _ _ Hv)).
    apply in_map_iff in Hin as (c & Hc & _).
    exact (IH v Hv (S level) c (eq_sym Hc)).
  - rewrite iterencode_dict. cbv zeta. intros Henc.
    apply is_json_dict. intros k v Hv.
    assert (Hkr : In (k, Json.iterencode v (S level))
                    (Json.sorted_items
                       (map_to_list
                          ((fun v => Json.iterencode v (S level)) <$> d))))
      by (apply dict_items_In; eauto).
    destruct (Json.sorted_items _) as [|it items]; [destruct Hkr|].
    destruct (Json.sequence _) as [chunks|e] eqn:Hseq; [|discriminate].
    apply sequence_Ok in Hseq.
    assert (Hin : In (Json.item k (Json.iterencode v (S level)))
                    (map Ok chunks)).
    { rewrite <- Hseq.
      apply (in_map (fun kr => Json.item (fst kr) (snd kr)) _ _ Hkr). }
    apply in_map_iff in Hin as (c & Hc & _). unfold Json.item in Hc.
    destruct (Json.iterencode v (S level)) as [tv|e] eqn:Hev;
      [|discriminate].
    exact (IH k v Hv (S level) tv Hev).
  - discriminate.
Qed.

Lemma sequence_Raise {A} (l : list (result A)) (e : exn) :
  Json.sequence l = Raise e -> In (Raise e) l.
Proof.
  induction l as [|r l IH]; [discriminate|].
  cbn [Json.sequence bind]. destruct r as [a|e']; cbn [bind].
  - destruct (Json.sequence l) as [xs|e'']; [discriminate|].
    intros [= ->]. right. apply IH. reflexivity.
  - intros [= ->]. left. reflexivity.
Qed.

Lemma iterencode_Raise (o : value) : forall level e,
  Json.iterencode o level = Raise e ->
  exn_cls e = TypeError \/ exn_cls e = ValueError.
Proof.
  induction o as [| b | n | f | s | l IH | d IH | dt] using value_induction;
    intros level e; try discriminate.
  - cbn [Json.iterencode]. unfold Json.int_repr, raise.
    destruct (_ <=? _); [|discriminate]. intros [= <-]. right. reflexivity.
  - rewrite iterencode_list. destruct l as [|x l']; [discriminate|].
    destruct (Json.sequence _) as [chunks|e'] eqn:Hseq; [discriminate|].
    intros [= ->]. apply sequence_Raise in Hseq.
    apply in_map_iff in Hseq as (v & Hv & Hin).
    rewrite List.Forall_forall in IH. exact (IH v Hin (S level) e Hv).
  - rewrite iterencode_dict. cbv zeta.
    destruct (Json.sorted_items _) as [|it items] eqn:Hitems;
      [discriminate|].
    destruct (Json.sequence _) as [chunks|e'] eqn:Hseq; [discriminate|].
    intros [= ->]. apply sequence_Raise in Hseq.
    apply in_map_iff in Hseq as ([k rv] & Hitem & Hkr).
    rewrite <- Hitems in Hkr. apply dict_items_In in Hkr as (v & Hv & ->).
    cbn [fst snd] in Hitem. unfold Json.item in Hitem.
    destruct (Json.iterencode v (S level)) as [tv|e'] eqn:Hev;
      [discriminate|].
    cbn [bind] in Hitem. injection Hitem as ->.
    exact (IH k v Hv (S level) e Hev).
  - cbn [Json.iterencode]. unfold raise. intros [= <-]. left. reflexivity.
Qed.

(** ** [dump_data] *)

Section Dump_data.

Context `{Disk}.

(** X14.  On a disk that lets the file be opened and written, [dump_data]
    of a forum or of a user whose document is a value of JSON returns
    and leaves two events, the file opened and then written once with the
    text of [json.dumps]; the file is "forum.json", or the name of the
    user with ".json", joined to the path. *)
Theorem dump_data_json (f : Forum.t) (u : User.t) (path : pystr) :
  let pf := Posixpath.join path py:"forum.json" in
  let pu := Posixpath.join path (User.username u ++ py:".json") in
  (is_json (Forum.data f) = true -> open_error pf = None ->
   (forall text, write_error pf text = None) ->
   exists text,
     Json.dumps (Forum.data f) = Ok text
     /\ forall log, Forum_dump_data f path log
                    = (Ok tt, log ++ [Opened pf; Written pf text]))
  /\ (is_json (User.data u) = true -> open_error pu = None ->
      (forall text, write_error pu text = None) ->
      exists text,
        Json.dumps (User.data u) = Ok text
        /\ forall log, User_dump_data u path log
                       = (Ok tt, log ++ [Opened pu; Written pu text])).
Proof.
  cbv zeta. split; intros Hj Ho Hw.
  - destruct (iterencode_json _ Hj 0%nat) as (text & Ht).
    exists text. split; [exact Ht|]. intros log.
    unfold Forum_dump_data, dump.
    change (py:"forum" ++ py:".json") with (py:"forum.json").
    unfold Json.dumps. rewrite Ho, Ht, Hw. reflexivity.
  - destruct (iterencode_json _ Hj 0%nat) as (text & Ht).
    exists text. split; [exact Ht|]. intros log.
    unfold User_dump_data, dump. unfold Json.dumps.
    rewrite Ho, Ht, Hw. reflexivity.
Qed.

(** X15.  Every text [dump_data] writes to a file is made of printable
    ASCII characters and line breaks, whatever the document holds. *)
Theorem dump_data_ascii (f : Forum.t) (u : User.t) (path : pystr)
    (log : list file_event) (p text : pystr) :
  (In (Written p text) (snd (Forum_dump_data f path log))
   \/ In (Written p text) (snd (User_dump_data u path log))) ->
  In (Written p text) log \/ forallb printable text = true.
Proof.
  assert (Hdump : forall q data,
            In (Written p text) (snd (dump q data log)) ->
            In (Written p text) log \/ forallb printable text = true).
  { intros q data. unfold dump.
    destruct (open_error q); [cbn [snd]; auto|].
    destruct (Json.dumps data) as [t|e] eqn:Ht.
    - destruct (write_error q t); cbn [snd]; rewrite in_app_iff; cbn [In].
      + intros [Hin | [[=] | []]]. auto.
      + intros [Hin | [[=] | [[= _ <-] | []]]]; [auto|].
        right. exact (iterencode_printable _ _ _ Ht).
    - cbn [snd]. rewrite in_app_iff. cbn [In].
      intros [Hin | [[=] | []]]. auto. }
  intros [Hin | Hin]; eapply Hdump; exact Hin.
Qed.

(** X16.  When the document cannot be written as JSON (it holds a
    timestamp or an [int] of more than 4300 digits), [dump_data] raises
    TypeError or ValueError after the file has been opened: the file is
    left empty, and nothing is written to it. *)
Theorem dump_data_not_json (f : Forum.t) (u : User.t) (path : pystr)
    (log : list file_event) :
  let pf := Posixpath.join path py:"forum.json" in
  let pu := Posixpath.join path (User.username u ++ py:".json") in
  (is_json (Forum.data f) = false -> open_error pf = None ->
   exists e,
     (exn_cls e = TypeError \/ exn_cls e = ValueError)
     /\ Forum_dump_data f path log = (Raise e, log ++ [Opened pf]))
  /\ (is_json (User.data u) = false -> open_error pu = None ->
      exists e,
        (exn_cls e = TypeError \/ exn_cls e = ValueError)
        /\ User_dump_data u path log = (Raise e, log ++ [Opened pu])).
Proof.
  assert (Hdump : forall p data,
            is_json data = false -> open_error p = None ->
            exists e,
              (exn_cls e = TypeError \/ exn_cls e = ValueError)
              /\ dump p data log = (Raise e, log ++ [Opened p])).
  { intros p data Hj Ho. unfold dump, Json.dumps. rewrite Ho.
    destruct (Json.iterencode data 0) as [t|e] eqn:Ht.
    - apply iterencode_Ok_json in Ht. congruence.
    - exists e. split; [exact (iterencode_Raise _ _ _ Ht)|reflexivity]. }
  cbv zeta. split; intros Hj Ho; apply Hdump; assumption.
Qed.

(** X17.  The file of a forum is the path followed by "forum.json",
    with a '/' between the two unless the path is empty or ends with
    one.  The file of a user is made the same way from the name of the
    user, unless the name starts with '/': then the path is ignored, and
    the file is the name followed by ".json". *)
Theorem dump_data_target (f : Forum.t) (u : User.t) (path : pystr)
    (log : list file_event) :
  let sep := match last path with
             | None | Some 47%N => []
             | Some _ => py:"/"
             end in
  Forum_dump_data f path log
  = dump (path ++ sep ++ py:"forum.json") (Forum.data f) log
  /\ ((forall name, User.username u <> 47%N :: name) ->
      User_dump_data u path log
      = dump (path ++ sep ++ User.username u ++ py:".json") (User.data u)
          log)
  /\ (forall name, User.username u = 47%N :: name ->
      User_dump_data u path log
      = dump (User.username u ++ py:".json") (User.data u) log).
Proof.
  assert (Hjoin : forall c b,
            c <> 47%N ->
            Posixpath.join path (c :: b)
            = path ++ match last path with
                      | None | Some 47%N => []
                      | Some _ => py:"/"
                      end ++ c :: b).
  { intros c b Hc. unfold Posixpath.join.
    assert (Hlast : last path = None -> path = []).
    { destruct path as [|x l] using rev_ind; [reflexivity|].
      rewrite last_snoc. discriminate. }
    destruct (last path) as [x|] eqn:Hl.
    - assert (Hb : match c with 47%N => c :: b | _ =>
                     match x with
                     | 47%N => path ++ c :: b
                     | _ => path ++ 47%N :: c :: b
                     end end
                   = match x with
                     | 47%N => path ++ c :: b
                     | _ => path ++ 47%N :: c :: b
                     end).
      { destruct c as [|p]; [reflexivity|].
        do 7 (try (destruct p as [p|p|]; try reflexivity)).
      all: congruence. }
      etransitivity; [exact Hb|].
      destruct x as [|p]; [reflexivity|].
      do 7 (try (destruct p as [p|p|]; try reflexivity)).
    - rewrite (Hlast eq_refl).
      destruct c as [|p]; [reflexivity|].
      do 7 (try (destruct p as [p|p|]; try reflexivity)).
      all: congruence. }
  cbv zeta. split; [|split].
  - unfold Forum_dump_data.
    change (py:"forum" ++ py:".json") with (102%N :: py:"orum.json").
    rewrite Hjoin by discriminate. reflexivity.
  - intros Hname. unfold User_dump_data.
    destruct (User.username u) as [|c name] eqn:Hu.
    + change ([] ++ py:".json") with (46%N :: py:"json").
      rewrite Hjoin by discriminate. reflexivity.
    + cbn [app]. rewrite Hjoin; [reflexivity|].
      intros ->. exact (Hname name eq_refl).
  - intros name Hname. unfold User_dump_data. rewrite Hname. reflexivity.
Qed.

End Dump_data.

Section Init_dump.

Context `{Datetime.Platform} `{World} `{Disk}.

Lemma Forum_init_data (url : pystr) (log log' : list request) (f : Forum.t) :
  Forum.__init__ url log = (Ok f, log') ->
  exists t, json_loads t = Some (Forum.data f).
Proof.
  unfold Forum.__init__. intros Hinit.
  apply io_bind_Ok in Hinit as (head & l0 & _ & Hinit).
  destruct (negb _) in Hinit; [discriminate|].
  apply io_bind_Ok in Hinit as (endpoint & l1 & _ & Hinit).
  apply io_bind_Ok in Hinit as (req & l2 & _ & Hinit).
  apply io_bind_Ok in Hinit as (data & l3 & Hdata & Hinit).
  apply io_lift_Ok in Hdata as [Hdata _].
  apply json_loads_text_Ok in Hdata.
  apply io_bind_Ok in Hinit as (configurl & l4 & _ & Hinit).
  apply io_bind_Ok in Hinit as (configreq & l5 & _ & Hinit).
  apply io_bind_Ok in Hinit as (config & l6 & _ & Hinit).
  apply io_bind_Ok in Hinit as (title & l7 & _ & Hinit).
  unfold io_ret in Hinit. injection Hinit as <- _.
  exists (text req). exact Hdata.
Qed.

Lemma User_init_data (forum : Forum.t) (username : pystr)
    (log log' : list request) (u : User.t) :
  Forum_User forum username log = (Ok u, log') ->
  User.username u = username /\ exists t, json_loads t = Some (User.data u).
Proof.
  unfold Forum_User, User.__init__. intros Hinit.
  apply io_bind_Ok in Hinit as (api_url & l1 & _ & Hinit).
  apply io_bind_Ok in Hinit as (req & l2 & _ & Hinit).
  apply io_bind_Ok in Hinit as (data & l3 & Hdata & Hinit).
  apply io_lift_Ok in Hdata as [Hdata _].
  apply json_loads_text_Ok in Hdata.
  unfold io_ret in Hinit. injection Hinit as <- _.
  split; [reflexivity|]. exists (text req). exact Hdata.
Qed.

(** X18.  Where [json.loads] gives values of JSON and the disk lets
    files be opened and written, a forum that has been constructed and a
    user made from it can both be dumped: each [dump_data] returns and
    writes the text of its document to its own file. *)
Theorem init_then_dump (url username path : pystr)
    (log log1 log2 : list request) (f : Forum.t) (u : User.t)
    (files : list file_event) :
  (forall t v, json_loads t = Some v -> is_json v = true) ->
  (forall p, open_error p = None) ->
  (forall p text, write_error p text = None) ->
  Forum.__init__ url log = (Ok f, log1) ->
  Forum_User f username log1 = (Ok u, log2) ->
  exists tf tu,
    Json.dumps (Forum.data f) = Ok tf /\ Json.dumps (User.data u) = Ok tu
    /\ Forum_dump_data f path files
       = (Ok tt, files ++ [Opened (Posixpath.join path py:"forum.json");
                           Written (Posixpath.join path py:"forum.json") tf])
    /\ User_dump_data u path files
       = (Ok tt,
          files ++ [Opened (Posixpath.join path (username ++ py:".json"));
                    Written (Posixpath.join path (username ++ py:".json"))
                      tu]).
Proof.
  intros Hloads Hopen Hwrite Hf Hu.
  apply Forum_init_data in Hf as (t1 & Ht1).
  apply User_init_data in Hu as (Hname & t2 & Ht2).
  destruct (iterencode_json _ (Hloads _ _ Ht1) 0%nat) as (tf & Htf).
  destruct (iterencode_json _ (Hloads _ _ Ht2) 0%nat) as (tu & Htu).
  exists tf, tu. split; [exact Htf|]. split; [exact Htu|].
  unfold Forum_dump_data, User_dump_data, dump, Json.dumps.
  rewrite Hname, !Hopen, Htf, Htu, !Hwrite. split; reflexivity.
Qed.

End Init_dump.

(** *** On samples *)

(** X14 on a forum with two settings, dumped to the default path. *)
Lemma dump_data_json_witness :
  exists text,
    Json.dumps (VDict Sample.settings) = Ok text
    /\ forall log,
         @Forum_dump_data Sample.disk
           (Sample.forum (VDict Sample.settings) (VDict ∅)) py:"." log
         = (Ok tt, log ++ [Opened py:"./forum.json";
                           Written py:"./forum.json" text]).
Proof.
  destruct (@dump_data_json Sample.disk
              (Sample.forum (VDict Sample.settings) (VDict ∅))
              (Sample.user (VDict ∅)) py:".") as [Hf _].
  apply Hf.
  - vm_compute. reflexivity.
  - reflexivity.
  - intros text. reflexivity.
Defined.

(** X15 on a document with an accent and an emoji. *)
Lemma dump_data_ascii_witness :
  In (Written py:"./u.json"
        (Json.encode_basestring_ascii [233%N; 128512%N]))
    (snd (@User_dump_data Sample.disk
            (Sample.user (VStr [233%N; 128512%N])) py:"." []))
  /\ forallb printable (Json.encode_basestring_ascii [233%N; 128512%N])
     = true.
Proof.
  assert (Hin : In (Written py:"./u.json"
                      (Json.encode_basestring_ascii [233%N; 128512%N]))
                  (snd (@User_dump_data Sample.disk
                          (Sample.user (VStr [233%N; 128512%N])) py:"."
                          [])))
    by (right; left; reflexivity).
  split; [exact Hin|].
  destruct (@dump_data_ascii Sample.disk
              (Sample.forum (VDict ∅) (VDict ∅))
              (Sample.user (VStr [233%N; 128512%N])) py:"." []
              py:"./u.json"
              (Json.encode_basestring_ascii [233%N; 128512%N])
              (or_intror Hin)) as [[] | Hp].
  exact Hp.
Defined.

(** X16 on a document that holds a timestamp. *)
Lemma dump_data_not_json_witness :
  exists e,
    (exn_cls e = TypeError \/ exn_cls e = ValueError)
    /\ @Forum_dump_data Sample.disk
         (Sample.forum Sample.dated (VDict ∅)) py:"out/" []
       = (Raise e, [Opened py:"out/forum.json"]).
Proof.
  destruct (@dump_data_not_json Sample.disk
              (Sample.forum Sample.dated (VDict ∅))
              (Sample.user (VDict ∅)) py:"out/" []) as [Hf _].
  apply Hf.
  - vm_compute. reflexivity.
  - reflexivity.
Defined.

(** X17 on a user whose name is a path from the root. *)
Lemma dump_data_target_witness :
  @User_dump_data Sample.read_only Sample.rooted py:"out" []
  = @dump Sample.read_only py:"/tmp/u.json" (VDict Sample.settings) [].
Proof.
  destruct (@dump_data_target Sample.read_only
              (Sample.forum (VDict ∅) (VDict ∅)) Sample.rooted
              py:"out" []) as (_ & _ & Hroot).
  exact (Hroot py:"tmp/u" eq_refl).
Defined.

(** X18 on a NodeBB server. *)
Lemma init_then_dump_witness :
  exists f u tf tu,
    @Forum.__init__ (Sample.nodebb Sample.titled) py:"http://f/" []
    = (Ok f, [HEAD py:"http://f/"; GET py:"http://f/api/";
              GET py:"http://f/api/config"])
    /\ @Forum_dump_data Sample.disk f py:"out/" []
       = (Ok tt, [Opened py:"out/forum.json";
                  Written py:"out/forum.json" tf])
    /\ @User_dump_data Sample.disk u py:"out/" []
       = (Ok tt, [Opened py:"out/bob.json"; Written py:"out/bob.json" tu]).
Proof.
  destruct (@Forum.__init__ (Sample.nodebb Sample.titled) py:"http://f/" [])
    as [[f|e] l1] eqn:Hf; [|vm_compute in Hf; discriminate].
  assert (Hl1 : l1 = [HEAD py:"http://f/"; GET py:"http://f/api/";
                      GET py:"http://f/api/config"])
    by (vm_compute in Hf; injection Hf as _ <-; reflexivity).
  destruct (@Forum_User Datetime.utc (Sample.nodebb Sample.titled) f
              py:"bob" l1) as [[u|e] l2] eqn:Hu.
  2:{ exfalso.
      assert (He : Forum.endpoint f = py:"http://f/api/")
        by (vm_compute in Hf; injection Hf as <- _; reflexivity).
      unfold Forum_User, User.__init__ in Hu. rewrite He in Hu.
      vm_compute in Hu. discriminate. }
  destruct (@init_then_dump Datetime.utc (Sample.nodebb Sample.titled)
              Sample.disk
              py:"http://f/" py:"bob" py:"out/" [] l1 l2 f u [])
    as (tf & tu & _ & _ & Hdf & Hdu).
  - intros t v [= <-]. vm_compute. reflexivity.
  - reflexivity.
  - reflexivity.
  - exact Hf.
  - exact Hu.
  - exists f, u, tf, tu. rewrite Hl1. auto.
Defined.

(** ** The coercion of the values that are no text *)




Section Coercion_values.

Context `{Datetime.Platform}.


End Coercion_values.

(** ** [int] on digits that are not decimal *)

(** A digit that is not decimal is no ASCII character and no white
    space. *)
Lemma other_digit_high (c : N) :
  Unicode.isdigit c = true -> Unicode.isdecimal c = false ->
  (127 < c)%N /\ Unicode.isspace c = false.
Proof.
  unfold Unicode.isdigit. intros Hd Hn. rewrite Hn in Hd. cbn [orb] in Hd.
  unfold Unicode.in_ranges in Hd.
  apply existsb_exists in Hd as (r & Hin & Hr).
  assert (Hall : forallb (fun r => (127 <? fst r)%N
            && forallb (fun sp => (snd sp <? fst r)%N || (snd r <? fst sp)%N)
                 Unicode.spaces) Unicode.other_digits = true)
    by (vm_compute; reflexivity).
  rewrite forallb_forall in Hall. specialize (Hall r Hin).
  apply andb_true_iff in Hall as [Hlo Hsp]. apply N.ltb_lt in Hlo.
  unfold Unicode.in_range in Hr. apply andb_true_iff in Hr as [H1 H2].
  apply N.leb_le in H1, H2. split; [lia|].
  unfold Unicode.isspace, Unicode.in_ranges.
  apply not_true_is_false. intros He.
  apply existsb_exists in He as (sp & Hsp' & Hc).
  rewrite forallb_forall in Hsp. specialize (Hsp sp Hsp').
  unfold Unicode.in_range in Hc. apply andb_true_iff in Hc as [H3 H4].
  apply N.leb_le in H3, H4.
  apply orb_true_iff in Hsp as [Hs | Hs]; apply N.ltb_lt in Hs; lia.
Qed.

(** The text [int] reads stops with a '?' at the first digit that is not
    decimal. *)
Lemma to_ascii_other_digit (s : pystr) :
  forallb Unicode.isdigit s = true -> forallb Unicode.isdecimal s = false ->
  exists ds, PyStr.to_ascii s = ds ++ [63%N]
             /\ forallb PyStr.c_isdigit ds = true.
Proof.
  induction s as [|c s IH]; [discriminate|].
  cbn [forallb]. intros Hd Hn. apply andb_true_iff in Hd as [Hc Hs].
  cbn [PyStr.to_ascii].
  destruct (Unicode.isdecimal c) eqn:Hdec.
  - cbn [andb] in Hn. destruct (IH Hs Hn) as (ds & Hds & Hall).
    pose proof (to_ascii_decimal [c]) as H1. cbn [forallb] in H1.
    rewrite Hdec in H1. specialize (H1 eq_refl).
    cbn [PyStr.to_ascii map] in H1.
    exists (Aux.ascii_digit c :: ds).
    cbn [forallb]. rewrite (ascii_digit_isdigit _ Hdec), Hall.
    split; [|reflexivity].
    destruct (c <=? 127)%N.
    + injection H1 as H1. rewrite <- H1 at 1. rewrite Hds. reflexivity.
    + destruct (Unicode.isspace c).
      * injection H1 as H1. exfalso.
        pose proof (ascii_digit_isdigit _ Hdec) as Hr.
        apply c_isdigit_range in Hr. lia.
      * unfold Unicode.isdecimal in Hdec.
        destruct (Unicode.to_decimal c); [|discriminate].
        injection H1 as H1. rewrite <- H1 at 1. rewrite Hds. reflexivity.
  - destruct (other_digit_high c Hc Hdec) as [Hhi Hsp].
    exists []. split; [|reflexivity].
    destruct (N.leb_spec c 127); [lia|]. rewrite Hsp.
    unfold Unicode.isdecimal in Hdec.
    destruct (Unicode.to_decimal c); [discriminate|reflexivity].
Qed.

Lemma read_digits_stop (ds : pystr) (acc : N) :
  forallb PyStr.c_isdigit ds = true ->
  exists n, PyStr.read_digits (ds ++ [63%N]) acc = (n, [63%N]).
Proof.
  revert acc. induction ds as [|c ds IH]; intros acc Hds.
  - exists acc. reflexivity.
  - cbn [forallb] in Hds. apply andb_true_iff in Hds as [Hc Hds].
    cbn [app PyStr.read_digits]. rewrite Hc. apply IH. assumption.
Qed.

Lemma to_int_other_digit (s : pystr) :
  forallb Unicode.isdigit s = true -> forallb Unicode.isdecimal s = false ->
  PyStr.to_int s = None.
Proof.
  intros Hd Hn. unfold PyStr.to_int.
  destruct (to_ascii_other_digit s Hd Hn) as (ds & -> & Hds).
  destruct ds as [|c ds]; [reflexivity|].
  cbn [forallb] in Hds. apply andb_true_iff in Hds as [Hc Hds'].
  pose proof Hc as Hr. apply c_isdigit_range in Hr.
  assert (Hsk : PyStr.skip_spaces ((c :: ds) ++ [63%N]) = (c :: ds) ++ [63%N]).
  { cbn [app PyStr.skip_spaces]. unfold PyStr.c_isspace, Unicode.in_range.
    cmp_N. }
  rewrite Hsk. cbn [app]. cbv zeta.
  replace (c =? 45)%N with false by cmp_N.
  replace (c =? 43)%N with false by cmp_N.
  unfold PyStr.read_unsigned. rewrite Hc.
  destruct (read_digits_stop (c :: ds) 0%N) as (n & Hrd);
    [cbn [forallb]; rewrite Hc; exact Hds'|].
  cbn [app] in Hrd. rewrite Hrd. reflexivity.
Qed.

Section Coercion_digits.

Context `{Datetime.Platform}.

(** X10.  A text of 13 digits one of which is not decimal (a superscript,
    a circled digit) always raises [ValueError]: [isdigit] lets it through
    and [int] refuses it. *)
Theorem process_data_other_digit (s : pystr) :
  length s = 13%nat -> forallb Unicode.isdigit s = true ->
  forallb Unicode.isdecimal s = false ->
  process_data (VStr s)
  = raise ValueError "invalid literal for int() with base 10".
Proof.
  intros Hl Hd Hn. unfold process_data.
  assert (H13 : is_13_digits (VStr s) = true).
  { unfold is_13_digits, py_str, PyStr.isdigit. rewrite Hd, Hl.
    destruct s; [discriminate|reflexivity]. }
  rewrite H13. unfold py_int. rewrite (to_int_other_digit s Hd Hn).
  reflexivity.
Qed.

End Coercion_digits.

(** ** The floats of the timestamps *)



(** Linear arithmetic where the powers are taken as unknowns. *)
Ltac pow_lia :=
  repeat match goal with
         | |- context [?a ^ ?b] =>
             let x := fresh "pw" in set (x := a ^ b) in *; clearbody x
         | H : context [?a ^ ?b] |- _ =>
             let x := fresh "pw" in set (x := a ^ b) in *; clearbody x
         end;
  lia.

Lemma located_shr_1 (mrs : shr_record) (X D : Z) :
  0 < D -> 0 <= shr_m mrs -> Rounding.located mrs X D ->
  Rounding.located (shr_1 mrs) X (2 * D)
  /\ shr_m (shr_1 mrs) = shr_m mrs / 2.
Proof.
  intros HD Hm. destruct mrs as [m r s]. cbn [shr_m] in Hm.
  unfold Rounding.located. cbn [shr_m shr_r shr_s].
  destruct m as [|p|p]; [| |lia].
  - cbn [shr_1 shr_m shr_r shr_s]. destruct r, s; cbn [orb]; intros Hl;
      (split; [lia | reflexivity]).
  - destruct p as [p|p|].
    + cbn [shr_1 shr_m shr_r shr_s]. rewrite (Pos2Z.inj_xI p).
      split; [|apply (Z.div_unique _ 2 _ 1); lia].
      destruct r, s; cbn [orb]; lia.
    + cbn [shr_1 shr_m shr_r shr_s]. rewrite (Pos2Z.inj_xO p).
      split; [|apply (Z.div_unique _ 2 _ 0); lia].
      destruct r, s; cbn [orb]; lia.
    + cbn [shr_1 shr_m shr_r shr_s].
      split; [|reflexivity].
      destruct r, s; cbn [orb]; lia.
Qed.

Lemma shr_1_m_nonneg (mrs : shr_record) :
  0 <= shr_m mrs -> 0 <= shr_m (shr_1 mrs).
Proof.
  destruct mrs as [m r s]. cbn [shr_m]. intros Hm.
  destruct m as [|p|p]; [cbn; lia | | lia].
  destruct p; cbn; lia.
Qed.

Lemma located_iter (n : positive) : forall (mrs : shr_record) (X D : Z),
  0 < D -> 0 <= shr_m mrs -> Rounding.located mrs X D ->
  Rounding.located (SpecFloat.iter_pos shr_1 n mrs) X (2 ^ Z.pos n * D)
  /\ shr_m (SpecFloat.iter_pos shr_1 n mrs) = shr_m mrs / 2 ^ Z.pos n
  /\ 0 <= shr_m (SpecFloat.iter_pos shr_1 n mrs).
Proof.
  induction n as [n IH | n IH |]; intros mrs X D HD Hm Hl.
  - cbn [SpecFloat.iter_pos].
    destruct (located_shr_1 mrs X D HD Hm Hl) as [H1 E1].
    pose proof (shr_1_m_nonneg mrs Hm) as N1.
    assert (Hp : 0 < 2 ^ Z.pos n) by (apply Z.pow_pos_nonneg; lia).
    destruct (IH _ X (2 * D) ltac:(lia) N1 H1) as (H2 & E2 & N2).
    destruct (IH _ X (2 ^ Z.pos n * (2 * D)) ltac:(lia) N2 H2)
      as (H3 & E3 & N3).
    rewrite (Pos2Z.inj_xI n).
    replace (2 ^ (2 * Z.pos n + 1)) with (2 ^ Z.pos n * (2 ^ Z.pos n * 2))
      by (rewrite Z.pow_add_r, Z.pow_1_r by lia;
          replace (2 * Z.pos n) with (Z.pos n + Z.pos n) by lia;
          rewrite Z.pow_add_r by lia; ring).
    split; [|split; [|exact N3]].
    + replace (2 ^ Z.pos n * (2 ^ Z.pos n * 2) * D)
        with (2 ^ Z.pos n * (2 ^ Z.pos n * (2 * D))) by ring.
      exact H3.
    + rewrite E3, E2, E1. rewrite !Z.div_div by lia. f_equal. ring.
  - cbn [SpecFloat.iter_pos].
    assert (Hp : 0 < 2 ^ Z.pos n) by (apply Z.pow_pos_nonneg; lia).
    destruct (IH _ X D HD Hm Hl) as (H2 & E2 & N2).
    destruct (IH _ X (2 ^ Z.pos n * D) ltac:(lia) N2 H2) as (H3 & E3 & N3).
    rewrite (Pos2Z.inj_xO n).
    replace (2 ^ (2 * Z.pos n)) with (2 ^ Z.pos n * 2 ^ Z.pos n)
      by (replace (2 * Z.pos n) with (Z.pos n + Z.pos n) by lia;
          rewrite Z.pow_add_r by lia; ring).
    split; [|split; [|exact N3]].
    + replace (2 ^ Z.pos n * 2 ^ Z.pos n * D)
        with (2 ^ Z.pos n * (2 ^ Z.pos n * D)) by ring.
      exact H3.
    + rewrite E3, E2. rewrite Z.div_div by lia. reflexivity.
  - cbn [SpecFloat.iter_pos]. change (2 ^ 1) with 2.
    destruct (located_shr_1 mrs X D HD Hm Hl) as [H1 E1].
    split; [exact H1|]. split; [exact E1|]. apply shr_1_m_nonneg, Hm.
Qed.

(** Rounding to nearest: the integer returned is at most one half away
    from the quotient, and it is the quotient when the quotient is an
    integer. *)
Lemma round_nearest_even_located (mrs : shr_record) (X D : Z) :
  0 < D -> Rounding.located mrs X D ->
  let m1 := round_nearest_even (shr_m mrs) (loc_of_shr_record mrs) in
  shr_m mrs <= m1 <= shr_m mrs + 1
  /\ - D <= 2 * m1 * D - 2 * X <= D
  /\ (X = shr_m mrs * D -> m1 = shr_m mrs).
Proof.
  intros HD. destruct mrs as [m r s]. unfold Rounding.located.
  cbn [shr_m shr_r shr_s loc_of_shr_record].
  destruct r, s; cbn [round_nearest_even]; intros Hl;
    try (split; [lia|]; split; [lia|]; intros; lia).
  destruct (Z.even m); split; try lia; split; try lia.
Qed.

Lemma digits2_pos_bounds (p : positive) :
  2 ^ (Z.pos (digits2_pos p) - 1) <= Z.pos p < 2 ^ Z.pos (digits2_pos p).
Proof.
  induction p as [p IH | p IH |]; cbn [digits2_pos].
  - rewrite Pos2Z.inj_succ, (Pos2Z.inj_xI p).
    replace (Z.succ (Z.pos (digits2_pos p)) - 1)
      with (Z.succ (Z.pos (digits2_pos p) - 1)) by lia.
    rewrite !Z.pow_succ_r by lia.
    set (a := 2 ^ (Z.pos (digits2_pos p) - 1)) in *.
    set (b := 2 ^ Z.pos (digits2_pos p)) in *. lia.
  - rewrite Pos2Z.inj_succ, (Pos2Z.inj_xO p).
    replace (Z.succ (Z.pos (digits2_pos p)) - 1)
      with (Z.succ (Z.pos (digits2_pos p) - 1)) by lia.
    rewrite !Z.pow_succ_r by lia.
    set (a := 2 ^ (Z.pos (digits2_pos p) - 1)) in *.
    set (b := 2 ^ Z.pos (digits2_pos p)) in *. lia.
  - cbn. lia.
Qed.

Lemma Zdigits2_unique (m d : Z) :
  0 < d -> 2 ^ (d - 1) <= m < 2 ^ d -> Zdigits2 m = d.
Proof.
  intros Hd Hm.
  assert (0 < 2 ^ (d - 1)) by (apply Z.pow_pos_nonneg; lia).
  destruct m as [|p|p]; [pow_lia | | pow_lia].
  cbn [Zdigits2]. pose proof (digits2_pos_bounds p) as Hb.
  assert (E1 : Z.log2 (Z.pos p) = d - 1).
  { apply Z.log2_unique; [lia|].
    replace (Z.succ (d - 1)) with d by lia. exact Hm. }
  assert (E2 : Z.log2 (Z.pos p) = Z.pos (digits2_pos p) - 1).
  { apply Z.log2_unique; [lia|].
    replace (Z.succ (Z.pos (digits2_pos p) - 1))
      with (Z.pos (digits2_pos p)) by lia.
    exact Hb. }
  lia.
Qed.

Lemma shr_record_of_loc_m (m : Z) (l : location) :
  shr_m (shr_record_of_loc m l) = m.
Proof. destruct l as [|[| |]]; reflexivity. Qed.

Lemma located_exact (m : Z) : Rounding.located (shr_record_of_loc m loc_Exact) m 1.
Proof. unfold Rounding.located. cbn. lia. Qed.

Lemma shr_located (mrs : shr_record) (e k X D : Z) :
  0 < D -> 0 <= shr_m mrs -> 0 <= k -> Rounding.located mrs X D ->
  exists mrs', shr mrs e k = (mrs', e + k)
    /\ Rounding.located mrs' X (2 ^ k * D)
    /\ shr_m mrs' = shr_m mrs / 2 ^ k.
Proof.
  intros HD Hm Hk Hl. destruct k as [|p|p]; [| |lia].
  - exists mrs. cbn [shr]. rewrite Z.add_0_r, Z.pow_0_r, Z.mul_1_l, Z.div_1_r.
    auto.
  - exists (SpecFloat.iter_pos shr_1 p mrs). cbn [shr].
    destruct (located_iter p mrs X D HD Hm Hl) as (H1 & H2 & _). auto.
Qed.

Lemma fexp_normal (e : Z) : - 1074 <= e - 53 -> fexp 53 1024 e = e - 53.
Proof. intros He. unfold fexp, emin. lia. Qed.

(** Rounding a mantissa of [53 + k] bits Rounding.located at [X / D]: the float
    has a mantissa of 53 bits and is within half a unit of its last place
    of the quotient. *)
Lemma binary_round_aux_located (sx : bool) (mx ex X D k : Z)
    (lx : location) :
  0 < D -> 0 <= k -> 2 ^ (52 + k) <= mx < 2 ^ (53 + k) ->
  Rounding.located (shr_record_of_loc mx lx) X D ->
  - 1074 <= ex + k -> ex + k + 1 <= 971 ->
  exists (m : positive) (e : Z),
    binary_round_aux 53 1024 sx mx ex lx = S754_finite sx m e
    /\ (e = ex + k \/ e = ex + k + 1)
    /\ 2 ^ 52 <= Z.pos m < 2 ^ 53
    /\ - (2 ^ (e - ex) * D) <= 2 * Z.pos m * (2 ^ (e - ex) * D) - 2 * X
       <= 2 ^ (e - ex) * D
    /\ (X = mx * D -> k = 0 -> Z.pos m = mx /\ e = ex).
Proof.
  intros HD Hk Hmx Hl Hlo Hhi.
  assert (Hpk : 0 < 2 ^ k) by (apply Z.pow_pos_nonneg; lia).
  assert (E52 : 2 ^ (52 + k) = 2 ^ 52 * 2 ^ k) by (apply Z.pow_add_r; lia).
  assert (E53 : 2 ^ (53 + k) = 2 ^ 53 * 2 ^ k) by (apply Z.pow_add_r; lia).
  assert (Hdig : Zdigits2 mx = 53 + k).
  { apply Zdigits2_unique; [lia|].
    replace (53 + k - 1) with (52 + k) by lia. exact Hmx. }
  unfold binary_round_aux, shr_fexp. rewrite Hdig.
  rewrite fexp_normal by lia.
  replace (53 + k + ex - 53 - ex) with k by lia.
  destruct (shr_located (shr_record_of_loc mx lx) ex k X D HD
              ltac:(rewrite shr_record_of_loc_m; rewrite E52 in Hmx; lia)
              Hk Hl) as (mrs' & -> & Hl' & Em).
  rewrite shr_record_of_loc_m in Em.
  assert (Hm' : 2 ^ 52 <= shr_m mrs' < 2 ^ 53).
  { rewrite Em. split.
    - apply Z.div_le_lower_bound; [lia|]. rewrite Z.mul_comm. lia.
    - apply Z.div_lt_upper_bound; [lia|]. rewrite Z.mul_comm. lia. }
  assert (HD' : 0 < 2 ^ k * D) by lia.
  destruct (round_nearest_even_located mrs' X (2 ^ k * D) HD' Hl')
    as (Hr1 & Hr2 & Hr3).
  set (m1 := round_nearest_even (shr_m mrs') (loc_of_shr_record mrs')) in *.
  destruct (Z.eq_dec m1 (2 ^ 53)) as [E | NE].
  - (* the mantissa overflows: one more shift *)
    rewrite E.
    change (Zdigits2 (2 ^ 53)) with 54.
    rewrite fexp_normal by lia.
    replace (54 + (ex + k) - 53 - (ex + k)) with 1 by lia.
    cbn [shr SpecFloat.iter_pos shr_record_of_loc].
    change (shr_1 {| shr_m := 2 ^ 53; shr_r := false; shr_s := false |})
      with {| shr_m := 2 ^ 52; shr_r := false; shr_s := false |}.
    cbn [shr_m]. change (2 ^ 52) with (Z.pos (2 ^ 52)%positive) at 1.
    cbv iota beta.
    destruct (Z.leb_spec (ex + k + 1) (1024 - 53)) as [_|]; [|lia].
    exists (2 ^ 52)%positive, (ex + k + 1).
    split; [reflexivity|]. split; [right; reflexivity|].
    split; [cbn; lia|]. split.
    + replace (ex + k + 1 - ex) with (k + 1) by lia.
      rewrite Z.pow_add_r, Z.pow_1_r by lia.
      change (Z.pos (2 ^ 52)) with (2 ^ 52).
      rewrite E in Hr2. change (2 ^ 53) with (2 * 2 ^ 52) in Hr2.
      set (P := 2 ^ k * D) in *.
      replace (2 ^ k * 2 * D) with (2 * P) by (unfold P; ring). lia.
    + intros HX Hk0. subst k. rewrite Z.pow_0_r, Z.mul_1_l in *.
      rewrite Z.div_1_r in Em. rewrite Em in Hr3.
      specialize (Hr3 HX). lia.
  - assert (Hm1 : 2 ^ 52 <= m1 < 2 ^ 53) by lia.
    assert (Hd1 : Zdigits2 m1 = 53)
      by (apply Zdigits2_unique; [lia | exact Hm1]).
    rewrite Hd1. rewrite fexp_normal by lia.
    replace (53 + (ex + k) - 53 - (ex + k)) with 0 by lia.
    cbn [shr shr_record_of_loc shr_m].
    destruct m1 as [|q|q] eqn:Eq; [lia | | lia].
    destruct (Z.leb_spec (ex + k) (1024 - 53)) as [_|]; [|lia].
    exists q, (ex + k).
    split; [reflexivity|]. split; [left; reflexivity|].
    split; [exact Hm1|]. split.
    + replace (ex + k - ex) with k by lia. exact Hr2.
    + intros HX Hk0. subst k. rewrite Z.pow_0_r, Z.mul_1_l in *.
      rewrite Z.div_1_r in Em. rewrite Em in Hr3.
      specialize (Hr3 HX). lia.
Qed.

(** The location of a remainder. *)
Lemma new_location_located (q r D : Z) :
  0 < D -> 0 <= r < D ->
  Rounding.located (shr_record_of_loc q (new_location D r)) (q * D + r) D.
Proof.
  intros HD Hr. unfold new_location, new_location_even, new_location_odd.
  assert (Hev : Z.even D = true -> D = 2 * (D / 2)).
  { intros He. rewrite Zeven_mod in He. apply Z.eqb_eq in He.
    pose proof (Z_div_mod_eq_full D 2). lia. }
  assert (Hod : Z.even D = false -> D = 2 * (D / 2) + 1).
  { intros He. rewrite Zeven_mod in He. apply Z.eqb_neq in He.
    pose proof (Z_div_mod_eq_full D 2).
    pose proof (Z.mod_pos_bound D 2 ltac:(lia)). lia. }
  destruct (Z.even D) eqn:He.
  - destruct (Z.eqb_spec r 0) as [-> | Hnz]; [unfold Rounding.located; cbn; lia|].
    destruct (Z.compare_spec (2 * r) D); unfold Rounding.located; cbn; lia.
  - specialize (Hod eq_refl).
    destruct (Z.eqb_spec r 0) as [-> | Hnz]; [unfold Rounding.located; cbn; lia|].
    destruct (Z.compare_spec (2 * r + 1) D); unfold Rounding.located; cbn; lia.
Qed.

Lemma iter_xO (r q : positive) :
  Z.pos (Pos.iter xO r q) = Z.pos r * 2 ^ Z.pos q.
Proof.
  induction q as [|q IH] using Pos.peano_ind.
  - cbn [Pos.iter]. rewrite (Pos2Z.inj_xO r). change (2 ^ 1) with 2. lia.
  - rewrite Pos.iter_succ, (Pos2Z.inj_xO (Pos.iter xO r q)), IH.
    rewrite Pos2Z.inj_succ, Z.pow_succ_r by lia. ring.
Qed.

(** The float of an integer of at most 53 bits scaled by a power of
    two: the mantissa is filled up to 53 bits and nothing is lost. *)
Lemma binary_normalize_exact (r : positive) (e : Z) :
  Z.pos r < 2 ^ 53 -> - 1074 <= e - 52 -> e <= 970 ->
  exists (mant : positive) (ex : Z),
    binary_normalize 53 1024 (Z.pos r) e false = S754_finite false mant ex
    /\ 2 ^ 52 <= Z.pos mant < 2 ^ 53
    /\ e - 52 <= ex <= e
    /\ Z.pos mant = Z.pos r * 2 ^ (e - ex).
Proof.
  intros Hr Hlo Hhi. cbn [binary_normalize]. unfold binary_round, shl_align.
  pose proof (digits2_pos_bounds r) as Hb.
  set (d := Z.pos (digits2_pos r)) in *.
  assert (Hd : 1 <= d <= 53).
  { split; [unfold d; lia|].
    destruct (Z.le_gt_cases d 53) as [|Hgt]; [assumption|].
    assert (2 ^ 53 <= 2 ^ (d - 1)) by (apply Z.pow_le_mono_r; lia).
    lia. }
  rewrite fexp_normal by lia.
  replace (d + e - 53 - e) with (d - 53) by lia.
  assert (Hfin : forall (mant : positive) (ex : Z),
            2 ^ 52 <= Z.pos mant < 2 ^ 53 -> e - 52 <= ex <= e ->
            Z.pos mant = Z.pos r * 2 ^ (e - ex) ->
            exists (mant' : positive) (ex' : Z),
              binary_round_aux 53 1024 false (Z.pos mant) ex loc_Exact
              = S754_finite false mant' ex'
              /\ 2 ^ 52 <= Z.pos mant' < 2 ^ 53 /\ e - 52 <= ex' <= e
              /\ Z.pos mant' = Z.pos r * 2 ^ (e - ex')).
  { intros mant ex Hm Hex Hv.
    destruct (binary_round_aux_located false (Z.pos mant) ex (Z.pos mant) 1 0
                loc_Exact) as (m & e' & -> & _ & _ & _ & Hexact);
      [lia | lia | exact Hm | apply located_exact | lia | lia |].
    destruct (Hexact ltac:(lia) eq_refl) as [Em ->].
    exists m, ex. rewrite Em. auto. }
  destruct (d - 53) as [|p|p] eqn:Edp; [| lia |].
  - apply Hfin; [|lia|].
    + replace (d - 1) with 52 in Hb by lia. replace d with 53 in Hb by lia.
      exact Hb.
    + replace (e - e) with 0 by lia. rewrite Z.pow_0_r. lia.
  - assert (Ep : Z.pos p = 53 - d) by lia.
    assert (Hpp : 0 < 2 ^ Z.pos p) by (apply Z.pow_pos_nonneg; lia).
    apply Hfin; [|lia|].
    + rewrite iter_xO.
      assert (E52 : 2 ^ 52 = 2 ^ (d - 1) * 2 ^ Z.pos p).
      { rewrite <- Z.pow_add_r by lia. f_equal. lia. }
      assert (E53 : 2 ^ 53 = 2 ^ d * 2 ^ Z.pos p).
      { rewrite <- Z.pow_add_r by lia. f_equal. lia. }
      rewrite E52, E53. split.
      * apply Z.mul_le_mono_nonneg_r; lia.
      * apply Z.mul_lt_mono_pos_r; lia.
    + rewrite iter_xO. do 2 f_equal. lia.
Qed.

(** The quotient of two floats with full mantissas. *)
Lemma div_normal (m1 m2 : positive) (e1 e2 : Z) :
  2 ^ 52 <= Z.pos m1 < 2 ^ 53 -> 2 ^ 52 <= Z.pos m2 < 2 ^ 53 ->
  - 1074 <= e1 - e2 - 53 -> e1 - e2 - 51 <= 971 ->
  exists (m : positive) (e : Z),
    SFdiv 53 1024 (S754_finite false m1 e1) (S754_finite false m2 e2)
    = S754_finite false m e
    /\ 2 ^ 52 <= Z.pos m < 2 ^ 53
    /\ e1 - e2 - 53 <= e <= e1 - e2 - 51
    /\ - (2 ^ (e - (e1 - e2 - 53)) * Z.pos m2)
       <= 2 * Z.pos m * (2 ^ (e - (e1 - e2 - 53)) * Z.pos m2)
          - 2 * (Z.pos m1 * 2 ^ 53)
       <= 2 ^ (e - (e1 - e2 - 53)) * Z.pos m2.
Proof.
  intros H1 H2 Hlo Hhi. cbn [SFdiv xorb]. unfold SFdiv_core_binary.
  rewrite (Zdigits2_unique (Z.pos m1) 53) by (auto; lia).
  rewrite (Zdigits2_unique (Z.pos m2) 53) by (auto; lia).
  replace (53 + e1 - (53 + e2)) with (e1 - e2) by lia.
  rewrite fexp_normal by lia.
  rewrite Z.min_l by lia.
  replace (e1 - e2 - (e1 - e2 - 53)) with 53 by lia.
  cbv iota. rewrite Z.shiftl_mul_pow2 by lia.
  pose proof (Z_div_mod (Z.pos m1 * 2 ^ 53) (Z.pos m2) ltac:(lia)) as Hdm.
  destruct (Z.div_eucl (Z.pos m1 * 2 ^ 53) (Z.pos m2)) as [q r].
  destruct Hdm as [Eq Hr].
  assert (Hq : 2 ^ 52 <= q < 2 ^ 54).
  { change (2 ^ 54) with (2 * 2 ^ 53). change (2 ^ 53) with (2 * 2 ^ 52) in *.
    set (a := 2 ^ 52) in *. assert (0 < a) by (unfold a; lia). clearbody a.
    nia. }
  assert (Hloc : Rounding.located (shr_record_of_loc q (new_location (Z.pos m2) r))
                   (Z.pos m1 * 2 ^ 53) (Z.pos m2)).
  { rewrite Eq, (Z.mul_comm (Z.pos m2) q).
    apply new_location_located; lia. }
  destruct (Z_lt_dec q (2 ^ 53)) as [Hlt | Hge].
  - destruct (binary_round_aux_located false q (e1 - e2 - 53)
                (Z.pos m1 * 2 ^ 53) (Z.pos m2) 0 (new_location (Z.pos m2) r))
      as (m & e & -> & He & Hm & Hb & _);
      [lia | lia | | exact Hloc | lia | lia |];
      [cbn [Z.add Pos.add Pos.succ]; lia|].
    exists m, e. split; [reflexivity|]. split; [exact Hm|].
    split; [lia|]. exact Hb.
  - destruct (binary_round_aux_located false q (e1 - e2 - 53)
                (Z.pos m1 * 2 ^ 53) (Z.pos m2) 1 (new_location (Z.pos m2) r))
      as (m & e & -> & He & Hm & Hb & _);
      [lia | lia | | exact Hloc | lia | lia |];
      [cbn [Z.add Pos.add Pos.succ]; lia|].
    exists m, e. split; [reflexivity|]. split; [exact Hm|].
    split; [lia|]. exact Hb.
Qed.

(** The product of two floats with full mantissas. *)
Lemma mul_normal (m1 m2 : positive) (e1 e2 : Z) :
  2 ^ 52 <= Z.pos m1 < 2 ^ 53 -> 2 ^ 52 <= Z.pos m2 < 2 ^ 53 ->
  - 1074 <= e1 + e2 + 52 -> e1 + e2 + 54 <= 971 ->
  exists (m : positive) (e : Z),
    SFmul 53 1024 (S754_finite false m1 e1) (S754_finite false m2 e2)
    = S754_finite false m e
    /\ 2 ^ 52 <= Z.pos m < 2 ^ 53
    /\ e1 + e2 + 52 <= e <= e1 + e2 + 54
    /\ - 2 ^ (e - (e1 + e2))
       <= 2 * Z.pos m * 2 ^ (e - (e1 + e2)) - 2 * (Z.pos m1 * Z.pos m2)
       <= 2 ^ (e - (e1 + e2)).
Proof.
  intros H1 H2 Hlo Hhi. cbn [SFmul xorb]. rewrite Pos2Z.inj_mul.
  assert (HP : 2 ^ 104 <= Z.pos m1 * Z.pos m2 < 2 ^ 106).
  { change (2 ^ 104) with (2 ^ 52 * 2 ^ 52).
    change (2 ^ 106) with (2 ^ 53 * 2 ^ 53).
    set (a := 2 ^ 52) in *. set (b := 2 ^ 53) in *.
    assert (0 < a /\ 0 < b) by (unfold a, b; lia). clearbody a b. nia. }
  destruct (Z_lt_dec (Z.pos m1 * Z.pos m2) (2 ^ 105)) as [Hlt | Hge].
  - destruct (binary_round_aux_located false (Z.pos m1 * Z.pos m2) (e1 + e2)
                (Z.pos m1 * Z.pos m2) 1 52 loc_Exact)
      as (m & e & -> & He & Hm & Hb & _);
      [lia | lia | | apply located_exact | lia | lia |];
      [cbn [Z.add Pos.add Pos.succ]; lia|].
    exists m, e. split; [reflexivity|]. split; [exact Hm|].
    split; [lia|]. rewrite !Z.mul_1_r in Hb. exact Hb.
  - destruct (binary_round_aux_located false (Z.pos m1 * Z.pos m2) (e1 + e2)
                (Z.pos m1 * Z.pos m2) 1 53 loc_Exact)
      as (m & e & -> & He & Hm & Hb & _);
      [lia | lia | | apply located_exact | lia | lia |];
      [cbn [Z.add Pos.add Pos.succ]; lia|].
    exists m, e. split; [reflexivity|]. split; [exact Hm|].
    split; [lia|]. rewrite !Z.mul_1_r in Hb. exact Hb.
Qed.

(** The arithmetic of the microseconds: [r / S] is the fraction of the
    quotient, [r0] the thousandths, [my / T] the float product and [u]
    the integer it is rounded to. *)
Lemma micro_bound (u my r r0 S V T G : Z) :
  0 < V -> 0 < G -> T * G = S * V -> 2 ^ 19 <= S -> 32 <= T ->
  0 <= r0 ->
  - 1000 <= 2000 * r - 2 * r0 * S <= 1000 ->
  - G <= 2 * my * G - 2 * (r * V) * 1000000 <= G ->
  - T <= 2 * u * T - 2 * my <= T ->
  (- 1 <= u - 1000 * r0 <= 1)
  /\ (2 ^ 20 <= S -> u = 1000 * r0).
Proof.
  intros HV HG HW HS HT Hr0 Ha Hb Hc.
  change (2 ^ 19) with 524288 in HS. change (2 ^ 20) with 1048576.
  set (W := T * G) in *.
  assert (HWpos : 0 < W) by (unfold W; nia).
  (* (c) times G *)
  assert (D1 : - W <= 2 * u * W - 2 * my * G <= W) by (unfold W; nia).
  (* (a) times 1000 V *)
  assert (D2 : - (1000000 * V) <= 2000000 * (r * V) - 2000 * r0 * W
               <= 1000000 * V) by (rewrite HW; nia).
  assert (D3 : - (W + G + 1000000 * V)
               <= (2 * u - 2000 * r0) * W <= W + G + 1000000 * V) by lia.
  assert (HG2 : 32 * G <= W) by (unfold W; nia).
  assert (HV2 : 524288 * V <= W) by (rewrite HW; nia).
  split.
  - assert (- 4 < 2 * u - 2000 * r0 < 4) by nia. lia.
  - intros HS'. assert (HV3 : 1048576 * V <= W) by (rewrite HW; nia).
    assert (- 2 < 2 * u - 2000 * r0 < 2) by nia. lia.
Qed.

Lemma round_half_even_near (my : positive) (ey : Z) :
  ey < 0 ->
  exists u, Float64.round_half_even (S754_finite false my ey) = Some u
    /\ 0 <= u
    /\ - 2 ^ (- ey) <= 2 * u * 2 ^ (- ey) - 2 * Z.pos my <= 2 ^ (- ey).
Proof.
  intros Hey. cbn [Float64.round_half_even].
  destruct (Z.leb_spec 0 ey) as [|_]; [lia|].
  assert (HT : 0 < 2 ^ (- ey)) by (apply Z.pow_pos_nonneg; lia).
  set (T := 2 ^ (- ey)) in *. clearbody T.
  pose proof (Z_div_mod_eq_full (Z.pos my) T) as Hdm.
  pose proof (Z.mod_pos_bound (Z.pos my) T HT) as Hr.
  assert (Hq : 0 <= Z.pos my / T) by (apply Z.div_pos; lia).
  set (q := Z.pos my / T) in *. set (r := Z.pos my mod T) in *.
  clearbody q r.
  destruct (Z.compare_spec (2 * r) T) as [E | L | G].
  - destruct (Z.odd q); eexists; (split; [reflexivity|]); nia.
  - eexists; (split; [reflexivity|]); nia.
  - eexists; (split; [reflexivity|]); nia.
Qed.

Lemma pow2_ge (t k : Z) : 2 ^ k < 2 ^ t -> 0 <= k -> k + 1 <= t.
Proof.
  intros Hlt Hk. destruct (Z.le_gt_cases t k) as [Hle|]; [|lia].
  destruct (Z.le_gt_cases 0 t) as [Ht | Ht].
  - pose proof (Z.pow_le_mono_r 2 t k ltac:(lia) Hle). lia.
  - rewrite (Z.pow_neg_r 2 t Ht) in Hlt.
    pose proof (Z.pow_pos_nonneg 2 k ltac:(lia) Hk). lia.
Qed.

(** The quotient of an integer below [10^13] by 1000, as a float: a
    mantissa [m] and a scale [S = 2^(-e)], at least [2^19], with
    [m / S] within half a unit of the last place of [n / 1000]. *)
Lemma millis_quotient (n : Z) :
  0 < n < 10 ^ 13 ->
  exists (m : positive) (e : Z),
    Float64.div (Float64.of_int n) (Float64.of_int 1000)
    = S754_finite false m e
    /\ - 62 <= e <= - 19
    /\ 2 ^ 52 <= Z.pos m < 2 ^ 53
    /\ - 1000 <= 2000 * Z.pos m - 2 * n * 2 ^ (- e) <= 1000
    /\ (n < 8589934592000 -> e <= - 20).
Proof.
  intros Hn. destruct n as [|p|p]; [lia | | lia].
  unfold Float64.of_int at 1. unfold Float64.prec, Float64.emax.
  destruct (binary_normalize_exact p 0) as (m1 & e1 & -> & Hm1 & He1 & Ev1);
    [change (2 ^ 53) with 9007199254740992;
     change (10 ^ 13) with 10000000000000 in Hn; lia | lia | lia |].
  change (Float64.of_int 1000) with (S754_finite false 8796093022208000 (-43)).
  unfold Float64.div, Float64.prec, Float64.emax.
  destruct (div_normal m1 8796093022208000 e1 (-43)) as (m & e & -> & Hm & He & Hb);
    [exact Hm1 | cbn; lia | lia | lia |].
  exists m, e. split; [reflexivity|].
  assert (HE1 : 0 < 2 ^ (0 - e1)) by (apply Z.pow_pos_nonneg; lia).
  set (E1 := 2 ^ (0 - e1)) in *.
  assert (HS : exists j, 0 <= j <= 2 /\ e = e1 - 10 + j
                         /\ 2 ^ (- e) = E1 * 2 ^ (10 - j)).
  { exists (e - (e1 - 10)). split; [lia|]. split; [lia|].
    unfold E1. rewrite <- Z.pow_add_r by lia. f_equal. lia. }
  destruct HS as (j & Hj & Ej & ES).
  replace (e - (e1 - -43 - 53)) with j in Hb by lia.
  change (10 ^ 13) with 10000000000000 in Hn.
  change (2 ^ 52) with 4503599627370496 in *.
  change (2 ^ 53) with 9007199254740992 in *.
  assert (Ha : - 1000 <= 2000 * Z.pos m - 2 * Z.pos p * 2 ^ (- e) <= 1000).
  { rewrite ES. rewrite Ev1 in Hb. set (nE := Z.pos p * E1) in *.
    replace (2 * Z.pos p * (E1 * 2 ^ (10 - j)))
      with (2 * nE * 2 ^ (10 - j)) by (unfold nE; ring).
    clearbody nE.
    assert (Hcase : j = 0 \/ j = 1 \/ j = 2) by lia.
    destruct Hcase as [-> | [-> | ->]]; cbn in Hb |- *; lia. }
  assert (HSpos : 0 < 2 ^ (- e)).
  { rewrite ES. apply Z.mul_pos_pos; [lia|]. apply Z.pow_pos_nonneg; lia. }
  set (S := 2 ^ (- e)) in *.
  assert (HnS : Z.pos p * S <= 9999999999999 * S)
    by (apply Z.mul_le_mono_nonneg_r; lia).
  assert (HS18 : 2 ^ 18 < 2 ^ (- e)).
  { fold S. change (2 ^ 18) with 262144. lia. }
  apply pow2_ge in HS18; [|lia].
  split; [lia|]. split; [lia|]. split; [exact Ha|].
  intros Hsmall.
  assert (HnS' : Z.pos p * S <= 8589934591999 * S)
    by (apply Z.mul_le_mono_nonneg_r; lia).
  assert (HS19 : 2 ^ 19 < 2 ^ (- e)).
  { fold S. change (2 ^ 19) with 524288. lia. }
  apply pow2_ge in HS19; lia.
Qed.

(** The seconds and the microseconds [fromtimestamp] reads in the float
    quotient of a number of milliseconds by 1000. *)
Lemma timeval_millis (n : Z) :
  0 <= n < 10 ^ 13 ->
  exists us,
    Datetime.object_to_timeval
      (Float64.div (Float64.of_int n) (Float64.of_int 1000))
    = Ok (n / 1000, us)
    /\ - 1 <= us - 1000 * (n mod 1000) <= 1
    /\ 0 <= us <= 999999
    /\ (n < 8589934592000 -> us = 1000 * (n mod 1000)).
Proof.
  intros Hn. destruct (Z.eq_dec n 0) as [-> | Hnz].
  { exists 0. split; [reflexivity|]. change (0 mod 1000) with 0. lia. }
  destruct (millis_quotient n ltac:(lia)) as (m & e & -> & He & Hm & Ha & Hex).
  pose proof (Z_div_mod_eq_full n 1000) as Hdm.
  pose proof (Z.mod_pos_bound n 1000 ltac:(lia)) as Hr0.
  assert (Hq0 : 0 <= n / 1000) by (apply Z.div_pos; lia).
  set (q0 := n / 1000) in *. set (r0 := n mod 1000) in *. clearbody q0 r0.
  assert (HS19 : 2 ^ 19 <= 2 ^ (- e)) by (apply Z.pow_le_mono_r; lia).
  assert (HS20 : n < 8589934592000 -> 2 ^ 20 <= 2 ^ (- e)).
  { intros Hs. apply Z.pow_le_mono_r; [lia|]. specialize (Hex Hs). lia. }
  set (S := 2 ^ (- e)) in *.
  change (2 ^ 19) with 524288 in HS19.
  change (10 ^ 13) with 10000000000000 in Hn.
  change (2 ^ 52) with 4503599627370496 in Hm.
  change (2 ^ 53) with 9007199254740992 in Hm.
  (* the integral part *)
  assert (Hr0S : 0 <= r0 * S <= 999 * S) by nia.
  assert (HnS : n * S = 1000 * (q0 * S) + r0 * S) by (rewrite Hdm; ring).
  assert (Hdiv : Z.pos m / S = q0).
  { symmetry. apply (Z.div_unique _ _ _ (Z.pos m - S * q0)); lia. }
  assert (Hmod : Z.pos m mod S = Z.pos m - S * q0).
  { symmetry. apply (Z.mod_unique _ _ q0); lia. }
  assert (Ha' : - 1000 <= 2000 * (Z.pos m - S * q0) - 2 * r0 * S <= 1000)
    by lia.
  unfold Datetime.object_to_timeval. cbn [Float64.modf].
  destruct (Z.leb_spec 0 e) as [|_]; [lia|].
  fold S. rewrite Hdiv, Hmod.
  assert (Hsec : Datetime.between (- 2 ^ 63) (2 ^ 63 - 1) q0 = true).
  { unfold Datetime.between. apply andb_true_iff.
    split; apply Z.leb_le; cbn; lia. }
  set (r := Z.pos m - S * q0) in *.
  assert (Hr : 0 <= r < S) by (unfold r; lia).
  destruct r as [|pr|pr] eqn:Er; [| | lia].
  - (* the quotient is an integer *)
    assert (r0 = 0) by nia. subst r0.
    exists 0.
    change (Float64.round_half_even
              (Float64.mul (binary_normalize Float64.prec Float64.emax 0 e false)
                 (Float64.of_int 1000000))) with (Some 0).
    cbv iota beta. cbn [Z.leb Z.ltb Z.compare]. rewrite Hsec.
    split; [reflexivity|]. lia.
  - unfold Float64.prec, Float64.emax.
    destruct (binary_normalize_exact pr e) as (mant & ex & -> & Hmant & Hexr & Ev);
      [change (2 ^ 53) with 9007199254740992; lia | lia | lia |].
    change (Float64.of_int 1000000)
      with (S754_finite false 8589934592000000 (-33)).
    unfold Float64.mul, Float64.prec, Float64.emax.
    destruct (mul_normal mant 8589934592000000 ex (-33))
      as (my & ey & -> & Hmy & Hey & Hb); [exact Hmant | cbn; lia | lia | lia |].
    assert (HV : 0 < 2 ^ (e - ex)) by (apply Z.pow_pos_nonneg; lia).
    set (V := 2 ^ (e - ex)) in *.
    assert (HSV : S * V = 2 ^ (- ex)).
    { unfold S, V. rewrite <- Z.pow_add_r by lia. f_equal. lia. }
    assert (Hex53 : 52 + 1 <= - ex).
    { apply pow2_ge; [|lia]. rewrite <- HSV.
      change (2 ^ 52) with 4503599627370496.
      change (2 ^ 52) with 4503599627370496 in Hmant.
      assert (Z.pos pr * V < S * V) by (apply Z.mul_lt_mono_pos_r; lia).
      lia. }
    destruct (round_half_even_near my ey ltac:(lia)) as (u & -> & Hu & Hc).
    assert (HTG : exists G, 0 < G /\ 2 ^ (- ey) * G = S * V
                   /\ - G <= 2 * Z.pos my * G - 2 * (Z.pos pr * V) * 1000000
                      <= G).
    { assert (Hcase : ey = ex + 19 \/ ey = ex + 20 \/ ey = ex + 21) by lia.
      rewrite Ev in Hb.
      set (rV := Z.pos pr * V) in *. clearbody rV.
      destruct Hcase as [-> | [-> | ->]].
      - exists (2 ^ 19). split; [lia|]. split.
        + rewrite HSV, <- Z.pow_add_r by lia. f_equal. lia.
        + replace (ex + 19 - (ex + -33)) with 52 in Hb by lia.
          cbn in Hb |- *. lia.
      - exists (2 ^ 20). split; [lia|]. split.
        + rewrite HSV, <- Z.pow_add_r by lia. f_equal. lia.
        + replace (ex + 20 - (ex + -33)) with 53 in Hb by lia.
          cbn in Hb |- *. lia.
      - exists (2 ^ 21). split; [lia|]. split.
        + rewrite HSV, <- Z.pow_add_r by lia. f_equal. lia.
        + replace (ex + 21 - (ex + -33)) with 54 in Hb by lia.
          cbn in Hb |- *. lia. }
    destruct HTG as (G & HG & HTG & Hb').
    assert (HT : 32 <= 2 ^ (- ey)).
    { change 32 with (2 ^ 5). apply Z.pow_le_mono_r; lia. }
    destruct (micro_bound u (Z.pos my) (Z.pos pr) r0 S V (2 ^ (- ey)) G
                HV HG HTG ltac:(exact HS19) HT ltac:(lia) Ha' Hb' Hc)
      as [Hnear Hexact].
    exists u.
    destruct (Z.leb_spec 1000000 u) as [|_]; [lia|].
    destruct (Z.ltb_spec u 0) as [|_]; [lia|].
    rewrite Hsec. split; [reflexivity|]. split; [lia|]. split; [lia|].
    intros Hs. apply Hexact. change (2 ^ 20) with 1048576.
    specialize (HS20 Hs). change (2 ^ 20) with 1048576 in HS20. exact HS20.
Qed.


Lemma fold_read_lt (s : pystr) : forall a : N,
  forallb Unicode.isdecimal s = true ->
  (fold_left Spec.read s a < (a + 1) * Aux.pow10 (length s))%N.
Proof.
  induction s as [|c s IH]; intros a Hs; [cbn; lia|].
  cbn [forallb] in Hs. apply andb_true_iff in Hs as [Hc Hs].
  cbn [fold_left length Aux.pow10].
  specialize (IH (Spec.read a c) Hs).
  assert (Hd : (Spec.read a c + 1 <= 10 * (a + 1))%N).
  { unfold Spec.read, Spec.digit_value. unfold Unicode.isdecimal in Hc.
    destruct (Unicode.to_decimal c) as [v|] eqn:E; [|discriminate].
    apply to_decimal_lt10 in E. lia. }
  pose proof (pow10_pos (length s)) as Hp.
  set (P := Aux.pow10 (length s)) in *. set (x := Spec.read a c) in *.
  clearbody P x.
  assert ((x + 1) * P <= 10 * (a + 1) * P)%N
    by (apply N.mul_le_mono_r; exact Hd).
  lia.
Qed.

Lemma decimal_value_13 (s : pystr) :
  length s = 13%nat -> forallb Unicode.isdecimal s = true ->
  0 <= Spec.decimal_value s < 10 ^ 13.
Proof.
  intros Hl Hs. unfold Spec.decimal_value.
  pose proof (fold_read_lt s 0%N Hs) as Hlt. rewrite Hl in Hlt.
  change (Aux.pow10 13) with (10 ^ 13)%N in Hlt.
  change (10 ^ 13) with (Z.of_N (10 ^ 13)%N). lia.
Qed.

Section Timestamps.

Context `{Datetime.Platform}.

Lemma fromtimestamp_millis (n : Z) :
  0 <= n < 10 ^ 13 ->
  exists us,
    - 1 <= us - 1000 * (n mod 1000) <= 1 /\ 0 <= us <= 999999
    /\ (n < 8589934592000 -> us = 1000 * (n mod 1000))
    /\ Datetime.fromtimestamp
         (Float64.div (Float64.of_int n) (Float64.of_int 1000))
       = let c := Datetime.localtime (n / 1000) in
         Datetime.new (Datetime.tm_year c + 1900) (Datetime.tm_mon c + 1)
           (Datetime.tm_mday c) (Datetime.tm_hour c) (Datetime.tm_min c)
           (Z.min 59 (Datetime.tm_sec c)) us.
Proof.
  intros Hn. destruct (timeval_millis n Hn) as (us & Htv & Hnear & Hus & Hex).
  exists us. split; [exact Hnear|]. split; [exact Hus|]. split; [exact Hex|].
  unfold Datetime.fromtimestamp. rewrite Htv. reflexivity.
Qed.

Lemma new_valid_tm (c : Datetime.tm) (us : Z) :
  Tm.valid c = true -> 0 <= us <= 999999 ->
  Datetime.new (Datetime.tm_year c + 1900) (Datetime.tm_mon c + 1)
    (Datetime.tm_mday c) (Datetime.tm_hour c) (Datetime.tm_min c)
    (Z.min 59 (Datetime.tm_sec c)) us
  = Ok (Tm.to_datetime c us).
Proof.
  unfold Tm.valid. rewrite !andb_true_iff.
  intros [[[[[Hy Hm] Hd] Hh] Hmi] Hs] Hus.
  unfold Datetime.new. rewrite Hy, Hm, Hd, Hh, Hmi. cbn [negb].
  apply Z.leb_le in Hs.
  replace (Datetime.between 0 59 (Z.min 59 (Datetime.tm_sec c))) with true
    by (symmetry; unfold Datetime.between; apply andb_true_iff;
        split; apply Z.leb_le; lia).
  replace (Datetime.between 0 999999 us) with true
    by (symmetry; unfold Datetime.between; apply andb_true_iff;
        split; apply Z.leb_le; lia).
  reflexivity.
Qed.

(** X11.  A text of 13 decimal digits whose value is below
    8589934592000 (that is [2^33] seconds, in the year 2242) becomes
    exactly the timestamp of the epoch plus that many milliseconds: the
    float division and the float product lose nothing there. *)
Theorem process_data_millis_exact (s : pystr) :
  length s = 13%nat -> forallb Unicode.isdecimal s = true ->
  Spec.decimal_value s < 8589934592000 ->
  process_data (VStr s)
  = let* dt := Spec.epoch_plus_millis (Spec.decimal_value s) in
    Ok (VDatetime dt).
Proof.
  intros Hl Hs Hv. rewrite (process_data_decimal s Hl Hs).
  destruct (fromtimestamp_millis _ (decimal_value_13 s Hl Hs))
    as (us & _ & _ & Hex & ->).
  rewrite (Hex Hv). unfold Spec.epoch_plus_millis.
  replace (1000 * (Spec.decimal_value s mod 1000))
    with (Spec.decimal_value s mod 1000 * 1000) by ring.
  reflexivity.
Qed.

(** X12.  For every text of 13 decimal digits the timestamp is that of
    the second of the epoch plus the value in milliseconds, and its
    microseconds are at most one away from the milliseconds of the value
    times 1000; the conversion of the float never overflows. *)
Theorem process_data_millis_near (s : pystr) :
  length s = 13%nat -> forallb Unicode.isdecimal s = true ->
  exists us,
    - 1 <= us - Spec.decimal_value s mod 1000 * 1000 <= 1
    /\ 0 <= us <= 999999
    /\ process_data (VStr s)
       = let c := Datetime.localtime (Spec.decimal_value s / 1000) in
         let* dt :=
           Datetime.new (Datetime.tm_year c + 1900) (Datetime.tm_mon c + 1)
             (Datetime.tm_mday c) (Datetime.tm_hour c) (Datetime.tm_min c)
             (Z.min 59 (Datetime.tm_sec c)) us in
         Ok (VDatetime dt).
Proof.
  intros Hl Hs. rewrite (process_data_decimal s Hl Hs).
  destruct (fromtimestamp_millis _ (decimal_value_13 s Hl Hs))
    as (us & Hnear & Hus & _ & ->).
  exists us. split; [lia|]. split; [exact Hus|]. reflexivity.
Qed.

(** X13.  Where the local time of the platform is a date and a time of
    the calendar, a text of 13 decimal digits and an [int] of 13 digits
    never raise: they become the timestamp of that local time. *)
Theorem process_data_millis_total :
  (forall s : pystr,
     length s = 13%nat -> forallb Unicode.isdecimal s = true ->
     Tm.valid (Datetime.localtime (Spec.decimal_value s / 1000)) = true ->
     exists us,
       - 1 <= us - Spec.decimal_value s mod 1000 * 1000 <= 1
       /\ process_data (VStr s)
          = Ok (VDatetime
                  (Tm.to_datetime
                     (Datetime.localtime (Spec.decimal_value s / 1000)) us)))
  /\ (forall n : Z,
        10 ^ 12 <= n < 10 ^ 13 ->
        Tm.valid (Datetime.localtime (n / 1000)) = true ->
        exists us,
          - 1 <= us - n mod 1000 * 1000 <= 1
          /\ process_data (VInt n)
             = Ok (VDatetime
                     (Tm.to_datetime (Datetime.localtime (n / 1000)) us))).
Proof.
  split.
  - intros s Hl Hs Hvalid. rewrite (process_data_decimal s Hl Hs).
    destruct (fromtimestamp_millis _ (decimal_value_13 s Hl Hs))
      as (us & Hnear & Hus & _ & ->).
    exists us. split; [lia|]. cbv zeta.
    rewrite (new_valid_tm _ _ Hvalid Hus). reflexivity.
  - intros n Hn Hvalid.
    destruct (of_int_digits n Hn) as (Hl & Hd & Hv).
    pose proof (ascii_digits_decimal _ Hd) as Hdec.
    assert (H13 : is_13_digits (VInt n) = true)
      by (apply (is_13_digits_decimal (PyStr.of_int n)); assumption).
    unfold process_data. rewrite H13. cbn [py_int bind].
    unfold int_truediv. cbn [Z.eqb bind].
    destruct (fromtimestamp_millis n ltac:(lia))
      as (us & Hnear & Hus & _ & ->).
    exists us. split; [lia|]. cbv zeta.
    rewrite (new_valid_tm _ _ Hvalid Hus). reflexivity.
Qed.

End Timestamps.

(** *** The coercion on a machine in UTC, further *)


(** X10 on twelve ASCII digits followed by a superscript two. *)
Lemma process_data_other_digit_witness :
  @process_data Datetime.utc (VStr (py:"160945920000" ++ [178%N]))
  = raise ValueError "invalid literal for int() with base 10".
Proof. apply process_data_other_digit; reflexivity. Defined.

(** X11 on a millisecond of 2021. *)
Lemma process_data_millis_exact_witness :
  @process_data Datetime.utc (VStr py:"1609459200123")
  = Ok (VDatetime (Datetime.mk 2021 1 1 0 0 0 123000)).
Proof.
  rewrite (@process_data_millis_exact Datetime.utc py:"1609459200123")
    by (vm_compute; reflexivity).
  vm_compute. reflexivity.
Defined.

(** X12 on the text whose timestamp is one microsecond off. *)
Lemma process_data_millis_near_witness :
  exists us,
    - 1 <= us - Spec.decimal_value py:"9999999999998" mod 1000 * 1000 <= 1
    /\ 0 <= us <= 999999
    /\ @process_data Datetime.utc (VStr py:"9999999999998")
       = let c := Datetime.gmtime (Spec.decimal_value py:"9999999999998" / 1000) in
         let* dt :=
           Datetime.new (Datetime.tm_year c + 1900) (Datetime.tm_mon c + 1)
             (Datetime.tm_mday c) (Datetime.tm_hour c) (Datetime.tm_min c)
             (Z.min 59 (Datetime.tm_sec c)) us in
         Ok (VDatetime dt).
Proof.
  apply (@process_data_millis_near Datetime.utc py:"9999999999998");
    reflexivity.
Defined.

(** X13 on a text and on an [int]. *)
Lemma process_data_millis_total_witness :
  (exists us,
     - 1 <= us - Spec.decimal_value py:"9999999999998" mod 1000 * 1000 <= 1
     /\ @process_data Datetime.utc (VStr py:"9999999999998")
        = Ok (VDatetime
                (Tm.to_datetime
                   (Datetime.gmtime
                      (Spec.decimal_value py:"9999999999998" / 1000)) us)))
  /\ (exists us,
        - 1 <= us - 1609459200123 mod 1000 * 1000 <= 1
        /\ @process_data Datetime.utc (VInt 1609459200123)
           = Ok (VDatetime
                   (Tm.to_datetime
                      (Datetime.gmtime (1609459200123 / 1000)) us))).
Proof.
  split.
  - apply (proj1 (@process_data_millis_total Datetime.utc)
             py:"9999999999998"); vm_compute; reflexivity.
  - apply (proj2 (@process_data_millis_total Datetime.utc) 1609459200123);
      [lia | vm_compute; reflexivity].
Defined.
